(** * Differential-loading pipeline of the browser builder

    A shallow embedding of
    [packages/angular_devkit/build_angular/src/browser/index.ts]
    (the differential-loading branch of [buildWebpackBrowser]) and of
    [plugins/common-js-usage-warn-plugin.ts], with the properties of the
    specification stated and settled against them.

    The second part covers more of the code: the callback of
    [buildWebpackBrowser] around that branch, [initialize],
    [getAnalyticsConfig], [getBrowserConfig], [getServerConfig] with
    [externalizePackages], the texts of [webpack/utils/stats.ts],
    [OptimizeCssWebpackPlugin] and [createWebpackInputHost]. *)

From Stdlib Require Import Ascii Lia.
From stdpp Require Import gmap strings list pretty.

Set Warnings "-clear-no-such-hyp".

(** ** JavaScript strings and the two filename regular expressions *)

Module JsString.

(** [dropPrefix p s] is [Some rest] when [s = p +:+ rest]. *)
Fixpoint dropPrefix (p s : string) : option string :=
  match p with
  | EmptyString => Some s
  | String a p' =>
      match s with
      | EmptyString => None
      | String b s' => if Ascii.eqb a b then dropPrefix p' s' else None
      end
  end.

(** [s.startsWith(p)] *)
Definition startsWith (s p : string) : bool :=
  match dropPrefix p s with Some _ => true | None => false end.

(** [s.includes(p)] *)
Fixpoint includes (s p : string) : bool :=
  startsWith s p ||
  match s with
  | EmptyString => false
  | String _ s' => includes s' p
  end.

(** [s.endsWith(p)] *)
Fixpoint endsWith (s p : string) : bool :=
  String.eqb s p ||
  match s with
  | EmptyString => false
  | String _ s' => endsWith s' p
  end.

(** The regular-expression class [\d]. *)
Definition isDigit (c : ascii) : bool :=
  (48 <=? nat_of_ascii c) && (nat_of_ascii c <=? 57).

(** A match of [/\-es20\d{2}/] anchored at the head of [s]; the result is
    what follows the match. *)
Definition match_es20 (s : string) : option string :=
  match dropPrefix "-es20" s with
  | Some (String d1 (String d2 rest)) =>
      if isDigit d1 && isDigit d2 then Some rest else None
  | _ => None
  end.

(** A match of [/\-(es20\d{2}|esnext)/] anchored at the head of [s]. *)
Definition match_es20_or_esnext (s : string) : option string :=
  match match_es20 s with
  | Some rest => Some rest
  | None => dropPrefix "-esnext" s
  end.

(** [s.replace(re, r)] for a regular expression without the [g] flag: the
    leftmost match is replaced, the rest of the string is kept. *)
Fixpoint replaceFirst (m : string -> option string) (r s : string) : string :=
  match m s with
  | Some rest => r +:+ rest
  | None =>
      match s with
      | EmptyString => EmptyString
      | String c s' => String c (replaceFirst m r s')
      end
  end.

(** Whether the expression matches anywhere in [s] ([re.test(s)]). *)
Fixpoint hasMatch (m : string -> option string) (s : string) : bool :=
  match m s with
  | Some _ => true
  | None =>
      match s with
      | EmptyString => false
      | String _ s' => hasMatch m s'
      end
  end.

(** [s.replace(/\-es20\d{2}/, '')] *)
Definition stripEs20 (s : string) : string := replaceFirst match_es20 "" s.

(** [s.replace(/\-(es20\d{2}|esnext)/, '-es5')] *)
Definition toEs5 (s : string) : string :=
  replaceFirst match_es20_or_esnext "-es5" s.

(** [s.split('/')] *)
Fixpoint splitSlash (s : string) : list string :=
  match s with
  | EmptyString => [EmptyString]
  | String c s' =>
      if Ascii.eqb c "/"%char then EmptyString :: splitSlash s'
      else match splitSlash s' with
           | [] => [String c EmptyString]
           | x :: xs => String c x :: xs
           end
  end.

(** [parts.join('/')] *)
Fixpoint joinSlash (parts : list string) : string :=
  match parts with
  | [] => EmptyString
  | [x] => x
  | x :: rest => x +:+ "/" +:+ joinSlash rest
  end.

(** The double quotation mark, as a string. *)
Definition quote : string := String (ascii_of_nat 34) EmptyString.

(** JavaScript truthiness of an optional string: [undefined] and [''] are
    falsy. *)
Definition truthy (o : option string) : bool :=
  match o with
  | Some s => negb (String.eqb s "")
  | None => false
  end.

End JsString.

Import JsString.

(** ** Thrown values and fallible code *)

(** What a JavaScript [throw] can carry, as far as [mapErrorToMessage]
    tells values apart: instances of [Error], strings, and everything
    else. *)
Inductive JsValue : Type :=
  | JsError (message : string)
  | JsStr (s : string)
  | JsNumber (n : Z)
  | JsBoolean (b : bool)
  | JsUndefined
  | JsNull
  | JsObject (fields : list (string * string)).

(** A computation that either throws ([inl]) or yields a value ([inr]). *)
Definition Exc (A : Type) : Type := JsValue + A.

#[global] Instance Exc_ret : MRet Exc := fun _ x => inr x.
#[global] Instance Exc_bind : MBind Exc := fun _ _ f m =>
  match m with
  | inl e => inl e
  | inr x => f x
  end.

Definition throw {A} (e : JsValue) : Exc A := inl e.

(** ** Data model *)

(** [EmittedFiles] of [@angular-devkit/build-webpack]. *)
Module EmittedFiles.
Record t : Type := mk {
  id : option string;
  name : option string;
  file : string;
  initial : bool;
  asset : option bool;
  extension : string
}.
(** [{ ...f, file: newFile }] *)
Definition with_file (f : t) (newFile : string) : t :=
  mk (id f) (name f) newFile (initial f) (asset f) (extension f).
End EmittedFiles.

(** [ProcessBundleFile] and [ProcessBundleResult] of
    [utils/process-bundle], with the fields this file reads. The [name] of
    a result is that of its action, which is [undefined] at run time when
    the emitted record has no id. *)
Module ProcessBundleFile.
Record MapFile : Type := mkMap { map_filename : string; map_size : nat }.
Record t : Type := mk {
  filename : string;
  size : nat;
  integrity : option string;
  map : option MapFile
}.
End ProcessBundleFile.

Module ProcessBundleResult.
Record t : Type := mk {
  name : option string;
  integrity : option string;
  original : option ProcessBundleFile.t;
  downlevel : option ProcessBundleFile.t
}.
End ProcessBundleResult.

(** [ProcessBundleOptions] of [utils/process-bundle]: the fields set by the
    builder. [name] is [file.id!], which is [undefined] at run time when
    the emitted record has no id. *)
Module ProcessBundleOptions.
Record t : Type := mk {
  filename : string;
  code : string;
  map : option string;
  name : option string;
  runtime : bool;
  optimize : bool;
  sourceMaps : bool;
  hiddenSourceMaps : bool;
  vendorSourceMaps : bool;
  integrityAlgorithm : option string;
  ignoreOriginal : bool;
  optimizeOnly : bool;
  replacements : option (list (string * string));
  runtimeData : option (list ProcessBundleResult.t);
  supportedBrowsers : option (list string)
}.
(** [{ replacements: r, ...a }]: the spread comes last, so a field
    [replacements] already present in [a] wins. *)
Definition with_replacements
    (r : option (list (string * string))) (a : t) : t :=
  mk (filename a) (code a) (map a) (name a) (runtime a) (optimize a)
     (sourceMaps a) (hiddenSourceMaps a) (vendorSourceMaps a)
     (integrityAlgorithm a) (ignoreOriginal a) (optimizeOnly a)
     (match replacements a with Some r' => Some r' | None => r end)
     (runtimeData a) (supportedBrowsers a).
(** [{ ...a, runtimeData: d, supportedBrowsers: b }] *)
Definition with_runtime
    (a : t) (d : list ProcessBundleResult.t) (b : list string) : t :=
  mk (filename a) (code a) (map a) (name a) (runtime a) (optimize a)
     (sourceMaps a) (hiddenSourceMaps a) (vendorSourceMaps a)
     (integrityAlgorithm a) (ignoreOriginal a) (optimizeOnly a)
     (replacements a) (Some d) (Some b).
End ProcessBundleOptions.

(** [InlineOptions] of [utils/process-bundle]. *)
Module InlineOptions.
Record t : Type := mk {
  filename : string;
  code : string;
  map : option string;
  es5 : bool;
  outputPath : string;
  missingTranslation : option string;
  setLocale : bool
}.
End InlineOptions.

(** The builder options the differential-loading branch reads, after the
    normalisations of [utils] ([normalizeOptimization],
    [normalizeSourceMaps], [normalizeExtraEntryPoints]). *)
Module Schema.
Record t : Type := mk {
  optimizationScripts : bool;
  sourceMapScripts : bool;
  sourceMapHidden : bool;
  sourceMapVendor : bool;
  subresourceIntegrity : bool;
  verbose : bool;
  i18nMissingTranslation : option string;
  scriptsEntryPointName : list string
}.
End Schema.

(** The functions of the host the builder calls: Node's [path] module and
    [JSON.stringify] (on a string, with four spaces of indentation). *)
Class NodePath : Type := {
  path_join : string -> string -> string;
  path_basename : string -> string;
  path_relative : string -> string -> string;
  path_isAbsolute : string -> bool;
  JSON_stringify : string -> string
}.

(** [array.includes(x)] on a list of strings. *)
Definition list_includes (l : list string) (x : string) : bool :=
  existsb (String.eqb x) l.

(** ** The compiled-output classifier (the loop over [emittedFiles]) *)

Module Classifier.

(** The variables the loop updates, and the disk. *)
Record State : Type := mkState {
  mainChunkId : option string;
  actions : list ProcessBundleOptions.t;
  workerReplacements : option (list (string * string));
  seen : gset string;
  files : option (list EmittedFiles.t);
  moduleFiles : list EmittedFiles.t;
  noModuleFiles : list EmittedFiles.t;
  disk : gmap string string
}.

Definition init (disk0 : gmap string string) : State :=
  mkState None [] None ∅ None [] [] disk0.

(** [if (file.asset)] and what follows it, up to the [continue]: [None]
    stands for the [continue]. *)
Definition assetBranch (wr : option (list (string * string)))
    (file : EmittedFiles.t) : option (option (list (string * string))) :=
  match EmittedFiles.asset file with
  | Some true =>
      if endsWith (EmittedFiles.file file) ".worker.js"
      then Some (Some (default [] wr ++
                   [(EmittedFiles.file file, toEs5 (EmittedFiles.file file))]))
      else None
  | _ => Some wr
  end.

(** [file.extension !== '.js' ||
     (file.name && scriptsEntryPointName.includes(file.name))] *)
Definition notProcessed (scripts : list string) (file : EmittedFiles.t) : bool :=
  negb (String.eqb (EmittedFiles.extension file) ".js")
  || (truthy (EmittedFiles.name file)
      && match EmittedFiles.name file with
         | Some n => list_includes scripts n
         | None => false
         end).

(** [file.name === 'vendor' || (!mainChunkId && file.name === 'main')] *)
Definition namesMainChunk (mainChunkId : option string)
    (file : EmittedFiles.t) : bool :=
  match EmittedFiles.name file with
  | Some n =>
      String.eqb n "vendor"
      || (negb (truthy mainChunkId) && String.eqb n "main")
  | None => false
  end.

Section Loop.
Context `{NodePath}.
Variable options : Schema.t.
(** [webpackStats.outputPath!] *)
Variable outputPath : string.

Definition integrityAlgorithm : option string :=
  if Schema.subresourceIntegrity options then Some "sha384" else None.

(** The object pushed on [actions] for a file, given what was read from
    the disk. *)
Definition actionFor (file : EmittedFiles.t) (code : string)
    (map : option string) : ProcessBundleOptions.t :=
  let es5Polyfills := startsWith (EmittedFiles.file file) "polyfills-es5" in
  let es2015Polyfills := startsWith (EmittedFiles.file file) "polyfills-es20" in
  let filename := path_join outputPath (EmittedFiles.file file) in
  ProcessBundleOptions.mk
    (if es5Polyfills then stripEs20 filename else filename)
    code map (EmittedFiles.id file)
    (startsWith (EmittedFiles.file file) "runtime")
    (Schema.optimizationScripts options)
    (Schema.sourceMapScripts options)
    (Schema.sourceMapHidden options)
    (Schema.sourceMapVendor options)
    integrityAlgorithm
    es5Polyfills es2015Polyfills None None None.

(** The entry pushed on [noModuleFiles] for a file. *)
Definition noModuleFile (file : EmittedFiles.t) : EmittedFiles.t :=
  EmittedFiles.with_file file
    (if startsWith (EmittedFiles.file file) "polyfills-es5"
     then stripEs20 (EmittedFiles.file file)
     else toEs5 (EmittedFiles.file file)).

(** One iteration of [for (const file of emittedFiles)]. *)
Definition classifyFile (st : State) (file : EmittedFiles.t) : Exc State :=
  match assetBranch (workerReplacements st) file with
  | None => mret st
  | Some wr =>
      if notProcessed (Schema.scriptsEntryPointName options) file then
        mret (mkState (mainChunkId st) (actions st) wr (seen st)
                (Some (default [] (files st) ++ [file]))
                (moduleFiles st) (noModuleFiles st) (disk st))
      else if bool_decide (EmittedFiles.file file ∈ seen st) then
        mret (mkState (mainChunkId st) (actions st) wr (seen st)
                (files st) (moduleFiles st) (noModuleFiles st) (disk st))
      else
        let seen' := seen st ∪ {[ EmittedFiles.file file ]} in
        mainChunkId' ←
          (if namesMainChunk (mainChunkId st) file then
             match EmittedFiles.id file with
             | Some i => mret (Some i)
             | None =>
                 throw (JsError "Cannot read property 'toString' of undefined")
             end
           else mret (mainChunkId st));
        let es5Polyfills := startsWith (EmittedFiles.file file) "polyfills-es5" in
        let moduleFiles' :=
          if es5Polyfills then moduleFiles st else moduleFiles st ++ [file] in
        let filename := path_join outputPath (EmittedFiles.file file) in
        code ← match disk st !! filename with
               | Some c => mret c
               | None =>
                   throw (JsError ("ENOENT: no such file or directory, open '"
                                   +:+ filename +:+ "'"))
               end;
        let '(map, disk1) :=
          if Schema.sourceMapScripts options then
            match disk st !! (filename +:+ ".map") with
            | Some m =>
                (Some m,
                 if es5Polyfills then delete (filename +:+ ".map") (disk st)
                 else disk st)
            | None => (None, disk st)
            end
          else (None, disk st) in
        let disk2 := if es5Polyfills then delete filename disk1 else disk1 in
        let es2015Polyfills :=
          startsWith (EmittedFiles.file file) "polyfills-es20" in
        let noModuleFiles' :=
          if es2015Polyfills then noModuleFiles st
          else noModuleFiles st ++ [noModuleFile file] in
        mret (mkState mainChunkId' (actions st ++ [actionFor file code map])
                wr seen' (files st) moduleFiles' noModuleFiles' disk2)
  end.

(** The whole loop, from a given state. *)
Fixpoint classifyFrom (st : State) (emittedFiles : list EmittedFiles.t)
    : Exc State :=
  match emittedFiles with
  | [] => mret st
  | file :: rest => st' ← classifyFile st file; classifyFrom st' rest
  end.

Definition classify (disk0 : gmap string string)
    (emittedFiles : list EmittedFiles.t) : Exc State :=
  classifyFrom (init disk0) emittedFiles.
End Loop.

(** *** Reading the input of the classifier *)

(** An asset that is not a worker script: the loop skips it. *)
Definition skippedAsset (file : EmittedFiles.t) : bool :=
match EmittedFiles.asset file with
| Some true => negb (endsWith (EmittedFiles.file file) ".worker.js")
| _ => false
end.

(** An asset that is a worker script. *)
Definition workerAsset (file : EmittedFiles.t) : bool :=
match EmittedFiles.asset file with
| Some true => endsWith (EmittedFiles.file file) ".worker.js"
| _ => false
end.

(** A record that goes to [files] as it is. *)
Definition passThrough (scripts : list string) (file : EmittedFiles.t) : bool :=
negb (skippedAsset file) && notProcessed scripts file.

(** A record that reaches the test on [seen]. *)
Definition processable (scripts : list string) (file : EmittedFiles.t) : bool :=
negb (skippedAsset file) && negb (notProcessed scripts file).

(** The records of a list whose path was not seen before, in order. *)
Fixpoint firstByPath (seen0 : gset string) (l : list EmittedFiles.t)
  : list EmittedFiles.t :=
match l with
| [] => []
| file :: rest =>
    if bool_decide (EmittedFiles.file file ∈ seen0) then firstByPath seen0 rest
    else file :: firstByPath (seen0 ∪ {[ EmittedFiles.file file ]}) rest
end.

(** The deduplicated scripts of a build: the processable records, each
    path at its first occurrence. *)
Definition scriptsOf (scripts : list string) (emittedFiles : list EmittedFiles.t)
  : list EmittedFiles.t :=
firstByPath ∅ (List.filter (processable scripts) emittedFiles).

(** The assignment to [mainChunkId] of one iteration. *)
Definition pickMain (mainChunkId0 : option string) (file : EmittedFiles.t)
  : option string :=
if namesMainChunk mainChunkId0 file then EmittedFiles.id file else mainChunkId0.

(** [push] of several elements on an array that is created on demand. *)
Definition pushAll {A} (o : option (list A)) (l : list A) : option (list A) :=
match l with
| [] => o
| _ => Some (default [] o ++ l)
end.

Definition workerPair (file : EmittedFiles.t) : string * string :=
(EmittedFiles.file file, toEs5 (EmittedFiles.file file)).

(** Whether an iteration gets past the test on [seen]. *)
Definition fresh (scripts : list string) (st : State) (file : EmittedFiles.t)
  : bool :=
processable scripts file && negb (bool_decide (EmittedFiles.file file ∈ seen st)).

(** What made an action out of a script: the object the loop pushes for
    the file, with some content read from the disk. *)
Definition actionOf `{NodePath} (options : Schema.t) (outputPath : string)
    (file : EmittedFiles.t) (action : ProcessBundleOptions.t) : Prop :=
exists code map, action = actionFor options outputPath file code map.

(** [file.name === n] *)
Definition named (n : string) (file : EmittedFiles.t) : bool :=
match EmittedFiles.name file with
| Some m => String.eqb m n
| None => false
end.

End Classifier.

(** ** Effects: the trace of calls and JavaScript completions *)

(** [InlineResult] of [utils/process-bundle]. *)
Module InlineResult.
Record Diagnostic : Type := mkDiagnostic { type : string; message : string }.
Record t : Type := mk {
  file : string;
  count : nat;
  diagnostics : list Diagnostic
}.
End InlineResult.

(** What the builder hands back to its caller. *)
Module BuilderOutput.
Record t : Type := mk { success : bool; error : option string }.
End BuilderOutput.

(** The calls the stage makes on its collaborators, in program order. *)
Inductive Event : Type :=
  | NewExecutor
  | SpinnerStart (text : option string)
  | SpinnerStop
  | SpinnerSucceed (text : string)
  | SpinnerFail (text : string)
  | ProcessAll (actions : list ProcessBundleOptions.t)
  | ProcessAllNext (result : ProcessBundleResult.t)
  | Process (runtimeOptions : ProcessBundleOptions.t)
  | InlineAll (actions : list InlineOptions.t)
  | InlineAllNext (result : InlineResult.t)
  | LoggerInfo (text : string)
  | LoggerWarn (text : string)
  | LoggerError (text : string)
  | CopyAssets (ignore : list string)
  | Stop.

(** How a block of statements ends: it falls through with a value, it
    executes [return r] in the enclosing callback, or it throws. *)
Inductive Completion (A : Type) : Type :=
  | Normal (a : A)
  | Return (r : BuilderOutput.t)
  | Throw (e : JsValue).
Arguments Normal {A} a.
Arguments Return {A} r.
Arguments Throw {A} e.

(** A block: the calls it made and how it ended. *)
Definition M (A : Type) : Type := list Event * Completion A.

Definition trace {A} (m : M A) : list Event := fst m.
Definition completion {A} (m : M A) : Completion A := snd m.

#[global] Instance M_ret : MRet M := fun _ x => ([], Normal x).
#[global] Instance M_bind : MBind M := fun _ _ f m =>
  match snd m with
  | Normal a => let k := f a in (fst m ++ fst k, snd k)
  | Return r => (fst m, Return r)
  | Throw e => (fst m, Throw e)
  end.

Definition emit (e : Event) : M unit := ([e], Normal tt).
Definition returnWith {A} (r : BuilderOutput.t) : M A := ([], Return r).
Definition throwM {A} (e : JsValue) : M A := ([], Throw e).
Definition liftExc {A} (x : Exc A) : M A :=
  match x with
  | inl e => throwM e
  | inr a => mret a
  end.

(** [try { body } finally { fin }] for a finaliser that only makes calls. *)
Definition tryFinally {A} (body : M A) (fin : list Event) : M A :=
  (fst body ++ fin, snd body).

(** [try { body } catch (err) { handler err }] *)
Definition tryCatch {A} (body : M A) (handler : JsValue -> M A) : M A :=
  match snd body with
  | Throw e => let h := handler e in (fst body ++ fst h, snd h)
  | _ => body
  end.

(** [mapErrorToMessage] *)
Definition mapErrorToMessage (error : JsValue) : option string :=
  match error with
  | JsError message => Some message
  | JsStr s => Some s
  | _ => None
  end.

(** [webpackStats]: the lists the builder appends to and reads. *)
Module Stats.
Record Child : Type := mkChild {
  child_warnings : list string;
  child_errors : list string
}.
Record t : Type := mk {
  warnings : list string;
  errors : list string;
  children : option (list Child)
}.
End Stats.

(** Modelled from the spec: [ThresholdSeverity] of
    [utils/bundle-calculator], a severity in {warning, error}; [Unexpected]
    stands for any other value met at run time. *)
Inductive ThresholdSeverity : Type :=
  | Warning
  | Error
  | Unexpected (value : string).

(** An element of the list [checkBudgets] returns. *)
Record BudgetFailure : Type := mkBudgetFailure {
  severity : ThresholdSeverity;
  message : string
}.

(** ** The collaborators *)

(** Modelled from the spec: [BundleActionExecutor] of
    [utils/action-executor] and [process] of [utils/process-bundle], which
    are not part of the sources at hand. [processAll] and [inlineAll]
    deliver one result per action, in completion order, and a failed action
    is raised again where its result is drawn. [run] and [inline] are the
    jobs of the pool, [processOrder] and [inlineOrder] the order in which
    the jobs of a batch complete. The fields after them are the other
    collaborators of the branch, taken as they come. *)
Record World : Type := mkWorld {
  run : ProcessBundleOptions.t -> Exc ProcessBundleResult.t;
  processOrder : list ProcessBundleOptions.t -> list ProcessBundleOptions.t;
  process : ProcessBundleOptions.t -> Exc ProcessBundleResult.t;
  inline : InlineOptions.t -> Exc InlineResult.t;
  inlineOrder : list InlineOptions.t -> list InlineOptions.t;
  (** [fs.readFileSync] on the disk the executor leaves behind *)
  readFileSync : string -> Exc string;
  (** [copyAssets] of [utils/copy-assets], by the [ignore] list *)
  copyAssets : list string -> Exc unit;
  (** [buildBrowserFeatures.supportedBrowsers] *)
  supportedBrowsers : list string;
  (** [checkBudgets] of [utils/bundle-calculator], for the configured
      budgets *)
  checkBudgets : Stats.t -> list ProcessBundleResult.t -> list BudgetFailure;
  (** the text of the table of bundles and of the build line *)
  buildStatsText : list ProcessBundleResult.t -> string;
  (** [statsWarningsToString] and [statsErrorsToString], with colours *)
  statsWarningsToString : Stats.t -> string;
  statsErrorsToString : Stats.t -> string
}.

(** Completion order is a rearrangement of submission order. *)
Definition fair (w : World) : Prop :=
  (forall l, processOrder w l ≡ₚ l) /\ (forall l, inlineOrder w l ≡ₚ l).

(** ** The differential-loading branch of [buildWebpackBrowser] *)

(** [assertNever] *)
Definition assertNever `{NodePath} {A} (input : string) : Exc A :=
  throw (JsError ("Unexpected call to assertNever() with input: "
                  +:+ JSON_stringify input)).

(** [ERRONEOUS_WARNINGS_FILTER] of [webpack/utils/stats.ts], the module
    [browser/index.ts] imports [statsHasWarnings] from: the warning matches
    neither
    [/multiple assets emit different content.*3rdpartylicenses\.txt/i] nor
    [/System.import\(\) is deprecated and will be removed soon/i].
    A string is the sequence of the bytes of its UTF-8 encoding: a
    character of the basic plane, which is one code unit for the regular
    expression, takes one to three bytes. *)
Module WarningsFilter.
Definition toLower (c : ascii) : ascii :=
  let n := nat_of_ascii c in
  if (65 <=? n) && (n <=? 90) then ascii_of_nat (n + 32) else c.

Fixpoint lower (s : string) : string :=
  match s with
  | EmptyString => EmptyString
  | String c s' => String (toLower c) (lower s')
  end.

(** The line terminators of one byte: the line feed and the carriage
    return. *)
Definition isLineTerminator (c : ascii) : bool :=
  Nat.eqb (nat_of_ascii c) 10 || Nat.eqb (nat_of_ascii c) 13.

(** The line separator U+2028 and the paragraph separator U+2029, as
    bytes. *)
Definition lineSeparator : string :=
  String (ascii_of_nat 226) (String (ascii_of_nat 128)
    (String (ascii_of_nat 168) EmptyString)).

Definition paragraphSeparator : string :=
  String (ascii_of_nat 226) (String (ascii_of_nat 128)
    (String (ascii_of_nat 169) EmptyString)).

(** [s] starts with one of the four line terminators, which [.] does not
    match. *)
Definition startsLineTerminator (s : string) : bool :=
  match s with
  | String c _ => isLineTerminator c
  | EmptyString => false
  end
  || startsWith s lineSeparator
  || startsWith s paragraphSeparator.

(** [.] anchored at the head of [s]: one code unit that is no line
    terminator; the result is what follows it. A character of four bytes
    is two code units. *)
Definition matchDot (s : string) : option string :=
  if startsLineTerminator s then None
  else match s with
       | EmptyString => None
       | String c rest =>
           let n := nat_of_ascii c in
           if n <? 128 then Some rest
           else if (192 <=? n) && (n <? 224)
           then match rest with
                | String _ rest' => Some rest'
                | EmptyString => None
                end
           else if (224 <=? n) && (n <? 240)
           then match rest with
                | String _ (String _ rest') => Some rest'
                | _ => None
                end
           else None
       end.

(** [.*p] anchored at the head of [s]: the bytes passed over hold no line
    terminator. *)
Fixpoint matchDotStar (p s : string) : bool :=
  startsWith s p ||
  match s with
  | EmptyString => false
  | String c s' =>
      negb (startsLineTerminator (String c s')) && matchDotStar p s'
  end.

Fixpoint matchesFrom (s : string) : bool :=
  match dropPrefix "multiple assets emit different content" s with
  | Some rest => matchDotStar "3rdpartylicenses.txt" rest
  | None => false
  end
  || match s with
     | EmptyString => false
     | String _ s' => matchesFrom s'
     end.

(** [/System.import\(\) is deprecated and will be removed soon/i] on a
    string in lower case. *)
Fixpoint matchesSystemImport (s : string) : bool :=
  match dropPrefix "system" s with
  | Some rest =>
      match matchDot rest with
      | Some rest' =>
          startsWith rest' "import() is deprecated and will be removed soon"
      | None => false
      end
  | None => false
  end
  || match s with
     | EmptyString => false
     | String _ s' => matchesSystemImport s'
     end.

Definition ERRONEOUS_WARNINGS_FILTER (warning : string) : bool :=
  negb (matchesFrom (lower warning) || matchesSystemImport (lower warning)).
End WarningsFilter.

(** [statsHasWarnings] of [webpack/utils/stats.ts], on statistics whose
    warnings are strings. *)
Definition statsHasWarnings (json : Stats.t) : bool :=
  negb (Nat.eqb
          (length (filter (fun x => WarningsFilter.ERRONEOUS_WARNINGS_FILTER x = true)
                     (Stats.warnings json))) 0)
  || match Stats.children json with
     | Some cs =>
         existsb
           (fun c =>
              negb (Nat.eqb
                      (length (filter
                         (fun x => WarningsFilter.ERRONEOUS_WARNINGS_FILTER x = true)
                         (Stats.child_warnings c))) 0)) cs
     | None => false
     end.

(** [statsHasErrors] of [webpack/utils/stats.ts] *)
Definition statsHasErrors (json : Stats.t) : bool :=
  negb (Nat.eqb (length (Stats.errors json)) 0)
  || match Stats.children json with
     | Some cs =>
         existsb (fun c => negb (Nat.eqb (length (Stats.child_errors c)) 0)) cs
     | None => false
     end.

Module Builder.

(** A JavaScript [Set] of strings keeps insertion order. *)
Definition setAdd (s : list string) (x : string) : list string :=
  if list_includes s x then s else s ++ [x].

(** [result.name === mainChunkId], on two values that are a string or
    [undefined]: two [undefined] are equal. *)
Definition isMainChunk (mainChunkId : option string)
    (result : ProcessBundleResult.t) : bool :=
  match ProcessBundleResult.name result, mainChunkId with
  | Some n, Some i => String.eqb n i
  | None, None => true
  | _, _ => false
  end.

Section Stage.
Context `{NodePath}.
Variable w : World.
Variable options : Schema.t.
(** [webpackStats.outputPath!], [baseOutputPath], [i18n.shouldInline] *)
Variable outputPath : string.
Variable baseOutputPath : string.
Variable shouldInline : bool.

(** The loop that sets the runtime action apart from the batch. *)
Definition partitionStep (workerReplacements : option (list (string * string)))
    (acc : list ProcessBundleOptions.t * option ProcessBundleOptions.t)
    (action : ProcessBundleOptions.t)
    : list ProcessBundleOptions.t * option ProcessBundleOptions.t :=
  if truthy (ProcessBundleOptions.integrityAlgorithm action)
     && ProcessBundleOptions.runtime action
  then (fst acc, Some action)
  else (fst acc ++
          [ProcessBundleOptions.with_replacements workerReplacements action],
        snd acc).

Definition partitionActions (workerReplacements : option (list (string * string)))
    (actions : list ProcessBundleOptions.t)
    : list ProcessBundleOptions.t * option ProcessBundleOptions.t :=
  fold_left (partitionStep workerReplacements) actions ([], None).

(** [for await (const result of executor.processAll(processActions))],
    over the jobs in completion order. *)
Fixpoint drawProcessed (queue : list ProcessBundleOptions.t)
    (processResults : list ProcessBundleResult.t)
    : M (list ProcessBundleResult.t) :=
  match queue with
  | [] => mret processResults
  | action :: rest =>
      result ← liftExc (run w action);
      emit (ProcessAllNext result);;
      drawProcessed rest (processResults ++ [result])
  end.

(** The batch, then the runtime bundle. *)
Definition processBundles (processActions : list ProcessBundleOptions.t)
    (processRuntimeAction : option ProcessBundleOptions.t)
    : M (list ProcessBundleResult.t) :=
  emit (ProcessAll processActions);;
  processResults ← drawProcessed (processOrder w processActions) [];
  match processRuntimeAction with
  | Some action =>
      let runtimeOptions :=
        ProcessBundleOptions.with_runtime action processResults
          (supportedBrowsers w) in
      emit (Process runtimeOptions);;
      result ← liftExc (process w runtimeOptions);
      mret (processResults ++ [result])
  | None => mret processResults
  end.

(** The inline action of one artifact of a result, and the files it
    marks as processed. *)
Definition addVariant (mainChunkId : option string)
    (result : ProcessBundleResult.t) (es5 : bool)
    (bundle : option ProcessBundleFile.t)
    (acc : list InlineOptions.t * list string)
    : Exc (list InlineOptions.t * list string) :=
  match bundle with
  | None => mret acc
  | Some b =>
      code ← readFileSync w (ProcessBundleFile.filename b);
      map ← match ProcessBundleFile.map b with
            | Some m =>
                c ← readFileSync w (ProcessBundleFile.map_filename m);
                mret (Some c)
            | None => mret None
            end;
      let action :=
        InlineOptions.mk (path_basename (ProcessBundleFile.filename b))
          code map es5 baseOutputPath
          (Schema.i18nMissingTranslation options)
          (isMainChunk mainChunkId result) in
      let processedFiles := setAdd (snd acc) (ProcessBundleFile.filename b) in
      mret (fst acc ++ [action],
            match ProcessBundleFile.map b with
            | Some m => setAdd processedFiles (ProcessBundleFile.map_filename m)
            | None => processedFiles
            end)
  end.

(** [for (const result of processResults)] building [inlineActions] and
    [processedFiles]. *)
Fixpoint buildInlineActions (mainChunkId : option string)
    (processResults : list ProcessBundleResult.t)
    (acc : list InlineOptions.t * list string)
    : Exc (list InlineOptions.t * list string) :=
  match processResults with
  | [] => mret acc
  | result :: rest =>
      acc1 ← addVariant mainChunkId result false
               (ProcessBundleResult.original result) acc;
      acc2 ← addVariant mainChunkId result true
               (ProcessBundleResult.downlevel result) acc1;
      buildInlineActions mainChunkId rest acc2
  end.

(** [for (const diagnostic of result.diagnostics)] *)
Fixpoint reportDiagnostics (hasErrors : bool)
    (diagnostics : list InlineResult.Diagnostic) : M bool :=
  match diagnostics with
  | [] => mret hasErrors
  | diagnostic :: rest =>
      emit SpinnerStop;;
      hasErrors' ←
        (if String.eqb (InlineResult.type diagnostic) "error"
         then emit (LoggerError (InlineResult.message diagnostic));; mret true
         else emit (LoggerWarn (InlineResult.message diagnostic));;
              mret hasErrors);
      emit (SpinnerStart None);;
      reportDiagnostics hasErrors' rest
  end.

(** [for await (const result of executor.inlineAll(inlineActions))] *)
Fixpoint drawInlined (queue : list InlineOptions.t) (hasErrors : bool)
    : M bool :=
  match queue with
  | [] => mret hasErrors
  | action :: rest =>
      result ← liftExc (inline w action);
      emit (InlineAllNext result);;
      (if Schema.verbose options
       then emit (LoggerInfo
                    ("Localized " +:+ quote +:+ InlineResult.file result
                     +:+ quote +:+ " [" +:+ pretty (InlineResult.count result)
                     +:+ " translation(s)]."))
       else mret tt);;
      hasErrors' ← reportDiagnostics hasErrors (InlineResult.diagnostics result);
      drawInlined rest hasErrors'
  end.

Definition failedText : string := "Localized bundle generation failed.".

(** The [ignore] list of the copy: [processedFiles], relative to the
    output path of webpack. *)
Definition ignored (processedFiles : list string) : list string :=
  map (path_relative outputPath) processedFiles.

(** The body of the inner [try]: the inline jobs, then the copy of the
    files that were not processed. *)
Definition inlineAndCopy (inlineActions : list InlineOptions.t)
    (processedFiles : list string) : M bool :=
  emit (InlineAll inlineActions);;
  hasErrors ← drawInlined (inlineOrder w inlineActions) false;
  emit (CopyAssets (ignored processedFiles));;
  liftExc (copyAssets w (ignored processedFiles));;
  mret hasErrors.

(** The body of [if (i18n.shouldInline)]. *)
Definition inlineTranslations (mainChunkId : option string)
    (processResults : list ProcessBundleResult.t) : M unit :=
  emit (SpinnerStart (Some "Generating localized bundles..."));;
  built ← liftExc (buildInlineActions mainChunkId processResults ([], []));
  hasErrors ←
    tryCatch (A := bool)
      (inlineAndCopy (fst built) (snd built))
      (fun err =>
         emit (SpinnerFail failedText);;
         returnWith (BuilderOutput.mk false (mapErrorToMessage err)));
  (if (hasErrors : bool)
   then emit (SpinnerFail failedText)
   else emit (SpinnerSucceed "Localized bundle generation complete."));;
  if (hasErrors : bool) then returnWith (BuilderOutput.mk false None)
  else (mret tt : M unit).

(** From the construction of the executor to the end of [finally]. *)
Definition executeActions
    (workerReplacements : option (list (string * string)))
    (mainChunkId : option string)
    (actions : list ProcessBundleOptions.t)
    : M (list ProcessBundleResult.t) :=
  let parts := partitionActions workerReplacements actions in
  emit NewExecutor;;
  tryFinally
    (emit (SpinnerStart
             (Some "Generating ES5 bundles for differential loading..."));;
     processResults ← processBundles (fst parts) (snd parts);
     emit (SpinnerSucceed "ES5 bundle generation complete.");;
     (if shouldInline
      then inlineTranslations mainChunkId processResults
      else mret tt);;
     mret processResults)
    [Stop].
End Stage.

Section Budgets.
Context `{NodePath}.
Variable w : World.

(** The body of [for (const { severity, message } of budgetFailures)]:
    the statistics as the iteration leaves them, and what it throws. *)
Definition recordBudgetFailure (webpackStats : Stats.t)
    (failure : BudgetFailure) : Stats.t * option JsValue :=
  let msg := "budgets: " +:+ message failure in
  match severity failure with
  | Warning =>
      (Stats.mk (Stats.warnings webpackStats ++ [msg])
         (Stats.errors webpackStats) (Stats.children webpackStats), None)
  | Error =>
      (Stats.mk (Stats.warnings webpackStats)
         (Stats.errors webpackStats ++ [msg]) (Stats.children webpackStats),
       None)
  | Unexpected value =>
      (webpackStats,
       match assertNever (A := unit) value with
       | inl e => Some e
       | inr _ => None
       end)
  end.

Fixpoint recordBudgetFailures (webpackStats : Stats.t)
    (budgetFailures : list BudgetFailure) : Stats.t * option JsValue :=
  match budgetFailures with
  | [] => (webpackStats, None)
  | failure :: rest =>
      match recordBudgetFailure webpackStats failure with
      | (webpackStats', None) => recordBudgetFailures webpackStats' rest
      | thrown => thrown
      end
  end.

(** The budget check and the report that follows it. *)
Definition reportBudgets (webpackStats : Stats.t)
    (budgetFailures : list BudgetFailure) : M Stats.t :=
  match recordBudgetFailures webpackStats budgetFailures with
  | (_, Some e) => throwM e
  | (webpackStats', None) =>
      (if statsHasWarnings webpackStats'
       then emit (LoggerWarn (statsWarningsToString w webpackStats'))
       else mret tt);;
      if statsHasErrors webpackStats'
      then emit (LoggerError (statsErrorsToString w webpackStats'));;
           returnWith (BuilderOutput.mk false None)
      else mret webpackStats'
  end.
End Budgets.

Section Branch.
Context `{NodePath}.
Variable w : World.
Variable options : Schema.t.
Variable outputPath : string.
Variable baseOutputPath : string.
Variable shouldInline : bool.

(** The branch [else if (isDifferentialLoadingNeeded)] for a successful
    webpack build: [Normal] goes on to the copy of the assets and the
    index file, [Return] is the output of the build. *)
Definition differentialLoading (disk0 : gmap string string)
    (webpackStats : Stats.t) (emittedFiles : list EmittedFiles.t)
    : M Stats.t :=
  st ← liftExc (Classifier.classify options outputPath disk0 emittedFiles);
  processResults ←
    executeActions w options outputPath baseOutputPath shouldInline
      (Classifier.workerReplacements st) (Classifier.mainChunkId st)
      (Classifier.actions st);
  emit (LoggerInfo (buildStatsText w processResults));;
  reportBudgets w webpackStats (checkBudgets w webpackStats processResults).
End Branch.

End Builder.

(** ** [CommonJsUsageWarnPlugin] *)

Module CommonJsUsageWarnPlugin.

(** The classes [hasCommonJsDependencies] tells apart with [instanceof]. *)
Inductive DependencyClass : Type :=
  | CommonJsRequireDependency
  | AMDDefineDependency
  | OtherDependency.

(** [WebpackModule], and the dependency objects of its [dependencies]. *)
#[warnings="-register-all"]
Inductive WebpackModule : Type :=
  | mkModule (name rawRequest userRequest : option string)
      (dependencies : list Dependency) (issuer : option WebpackModule)
with Dependency : Type :=
  | mkDependency (class : DependencyClass) (module : option WebpackModule).

Definition name (m : WebpackModule) : option string :=
  match m with mkModule n _ _ _ _ => n end.
Definition rawRequest (m : WebpackModule) : option string :=
  match m with mkModule _ r _ _ _ => r end.
Definition userRequest (m : WebpackModule) : option string :=
  match m with mkModule _ _ u _ _ => u end.
Definition dependencies (m : WebpackModule) : list Dependency :=
  match m with mkModule _ _ _ d _ => d end.
Definition issuer (m : WebpackModule) : option WebpackModule :=
  match m with mkModule _ _ _ _ i => i end.
Definition class (d : Dependency) : DependencyClass :=
  match d with mkDependency c _ => c end.
Definition module (d : Dependency) : option WebpackModule :=
  match d with mkDependency _ m => m end.

(** [dep instanceof CommonJsRequireDependency ||
     dep instanceof AMDDefineDependency] *)
Definition isCommonJs (dep : Dependency) : bool :=
  match class dep with
  | CommonJsRequireDependency | AMDDefineDependency => true
  | OtherDependency => false
  end.

(** [hasCommonJsDependencies]: the inner call leaves [checkParentModules]
    at its default, so it looks one module deep. *)
Definition hasCommonJsDependencies (dependencies0 : list Dependency)
    (checkParentModules : bool) : bool :=
  existsb
    (fun dep =>
       isCommonJs dep
       || (checkParentModules
           && match module dep with
              | Some m => existsb isCommonJs (dependencies m)
              | None => false
              end))
    dependencies0.

(** [rawRequestToPackageName] *)
Definition rawRequestToPackageName (rawRequest0 : string) : string :=
  if startsWith rawRequest0 "@"
  then joinSlash (take 2 (splitSlash rawRequest0))
  else default EmptyString (head (take 1 (splitSlash rawRequest0))).

(** The loop [while (mainIssuer?.issuer)], from a module. *)
Fixpoint mainIssuerOf (m : WebpackModule) : WebpackModule :=
  match m with
  | mkModule _ _ _ _ (Some i) => mainIssuerOf i
  | mkModule _ _ _ _ None => m
  end.

(** [`${x}`] for an optional string. *)
Definition template (x : option string) : string := default "undefined" x.

(** The fields of an instance. *)
Record t : Type := mk {
  shownWarnings : gset string;
  allowedDepedencies : gset string
}.

(** [new CommonJsUsageWarnPlugin(options)] *)
Definition new (optionsAllowedDepedencies : option (list string)) : t :=
  mk ∅ ({[ "webpack/hot/dev-server" ]}
        ∪ list_to_set (default [] optionsAllowedDepedencies)).

Section Apply.
Context `{NodePath}.

(** The condition of the first [if] of the loop: the module is skipped. *)
Definition skipped (this : t) (m : WebpackModule) : bool :=
  match rawRequest m with
  | None => true
  | Some r =>
      String.eqb r ""
      || startsWith r "."
      || path_isAbsolute r
      || bool_decide (r ∈ allowedDepedencies this)
      || bool_decide (rawRequestToPackageName r ∈ allowedDepedencies this)
      || startsWith r "@angular/common/locales/"
  end.

(** The warning the loop body builds for a module, if it gets that far. *)
Definition warningOf (this : t) (m : WebpackModule) : option string :=
  if skipped this m then None
  else if negb (hasCommonJsDependencies (dependencies m) false) then None
  else
    let parentDependencies :=
      match issuer m with
      | Some i => match issuer i with
                  | Some ii => Some (dependencies ii)
                  | None => None
                  end
      | None => None
      end in
    if match parentDependencies with
       | Some ds => hasCommonJsDependencies ds true
       | None => false
       end
    then None
    else
      let mainIssuer := option_map mainIssuerOf (issuer m) in
      let issuerUserRequest :=
        match issuer m with Some i => userRequest i | None => None end in
      if match mainIssuer with
         | Some mi => bool_decide (name mi = Some "main")
         | None => false
         end
         && negb match issuerUserRequest with
                 | Some u => includes u "webpack-dev-server"
                 | None => false
                 end
      then Some (template issuerUserRequest +:+ " depends on '"
                 +:+ template (rawRequest m) +:+ "'. "
                 +:+ "CommonJS or AMD dependencies can cause optimization bailouts."
                 +:+ String (ascii_of_nat 10) EmptyString
                 +:+ "For more info see: "
                 +:+ "https://angular.io/guide/build#configuring-commonjs-dependencies")
      else None.

(** One iteration of the loop over the modules: the instance and the
    warnings of the compilation ([addWarning] appends). *)
Definition visit (acc : t * list string) (m : WebpackModule)
    : t * list string :=
  match warningOf (fst acc) m with
  | Some warning =>
      if bool_decide (warning ∈ shownWarnings (fst acc)) then acc
      else (mk (shownWarnings (fst acc) ∪ {[ warning ]})
               (allowedDepedencies (fst acc)),
            snd acc ++ [warning])
  | None => acc
  end.

(** The [finishModules] hook of one compilation. *)
Definition finishModules (this : t) (compilationWarnings : list string)
    (modules : list WebpackModule) : t * list string :=
  fold_left visit modules (this, compilationWarnings).

(** The compilations of a compiler, one after the other (a watch
    session): each has its own list of warnings to start from. The
    result lists the warnings of each compilation once it is finished. *)
Fixpoint compilations (this : t)
    (builds : list (list string * list WebpackModule))
    : t * list (list string) :=
  match builds with
  | [] => (this, [])
  | (compilationWarnings, modules) :: rest =>
      let '(this', warnings') := finishModules this compilationWarnings modules in
      let '(this'', others) := compilations this' rest in
      (this'', warnings' :: others)
  end.
End Apply.

End CommonJsUsageWarnPlugin.


(** ** Reading traces *)

Definition isStop (e : Event) : bool :=
match e with Stop => true | _ => false end.

Definition isNewExecutor (e : Event) : bool :=
match e with NewExecutor => true | _ => false end.

(** How many calls of a kind a trace holds. *)
Fixpoint calls (kind : Event -> bool) (tr : list Event) : nat :=
match tr with
| [] => 0
| e :: rest => (if kind e then 1 else 0) + calls kind rest
end.

(** The results drawn from [inlineAll], in the order they were drawn. *)
Fixpoint drawnInline (tr : list Event) : list InlineResult.t :=
match tr with
| [] => []
| InlineAllNext r :: rest => r :: drawnInline rest
| _ :: rest => drawnInline rest
end.

(** ** Reading the jobs of the executor *)

(** The action is set apart from the batch: [action.integrityAlgorithm &&
    action.runtime]. *)
Definition deferred (action : ProcessBundleOptions.t) : bool :=
truthy (ProcessBundleOptions.integrityAlgorithm action)
&& ProcessBundleOptions.runtime action.

(** The results of a queue of transform jobs up to the first failure, and
    that failure. *)
Fixpoint processed (w : World) (queue : list ProcessBundleOptions.t)
  : list ProcessBundleResult.t * option JsValue :=
match queue with
| [] => ([], None)
| action :: rest =>
    match run w action with
    | inl e => ([], Some e)
    | inr result =>
        let others := processed w rest in (result :: fst others, snd others)
    end
end.

(** The results of a queue of inline jobs up to the first failure, and
    that failure. *)
Fixpoint inlined (w : World) (queue : list InlineOptions.t)
  : list InlineResult.t * option JsValue :=
match queue with
| [] => ([], None)
| action :: rest =>
    match inline w action with
    | inl e => ([], Some e)
    | inr result =>
        let others := inlined w rest in (result :: fst others, snd others)
    end
end.

(** A result carries a diagnostic of type [error]. *)
Definition hasErrorDiagnostic (result : InlineResult.t) : bool :=
existsb (fun d => String.eqb (InlineResult.type d) "error")
  (InlineResult.diagnostics result).

(** For a result, the flags [es5] and [setLocale] of the inline actions
    the claim expects of it: one action for each artifact it holds, which
    sets the locale exactly when the name of the result is the main chunk
    id, both a string or both [undefined]. *)
Definition variants (mainChunkId : option string)
    (result : ProcessBundleResult.t) : list (bool * bool) :=
(match ProcessBundleResult.original result with
 | Some _ =>
     [(false, bool_decide (ProcessBundleResult.name result = mainChunkId))]
 | None => []
 end)
++ (match ProcessBundleResult.downlevel result with
    | Some _ =>
        [(true, bool_decide (ProcessBundleResult.name result = mainChunkId))]
    | None => []
    end).

(** The flags [es5] and [setLocale] of an inline action. *)
Definition flags (action : InlineOptions.t) : bool * bool :=
(InlineOptions.es5 action, InlineOptions.setLocale action).

(** The calls [copyAssets] of a trace. *)
Fixpoint copies (tr : list Event) : list (list string) :=
match tr with
| [] => []
| CopyAssets ignore :: rest => ignore :: copies rest
| _ :: rest => copies rest
end.

(** ** Reading budget failures *)

Definition budgetMessage (failure : BudgetFailure) : string :=
"budgets: " +:+ message failure.

Definition isWarning (failure : BudgetFailure) : bool :=
match severity failure with Warning => true | _ => false end.

Definition isError (failure : BudgetFailure) : bool :=
match severity failure with Error => true | _ => false end.

(** The severity is one of the two of the enumeration. *)
Definition expectedSeverity (failure : BudgetFailure) : bool :=
match severity failure with Unexpected _ => false | _ => true end.

(** ** A host and a world to run the model on *)

Module Demo.

(** POSIX paths without [.] and [..] segments; strings without characters
    to escape. *)
#[export] Instance host : NodePath := {|
  path_join a b := a +:+ "/" +:+ b;
  path_basename p := default EmptyString (last (splitSlash p));
  path_relative from to :=
    match dropPrefix (from +:+ "/") to with
    | Some rest => rest
    | None => to
    end;
  path_isAbsolute p := startsWith p "/";
  JSON_stringify s := quote +:+ s +:+ quote
|}.

(** A transform that writes both artifacts next to the source. *)
Definition transform (a : ProcessBundleOptions.t) : ProcessBundleResult.t :=
ProcessBundleResult.mk (ProcessBundleOptions.name a) None
  (if ProcessBundleOptions.ignoreOriginal a then None
   else Some (ProcessBundleFile.mk (ProcessBundleOptions.filename a) 0 None None))
  (if ProcessBundleOptions.optimizeOnly a then None
   else Some (ProcessBundleFile.mk (toEs5 (ProcessBundleOptions.filename a))
                0 None None)).

(** Every job succeeds, in submission order; no diagnostics, no budget
    failure. *)
Definition world : World := {|
  run a := inr (transform a);
  processOrder l := l;
  process a := inr (transform a);
  inline a := inr (InlineResult.mk (InlineOptions.filename a) 0 []);
  inlineOrder l := l;
  readFileSync _ := inr EmptyString;
  copyAssets _ := inr tt;
  supportedBrowsers := [];
  checkBudgets _ _ := [];
  buildStatsText _ := EmptyString;
  statsWarningsToString _ := EmptyString;
  statsErrorsToString _ := EmptyString
|}.

(** The same world with other inline jobs. *)
Definition withInline (inline' : InlineOptions.t -> Exc InlineResult.t) : World :=
mkWorld (run world) (processOrder world) (process world) inline'
  (inlineOrder world) (readFileSync world) (copyAssets world)
  (supportedBrowsers world) (checkBudgets world) (buildStatsText world)
  (statsWarningsToString world) (statsErrorsToString world).

(** Inline jobs that report a missing translation, as an error, in the
    modern main bundle. *)
Definition inlineWithError (a : InlineOptions.t) : Exc InlineResult.t :=
inr (InlineResult.mk (InlineOptions.filename a) 1
       (if String.eqb (InlineOptions.filename a) "main-es2015.js"
        then [InlineResult.mkDiagnostic "error" "No translation found."]
        else [])).

(** The same world with other transform jobs. *)
Definition withRun (run' : ProcessBundleOptions.t -> Exc ProcessBundleResult.t)
  : World :=
mkWorld run' (processOrder world) (process world) (inline world)
  (inlineOrder world) (readFileSync world) (copyAssets world)
  (supportedBrowsers world) (checkBudgets world) (buildStatsText world)
  (statsWarningsToString world) (statsErrorsToString world).

Definition options (subresourceIntegrity : bool) : Schema.t :=
Schema.mk true false false false subresourceIntegrity false None ["scripts"].

(** An emitted script of a chunk. *)
Definition script (id name file : string) : EmittedFiles.t :=
EmittedFiles.mk (Some id) (Some name) file true None ".js".

(** A disk that holds the given files under [dist], each with content
    equal to its name. *)
Definition diskOf (files : list string) : gmap string string :=
list_to_map (map (fun f => ("dist/" +:+ f, f)) files).

Definition noStats : Stats.t := Stats.mk [] [] None.

(** A result with both artifacts, as the transform of a main bundle
    yields it. *)
Definition mainResult : ProcessBundleResult.t :=
transform
  (ProcessBundleOptions.mk "dist/main-es2015.js" "" None (Some "3") false
     true false false false None false false None None None).

End Demo.

(** ** [getBrowserConfig] *)

Module BrowserConfig.

(** [buildOptions.sourceMap], normalised. *)
Record SourceMap : Type := mkSourceMap {
  styles : bool;
  scripts : bool;
  hidden : option bool
}.

(** The build options [getBrowserConfig] reads. *)
Record BuildOptions : Type := mkBuildOptions {
  crossOrigin : option string;
  subresourceIntegrity : bool;
  extractLicenses : bool;
  vendorChunk : bool;
  commonChunk : bool;
  allowedCommonJsDependencies : option (list string);
  sourceMap : SourceMap
}.

Record WebpackConfigOptions : Type := mkWebpackConfigOptions {
  buildOptions : BuildOptions;
  differentialLoadingMode : bool
}.

(** The plugins of the partial configuration, by their constructor
    arguments. *)
Inductive Plugin : Type :=
  | CommonJsUsageWarn (plugin : CommonJsUsageWarnPlugin.t)
  | SubresourceIntegrity (hashFuncNames : list string)
  | LicenseWebpack (outputFilename : string)
  | SourceMapDevTool (scripts styles : bool) (hidden : option bool).

(** [chunks] of a cache group: a keyword, or the test
    [chunk.name === 'main']. *)
Inductive Chunks : Type :=
  | Async
  | NamedMain.

Record CacheGroup : Type := mkCacheGroup {
  cg_name : option string;
  cg_chunks : Chunks;
  cg_minChunks : option nat;
  cg_enforce : bool;
  cg_priority : option nat
}.

(** The part of the configuration that depends on the options; [None]
    stands for [false]. *)
Record Configuration : Type := mkConfiguration {
  crossOriginLoading : option string;
  cacheGroups_default : option CacheGroup;
  cacheGroups_common : option CacheGroup;
  cacheGroups_defaultVendors : option CacheGroup;
  plugins : list Plugin
}.

Definition getBrowserConfig (wco : WebpackConfigOptions) : Configuration :=
let options := buildOptions wco in
let crossOrigin0 := default "none" (crossOrigin options) in
let extraPlugins :=
  (if subresourceIntegrity options
   then [SubresourceIntegrity ["sha384"]] else [])
  ++ (if extractLicenses options
      then [LicenseWebpack "3rdpartylicenses.txt"] else [])
  ++ (if scripts (sourceMap options) || styles (sourceMap options)
      then [SourceMapDevTool (scripts (sourceMap options))
              (styles (sourceMap options))
              (if differentialLoadingMode wco then Some true
               else hidden (sourceMap options))]
      else []) in
let crossOriginLoading0 :=
  if subresourceIntegrity options && String.eqb crossOrigin0 "none"
  then Some "anonymous"
  else if negb (String.eqb crossOrigin0 "none") then Some crossOrigin0
  else None in
mkConfiguration crossOriginLoading0
  (if commonChunk options
   then Some (mkCacheGroup None Async (Some 2) false (Some 10)) else None)
  (if commonChunk options
   then Some (mkCacheGroup (Some "common") Async (Some 2) true (Some 5))
   else None)
  (if vendorChunk options
   then Some (mkCacheGroup (Some "vendor") NamedMain None true None)
   else None)
  (CommonJsUsageWarn
     (CommonJsUsageWarnPlugin.new (allowedCommonJsDependencies options))
   :: extraPlugins).

(** Reading a plugin: whether it is the source-map plugin, and whether it
    hides the source-map comment. *)
Definition isSourceMapDevTool (p : Plugin) : bool :=
match p with
| SourceMapDevTool _ _ _ => true
| _ => false
end.

Definition hidesSourceMaps (p : Plugin) : bool :=
match p with
| SourceMapDevTool _ _ (Some true) => true
| _ => false
end.

End BrowserConfig.

(** ** [getServerConfig] and [externalizePackages] *)

Module ServerConfig.

(** What [callback] is called with: nothing, or [undefined] and the name
    of the external module. *)
Inductive Answer : Type :=
  | NotExternal
  | External (result : string).

(** The first argument of an externals function of webpack 5. *)
Record HookData : Type := mkHookData {
  context : string;
  request : string
}.

Section Externals.
Context `{NodePath}.
(** [require.resolve(request, { paths })] *)
Variable require_resolve : string -> list string -> Exc string.

(** [externalizePackages], by the call it makes on a [callback] that does
    not throw. *)
Definition externalizePackages (context0 request0 : string) : Answer :=
if startsWith request0 "." || path_isAbsolute request0 then NotExternal
else match require_resolve request0 [context0] with
     | inr _ => External request0
     | inl _ => NotExternal
     end.

(** The function pushed on [externals] under webpack 5. *)
Definition hook (data : HookData) : Answer :=
externalizePackages (request data) (context data).
End Externals.

(** An element of [externals]: a name, or one of the two functions. *)
Inductive ExternalsEntry : Type :=
  | Name (name : string)
  | Hook
  | ExternalizePackages.

Record BuildOptions : Type := mkBuildOptions {
  sourceMap_scripts : bool;
  sourceMap_styles : bool;
  sourceMap_hidden : option bool;
  sourceMap_vendor : option bool;
  bundleDependencies : bool;
  externalDependencies : option (list string)
}.

(** The arguments of [getSourceMapDevTool]. *)
Record SourceMapDevTool : Type := mkSourceMapDevTool {
  scripts : bool;
  styles : bool;
  hidden : option bool;
  inlineSourceMap : bool;
  vendor : option bool
}.

Record Configuration : Type := mkConfiguration {
  extraPlugins : list SourceMapDevTool;
  externals : list ExternalsEntry
}.

Definition getServerConfig (isWebpackFiveOrHigher : bool)
    (options : BuildOptions) : Configuration :=
mkConfiguration
  (if sourceMap_scripts options || sourceMap_styles options
   then [mkSourceMapDevTool (sourceMap_scripts options)
           (sourceMap_styles options) (sourceMap_hidden options) false
           (sourceMap_vendor options)]
   else [])
  (map Name (default [] (externalDependencies options))
   ++ (if bundleDependencies options then []
       else if isWebpackFiveOrHigher then [Hook]
       else [ExternalizePackages])).

End ServerConfig.

(** ** [getAnalyticsConfig] *)

Module AnalyticsConfig.

(** [s.split(sep)] for a separator of one character. *)
Fixpoint split (sep : ascii) (s : string) : list string :=
match s with
| EmptyString => [EmptyString]
| String c s' =>
    if Ascii.eqb c sep then EmptyString :: split sep s'
    else match split sep s' with
         | [] => [String c EmptyString]
         | x :: xs => String c x :: xs
         end
end.

(** [a || b] on strings, where [a] may be [undefined]. *)
Definition orElse (a : option string) (b : string) : string :=
match a with
| Some s => if String.eqb s "" then b else s
| None => b
end.

(** The arguments of [new NgBuildAnalyticsPlugin(...)]; the analytics
    object is not looked into. *)
Record NgBuildAnalyticsPlugin : Type := mkNgBuildAnalyticsPlugin {
  projectRoot : string;
  category : string;
  enableIvy : bool
}.

(** [context.analytics] is there or not, [context.builder] gives its
    [builderName] or is [undefined]; the result is the list of plugins. *)
Definition getAnalyticsConfig (projectRoot0 : string) (enableIvy0 : bool)
    (analytics : bool) (builderName : option string)
    : list NgBuildAnalyticsPlugin :=
if analytics then
  let category0 :=
    match builderName with
    | Some name =>
        orElse (split ":" name !! 1) (orElse (Some name) "build")
    | None => "build"
    end in
  [mkNgBuildAnalyticsPlugin projectRoot0 category0 enableIvy0]
else [].

End AnalyticsConfig.

(** ** [createWebpackInputHost] *)

Module WebpackInputHost.

(** What the file system throws: an error with its [code], if any. *)
Record ErrnoException : Type := mkErrnoException {
  code : option string;
  message : string
}.

Definition Result (A : Type) : Type := ErrnoException + A.

(** [fs.Stats], as far as the host asks. *)
Record Stats : Type := mkStats {
  stats_isDirectory : bool;
  stats_isFile : bool
}.

Section Host.
(** [getSystemPath] and the synchronous calls of the input file system *)
Variable getSystemPath : string -> string.
Variable statSync : string -> Result Stats.
Variable readFileSync : string -> Result (list Byte.byte).
Variable readdirSync : string -> Result (list string).

Definition notSupported {A} : Result A :=
inl (mkErrnoException None "Not supported.").

Definition write (path : string) (content : list Byte.byte) : Result unit :=
notSupported.

Definition delete (path : string) : Result unit := notSupported.

Definition rename (from to : string) : Result unit := notSupported.

Definition read (path : string) : Result (list Byte.byte) :=
readFileSync (getSystemPath path).

Definition list (path : string) : Result (list string) :=
readdirSync (getSystemPath path).

(** [null] is [None]. *)
Definition stat (path : string) : Result (option Stats) :=
match statSync (getSystemPath path) with
| inr s => inr (Some s)
| inl e =>
    match code e with
    | Some c => if String.eqb c "ENOENT" then inr None else inl e
    | None => inl e
    end
end.

Definition exists_ (path : string) : Result bool :=
match stat path with
| inr (Some _) => inr true
| inr None => inr false
| inl e => inl e
end.

Definition isDirectory (path : string) : Result bool :=
match stat path with
| inr (Some s) => inr (stats_isDirectory s)
| inr None => inr false
| inl e => inl e
end.

Definition isFile (path : string) : Result bool :=
match stat path with
| inr (Some s) => inr (stats_isFile s)
| inr None => inr false
| inl e => inl e
end.
End Host.

End WebpackInputHost.

(** ** [webpack/utils/stats.ts] *)

Module WebpackUtilsStats.

(** [WebpackDiagnostic] *)
Record WebpackDiagnostic : Type := mkWebpackDiagnostic {
  message : string;
  file : option string;
  moduleName : option string;
  loc : option string
}.

(** A warning or an error of the statistics: a string or a diagnostic. *)
Definition Entry : Type := string + WebpackDiagnostic.

Record Child : Type := mkChild {
  child_warnings : list Entry;
  child_errors : list Entry
}.

(** The statistics, as far as the warnings and the errors go. *)
Record Json : Type := mkJson {
  warnings : list Entry;
  errors : list Entry;
  children : option (list Child)
}.

(** The line feed. *)
Definition nl : string := String (ascii_of_nat 10) EmptyString.

(** [ERRONEOUS_WARNINGS_FILTER]: none of the two expressions matches. *)
Definition ERRONEOUS_WARNINGS_FILTER (warning : string) : bool :=
WarningsFilter.ERRONEOUS_WARNINGS_FILTER warning.

(** The string a regular expression tests when it is given an entry: the
    entry itself, or the string form of a plain object. *)
Definition entryToString (entry : Entry) : string :=
match entry with
| inl s => s
| inr _ => "[object Object]"
end.

(** The styles of [ansiColors] the module uses. *)
Inductive Style : Type :=
  | Reset
  | ResetCyan
  | ResetYellow
  | ResetYellowBright
  | ResetRedBright
  | Bold
  | Dim.

(** [BundleStats]; the data are the three columns of a row. *)
Record BundleStats : Type := mkBundleStats {
  initial : bool;
  stats : string * string * string
}.

Definition row (data : string * string * string) : list string :=
[data.1.1; data.1.2; data.2].

(** [stats] as the logging callback gets it. *)
Record WebpackStats : Type := mkWebpackStats {
  toJson : Json;
  toString : string
}.

Section Colors.
Variable ansiColors : Style -> string -> string.
(** [textTable], by the rows and the column separator *)
Variable textTable : list (list string) -> string -> string.
(** [statsToString], which reads the clock *)
Variable statsToString : Json -> bool -> string.

(** [colors ? ansiColors.style(x) : x] *)
Definition paint (colors : bool) (style : Style) (x : string) : string :=
if colors then ansiColors style x else x.

(** The loop over [data] of [generateBuildStatsTable]. *)
Definition changedChunksStats (data : list BundleStats)
    : list (string * string * string) * list (string * string * string) :=
fold_left
  (fun acc d =>
     if initial d then (acc.1 ++ [stats d], acc.2)
     else (acc.1, acc.2 ++ [stats d]))
  data ([], []).

(** [bundleInfo], the rows handed to [textTable]. *)
Definition bundleInfo (data : list BundleStats) (colors : bool)
    : list (list string) :=
let changedEntryChunksStats := (changedChunksStats data).1 in
let changedLazyChunksStats := (changedChunksStats data).2 in
let hasEntry := negb (Nat.eqb (length changedEntryChunksStats) 0) in
let hasLazy := negb (Nat.eqb (length changedLazyChunksStats) 0) in
(if hasEntry
 then map (paint colors Bold) ["Initial Chunk Files"; "Names"; "Size"]
      :: map row changedEntryChunksStats
 else [])
++ (if hasEntry && hasLazy then [[]] else [])
++ (if hasLazy
    then map (paint colors Bold) ["Lazy Chunk Files"; "Names"; "Size"]
         :: map row changedLazyChunksStats
    else []).

Definition generateBuildStatsTable (data : list BundleStats) (colors : bool)
    : string :=
textTable (bundleInfo data colors) (paint colors Dim " | ").

(** [warnings] of [statsWarningsToString]: those of the statistics, then
    those of the children. *)
Definition allWarnings (json : Json) : list Entry :=
warnings json
++ match children json with
   | Some cs => fold_left (fun a b => a ++ b) (map child_warnings cs) []
   | None => []
   end.

Definition allErrors (json : Json) : list Entry :=
errors json
++ match children json with
   | Some cs => fold_left (fun a b => a ++ b) (map child_errors cs) []
   | None => []
   end.

(** [warning.file || warning.moduleName] *)
Definition fileOf (d : WebpackDiagnostic) : option string :=
if truthy (file d) then file d else moduleName d.

(** The head of the text of a diagnostic: its file and its location. *)
Definition located (colors : bool) (d : WebpackDiagnostic) : string :=
if truthy (fileOf d)
then paint colors ResetCyan (default EmptyString (fileOf d))
     +:+ (if truthy (loc d)
          then ":" +:+ paint colors ResetYellowBright
                         (default EmptyString (loc d))
          else EmptyString)
     +:+ " - "
else EmptyString.

(** What one iteration of the loop of [statsWarningsToString] adds to
    [output]. *)
Definition warningText (colors : bool) (warning : Entry) : string :=
match warning with
| inl s =>
    if ERRONEOUS_WARNINGS_FILTER s
    then paint colors ResetYellowBright ("Warning: " +:+ s +:+ nl +:+ nl)
    else EmptyString
| inr d =>
    if ERRONEOUS_WARNINGS_FILTER (message d)
    then located colors d
         +:+ (if startsWith (WarningsFilter.lower (message d)) "warning"
              then EmptyString
              else paint colors ResetYellow "Warning: ")
         +:+ message d +:+ nl +:+ nl
    else EmptyString
end.

Definition statsWarningsToString (json : Json) (colors : bool) : string :=
let output :=
  fold_left (fun output warning => output +:+ warningText colors warning)
    (allWarnings json) EmptyString in
if truthy (Some output) then nl +:+ output else EmptyString.

(** What one iteration of the loop of [statsErrorsToString] adds. *)
Definition errorText (colors : bool) (error : Entry) : string :=
match error with
| inl s => paint colors ResetRedBright ("Error: " +:+ s +:+ nl +:+ nl)
| inr d =>
    located colors d
    +:+ (if startsWith (WarningsFilter.lower (message d)) "error"
         then EmptyString
         else paint colors ResetRedBright "Error: ")
    +:+ message d +:+ nl +:+ nl
end.

Definition statsErrorsToString (json : Json) (colors : bool) : string :=
let output :=
  fold_left (fun output error => output +:+ errorText colors error)
    (allErrors json) EmptyString in
if truthy (Some output) then nl +:+ output else EmptyString.

Definition statsHasErrors (json : Json) : bool :=
negb (Nat.eqb (length (errors json)) 0)
|| match children json with
   | Some cs =>
       existsb (fun c => negb (Nat.eqb (length (child_errors c)) 0)) cs
   | None => false
   end.

Definition passing (entries : list Entry) : list Entry :=
List.filter (fun entry => ERRONEOUS_WARNINGS_FILTER (entryToString entry))
  entries.

Definition statsHasWarnings (json : Json) : bool :=
negb (Nat.eqb (length (passing (warnings json))) 0)
|| match children json with
   | Some cs =>
       existsb
         (fun c => negb (Nat.eqb (length (passing (child_warnings c))) 0)) cs
   | None => false
   end.

(** The callback of [createWebpackLoggingCallback], by the calls it makes
    on the logger; [colors] is [config.stats.colors]. *)
Definition createWebpackLoggingCallback (verbose : bool)
    (stats0 : WebpackStats) (colors : bool) : list Event :=
let json := toJson stats0 in
[LoggerInfo (if verbose then toString stats0 else statsToString json colors)]
++ (if statsHasWarnings json
    then [LoggerWarn (statsWarningsToString json colors)] else [])
++ (if statsHasErrors json
    then [LoggerError (statsErrorsToString json colors)] else []).
End Colors.

End WebpackUtilsStats.

(** ** The callback of [buildWebpackBrowser] for a build event *)

Module Callback.

(** The calls of the callback, in program order: those of the
    differential-loading branch and of the report of a failed build, and
    those on the other collaborators, by their arguments that vary. *)
Inductive Call : Type :=
  | Branch (e : Event)
  | I18nInlineEmittedFiles (emittedFiles : list EmittedFiles.t) (es5 : bool)
  | CopyAssetPatterns (outputPaths : list string)
  | GenerateIndex (outputPath : string)
      (files noModuleFiles moduleFiles : option (list EmittedFiles.t))
      (lang baseHref : option string)
  | AugmentAppWithServiceWorker (outputPath baseHref : string).

(** A block of the callback: its calls and how it ended. *)
Definition Block (A : Type) : Type := list Call * Completion A.

#[global] Instance Block_ret : MRet Block := fun _ x => ([], Normal x).
#[global] Instance Block_bind : MBind Block := fun _ _ f m =>
  match snd m with
  | Normal a => let k := f a in (fst m ++ fst k, snd k)
  | Return r => (fst m, Return r)
  | Throw e => (fst m, Throw e)
  end.

Definition call (c : Call) : Block unit := ([c], Normal tt).
Definition returnB {A} (r : BuilderOutput.t) : Block A := ([], Return r).
Definition throwB {A} (e : JsValue) : Block A := ([], Throw e).
Definition liftB {A} (x : Exc A) : Block A :=
match x with
| inl e => throwB e
| inr a => mret a
end.

(** A block of the differential-loading branch, as a block of the
    callback. *)
Definition ofBranch {A} (m : M A) : Block A := (map Branch (fst m), snd m).

(** [try { body } catch (err) { handler err }] *)
Definition tryCatchB {A} (body : Block A) (handler : JsValue -> Block A)
    : Block A :=
match snd body with
| Throw e => let h := handler e in (fst body ++ fst h, snd h)
| _ => body
end.

(** The build event of [runWebpack]. *)
Record BuildEvent : Type := mkBuildEvent {
  webpackStats : option Stats.t;
  success : bool;
  emittedFiles : option (list EmittedFiles.t)
}.

(** An entry of [i18n.locales]. *)
Record Locale : Type := mkLocale {
  locale_baseHref : option string
}.

Record I18nOptions : Type := mkI18nOptions {
  shouldInline : bool;
  locales : gmap string Locale
}.

(** The options the callback reads besides those of the
    differential-loading branch; [assets], [index] and [serviceWorker]
    by their truthiness. *)
Record Options : Type := mkOptions {
  schema : Schema.t;
  watch : bool;
  assets : bool;
  index : bool;
  serviceWorker : bool;
  baseHref : option string;
  i18nLocale : option string
}.

(** The other collaborators of the callback, by what they return or
    throw. *)
Record Collaborators : Type := mkCollaborators {
  (** [i18nInlineEmittedFiles], by the emitted files and [es5] *)
  i18nInlineEmittedFiles : list EmittedFiles.t -> bool -> Exc bool;
  (** [normalizeAssetPatterns] and [copyAssets] on the asset patterns of
      the options, by the output paths *)
  copyAssetPatterns : list string -> Exc unit;
  generateIndex :
    string -> option (list EmittedFiles.t) -> option (list EmittedFiles.t)
    -> option (list EmittedFiles.t) -> option string -> option string
    -> Exc unit;
  augmentAppWithServiceWorker : string -> string -> Exc unit;
  urlJoin : string -> string -> string
}.

(** The three lists handed to [generateIndex]. *)
Record IndexFiles : Type := mkIndexFiles {
  files : option (list EmittedFiles.t);
  noModuleFiles : option (list EmittedFiles.t);
  moduleFiles : option (list EmittedFiles.t)
}.

(** [a || b] on optional strings. *)
Definition orOption (a b : option string) : option string :=
if truthy a then a else b.

(** [a || b] where [b] is a string. *)
Definition orString (a : option string) (b : string) : string :=
if truthy a then default EmptyString a else b.

(** [err.message] in [catch (err)]: reading a property of [undefined] or
    [null] throws, a missing property reads as [undefined]. *)
Definition messageOf (err : JsValue) : Exc string :=
match err with
| JsError message => inr message
| JsObject fields =>
    inr (default "undefined"
           (snd <$> List.find (fun kv => String.eqb (fst kv) "message") fields))
| JsUndefined =>
    inl (JsError "Cannot read properties of undefined (reading 'message')")
| JsNull =>
    inl (JsError "Cannot read properties of null (reading 'message')")
| _ => inr "undefined"
end.

Section Callback.
Context `{NodePath}.
Variable w : World.
Variable c : Collaborators.
Variable options : Options.
Variable i18n : I18nOptions.
(** [statsHasWarnings] and [statsHasErrors] of [webpack/utils/stats] *)
Variable hasWarnings : Stats.t -> bool.
Variable hasErrors : Stats.t -> bool.
(** [isDifferentialLoadingNeeded], [target <= ScriptTarget.ES5] *)
Variable isDifferentialLoadingNeeded : bool.
Variable es5 : bool.
(** [webpackStats.outputPath!], [baseOutputPath], the entries of
    [ensureOutputPaths(baseOutputPath, i18n)], and the disk *)
Variable outputPath : string.
Variable baseOutputPath : string.
Variable outputPaths : list (string * string).
Variable disk0 : gmap string string.

Definition useBundleDownleveling : bool :=
isDifferentialLoadingNeeded && negb (watch options).

(** The report of a failed build when there is only one build. *)
Definition reportFailure (webpackStats0 : Stats.t) : Block unit :=
(if hasWarnings webpackStats0
 then call (Branch (LoggerWarn (statsWarningsToString w webpackStats0)))
 else mret tt);;
(if hasErrors webpackStats0
 then call (Branch (LoggerError (statsErrorsToString w webpackStats0)))
 else mret tt).

(** [if (i18n.shouldInline)] of the two branches without bundle
    downleveling. *)
Definition inlineEmittedFiles (emittedFiles0 : list EmittedFiles.t)
    : Block unit :=
if shouldInline i18n then
  call (I18nInlineEmittedFiles emittedFiles0 es5);;
  success0 ← liftB (i18nInlineEmittedFiles c emittedFiles0 es5);
  if (success0 : bool) then mret tt
  else returnB (BuilderOutput.mk false None)
else mret tt.

(** [x.extension === '.css' ||
     (x.name && scriptsEntryPointName.includes(x.name))] *)
Definition styleOrScriptsEntry (x : EmittedFiles.t) : bool :=
String.eqb (EmittedFiles.extension x) ".css"
|| match EmittedFiles.name x with
   | Some n =>
       negb (String.eqb n "")
       && list_includes (Schema.scriptsEntryPointName (schema options)) n
   | None => false
   end.

(** The branch [if (isDifferentialLoadingNeeded && options.watch)]. *)
Definition watchBranch (emittedFiles0 : list EmittedFiles.t)
    : Block IndexFiles :=
let moduleFiles0 := emittedFiles0 in
let files0 := List.filter styleOrScriptsEntry moduleFiles0 in
inlineEmittedFiles emittedFiles0;;
mret (mkIndexFiles (Some files0) None (Some moduleFiles0)).

(** The branch [else if (isDifferentialLoadingNeeded)]. *)
Definition downlevelBranch (webpackStats0 : Stats.t)
    (emittedFiles0 : list EmittedFiles.t) : Block IndexFiles :=
ofBranch
  (Builder.differentialLoading w (schema options) outputPath baseOutputPath
     (shouldInline i18n) disk0 webpackStats0 emittedFiles0);;
st ← liftB (Classifier.classify (schema options) outputPath disk0
              emittedFiles0);
mret (mkIndexFiles (Classifier.files st) (Some (Classifier.noModuleFiles st))
        (Some (Classifier.moduleFiles st))).

(** [x.name !== 'polyfills-es5'] *)
Definition notLegacyPolyfills (x : EmittedFiles.t) : bool :=
negb (bool_decide (EmittedFiles.name x = Some "polyfills-es5")).

(** The last branch. *)
Definition plainBranch (emittedFiles0 : list EmittedFiles.t)
    : Block IndexFiles :=
let files0 := List.filter notLegacyPolyfills emittedFiles0 in
let noModuleFiles0 :=
  List.filter (fun x => negb (notLegacyPolyfills x)) emittedFiles0 in
inlineEmittedFiles emittedFiles0;;
mret (mkIndexFiles (Some files0) (Some noModuleFiles0) None).

(** [// Copy assets] *)
Definition copyAssetsStep : Block unit :=
if negb (watch options) && assets options then
  call (CopyAssetPatterns (map snd outputPaths));;
  tryCatchB (liftB (copyAssetPatterns c (map snd outputPaths)))
    (fun err =>
       message ← liftB (messageOf err);
       returnB (BuilderOutput.mk false
                  (Some ("Unable to copy assets: " +:+ message))))
else mret tt.

(** [localeBaseHref] for a locale; [None] is [undefined]. *)
Definition localeBaseHref (locale : string) : option string :=
match locales i18n !! locale with
| Some l =>
    if bool_decide (locale_baseHref l = Some EmptyString) then None
    else Some (urlJoin c (orString (baseHref options) EmptyString)
                 (default ("/" +:+ locale +:+ "/") (locale_baseHref l)))
| None => None
end.

(** The body of the loop over [outputPaths.entries()]. *)
Definition writeIndex (indexFiles : IndexFiles) (entry : string * string)
    : Block unit :=
let locale := fst entry in
let outputPath0 := snd entry in
let lang := orOption (Some locale) (i18nLocale options) in
let href := orOption (localeBaseHref locale) (baseHref options) in
tryCatchB
  ((if index options then
      call (GenerateIndex outputPath0 (files indexFiles)
              (noModuleFiles indexFiles) (moduleFiles indexFiles) lang href);;
      liftB (generateIndex c outputPath0 (files indexFiles)
               (noModuleFiles indexFiles) (moduleFiles indexFiles) lang href)
    else mret tt);;
   (if serviceWorker options then
      call (AugmentAppWithServiceWorker outputPath0 (orString href "/"));;
      liftB (augmentAppWithServiceWorker c outputPath0 (orString href "/"))
    else mret tt))
  (fun err => returnB (BuilderOutput.mk false (mapErrorToMessage err))).

Fixpoint writeIndexes (indexFiles : IndexFiles)
    (entries : list (string * string)) : Block unit :=
match entries with
| [] => mret tt
| entry :: rest =>
    writeIndex indexFiles entry;;
    writeIndexes indexFiles rest
end.

(** The three branches of a successful build. *)
Definition branch (webpackStats0 : Stats.t)
    (emittedFiles0 : list EmittedFiles.t) : Block IndexFiles :=
if isDifferentialLoadingNeeded && watch options
then watchBranch emittedFiles0
else if isDifferentialLoadingNeeded
then downlevelBranch webpackStats0 emittedFiles0
else plainBranch emittedFiles0.

(** What follows the branches: the copy of the assets and the loop over
    the output paths. *)
Definition finish (indexFiles : IndexFiles) : Block unit :=
copyAssetsStep;;
writeIndexes indexFiles outputPaths.

(** The callback of [concatMap]: [Normal] is the last [return], [Return]
    one of those before it. *)
Definition onBuildEvent (buildEvent : BuildEvent)
    : Block BuilderOutput.t :=
match webpackStats buildEvent with
| None => throwB (JsError "Webpack stats build result is required.")
| Some webpackStats0 =>
    let emittedFiles0 := default [] (emittedFiles buildEvent) in
    if negb (success buildEvent) && useBundleDownleveling then
      reportFailure webpackStats0;;
      mret (BuilderOutput.mk (success buildEvent) None)
    else if success buildEvent then
      indexFiles ← branch webpackStats0 emittedFiles0;
      finish indexFiles;;
      mret (BuilderOutput.mk (success buildEvent) None)
    else mret (BuilderOutput.mk (success buildEvent) None)
end.

(** What the two calls of an iteration of the loop come to. *)
Definition written (indexFiles : IndexFiles) (entry : string * string)
    : Exc unit :=
let lang := orOption (Some (fst entry)) (i18nLocale options) in
let href := orOption (localeBaseHref (fst entry)) (baseHref options) in
(if index options
 then generateIndex c (snd entry) (files indexFiles)
        (noModuleFiles indexFiles) (moduleFiles indexFiles) lang href
 else inr tt);;
(if serviceWorker options
 then augmentAppWithServiceWorker c (snd entry) (orString href "/")
 else inr tt).
End Callback.

(** The output of the callback, if it returns. *)
Definition output (m : Block BuilderOutput.t) : option BuilderOutput.t :=
match snd m with
| Normal r | Return r => Some r
| Throw _ => None
end.

(** Reading the calls of the callback. *)
Definition isBranch (call0 : Call) : bool :=
match call0 with
| Branch _ => true
| _ => false
end.

Definition isCopyAssetPatterns (call0 : Call) : bool :=
match call0 with
| CopyAssetPatterns _ => true
| _ => false
end.

(** The lists handed to [generateIndex], in call order. *)
Fixpoint indexArguments (tr : list Call) : list IndexFiles :=
match tr with
| [] => []
| GenerateIndex _ files0 noModuleFiles0 moduleFiles0 _ _ :: rest =>
    mkIndexFiles files0 noModuleFiles0 moduleFiles0 :: indexArguments rest
| _ :: rest => indexArguments rest
end.

(** The output paths for which an index was asked for, in call order. *)
Fixpoint indexed (tr : list Call) : list string :=
match tr with
| [] => []
| GenerateIndex outputPath _ _ _ _ _ :: rest => outputPath :: indexed rest
| _ :: rest => indexed rest
end.

End Callback.

(** ** [OptimizeCssWebpackPlugin] *)

Module OptimizeCssWebpackPlugin.

(** An asset of the compilation: one webpack produced, by what [source()]
    gives as a string and what [sourceAndMap({})] gives when the asset has
    that method, or one of the two sources the plugin creates. A source
    map is an object: it is always truthy. *)
Inductive Source : Type :=
  | Existing (source : string) (sourceAndMap : option (string * option string))
  | RawSource (css : string)
  | SourceMapSource (css file map content : string) (prevMap : option string).

(** [asset.source()] *)
Definition sourceOf (asset : Source) : string :=
match asset with
| Existing source _ => source
| RawSource css => css
| SourceMapSource css _ _ _ _ => css
end.

(** [asset.sourceAndMap && asset.sourceAndMap({})] *)
Definition sourceAndMapOf (asset : Source) : option (string * option string) :=
match asset with
| Existing _ sourceAndMap => sourceAndMap
| RawSource css => Some (css, None)
| SourceMapSource css _ map _ _ => Some (css, Some map)
end.

(** The options given to the constructor: a property that is not there is
    [None]. *)
Record PartialOptions : Type := mkPartialOptions {
  partial_sourceMap : option bool;
  partial_test : option (string -> bool)
}.

Record Options : Type := mkOptions {
  sourceMap : bool;
  test : string -> bool
}.

(** [new OptimizeCssWebpackPlugin(options)] *)
Definition new (options : PartialOptions) : Options :=
mkOptions (default false (partial_sourceMap options))
  (default (fun file => endsWith file ".css") (partial_test options)).

(** A chunk, by its [files]. *)
Record Chunk : Type := mkChunk {
  chunk_files : option (list string)
}.

(** The result of [cssNano.process]. *)
Record Result : Type := mkResult {
  css : string;
  outputMap : option string;
  warnings : list string
}.

(** The compilation, as far as the plugin reads and writes it. *)
Record Compilation : Type := mkCompilation {
  additionalChunkAssets : list string;
  assets : gmap string Source;
  compilation_warnings : list string
}.

(** How an action ends: it returns early, its promise is rejected, or it
    has warnings to add and a source to store. *)
Inductive Outcome : Type :=
  | Skipped
  | Rejected (e : JsValue)
  | Optimized (texts : list string) (newSource : Source).

Section Apply.
Variable this : Options.
(** [cssNano.process(content, { from: file, map: ... }, cssNanoOptions)],
    by the content, the file and the previous source map *)
Variable process : string -> string -> option string -> Exc Result.
(** the order in which the runs of [cssNano] complete *)
Variable completionOrder : list string -> list string.

(** [files]: the additional chunk assets, then the files of the chunks. *)
Definition filesOf (compilation : Compilation) (chunks : list Chunk)
    : list string :=
additionalChunkAssets compilation
++ concat (map (fun chunk => default [] (chunk_files chunk)) chunks).

(** An action up to its [await] and what it then has to do. Every action
    gets this far before any of them goes on, so all of them read the
    assets as the hook found them. *)
Definition action (compilation : Compilation) (file : string) : Outcome :=
match assets compilation !! file with
| None => Skipped
| Some asset =>
    let read :=
      match (if sourceMap this then sourceAndMapOf asset else None) with
      | Some sourceAndMap => sourceAndMap
      | None => (sourceOf asset, None)
      end in
    let content := fst read in
    let map0 := snd read in
    if String.eqb content "" then Skipped
    else match process content file map0 with
         | inl e => Rejected e
         | inr output =>
             Optimized (warnings output)
               (match outputMap output with
                | Some map1 =>
                    SourceMapSource (css output) file map1 content map0
                | None => RawSource (css output)
                end)
         end
end.

(** What an action does to the compilation when it goes on after its
    [await]. *)
Definition settle (compilation0 : Compilation)
    (acc : Compilation * option JsValue) (file : string)
    : Compilation * option JsValue :=
match action compilation0 file with
| Skipped => acc
| Rejected e =>
    (fst acc, match snd acc with Some first => Some first | None => Some e end)
| Optimized texts newSource =>
    (mkCompilation (additionalChunkAssets (fst acc))
       (<[file := newSource]> (assets (fst acc)))
       (compilation_warnings (fst acc) ++ texts),
     snd acc)
end.

(** The hook, once every action is settled: the compilation, and the
    first rejection, with which [Promise.all] rejects. *)
Definition optimizeChunkAssets (compilation : Compilation)
    (chunks : list Chunk) : Compilation * option JsValue :=
fold_left (settle compilation)
  (completionOrder (List.filter (test this) (filesOf compilation chunks)))
  (compilation, None).
End Apply.

End OptimizeCssWebpackPlugin.

(** ** [initialize] *)

Module Initialize.

(** The options [initialize] reads; the asset patterns by their text. *)
Record Options : Type := mkOptions {
  outputPath : string;
  watch : bool;
  assets : option (list string);
  deleteOutputPath : bool
}.

(** [{ ...options, assets: [] }] *)
Definition with_assets (options : Options) (assets0 : option (list string))
    : Options :=
mkOptions (outputPath options) (watch options) assets0
  (deleteOutputPath options).

(** The calls of [initialize], in program order. *)
Inductive Step : Type :=
  | BuildConfig (adjustedOptions : Options)
  | NormalizeAssetPatterns (assets : list string)
  | Transform
  | DeleteOutputDir (outputPath : string).

(** What [initialize] has done and how it ended. *)
Definition Run (A : Type) : Type := list Step * Exc A.

#[global] Instance Run_ret : MRet Run := fun _ x => ([], inr x).
#[global] Instance Run_bind : MBind Run := fun _ _ f m =>
  match snd m with
  | inr a => let k := f a in (fst m ++ fst k, snd k)
  | inl e => (fst m, inl e)
  end.

Definition step {A} (s : Step) (outcome : Exc A) : Run A := ([s], outcome).

Section Initialize.
(** The configuration of webpack, not looked into *)
Variable Configuration : Type.
(** [buildBrowserWebpackConfigFromContext], by the adjusted options *)
Variable buildBrowserWebpackConfigFromContext : Options -> Exc Configuration.
(** [normalizeAssetPatterns]: the [output] of each normalised pattern *)
Variable normalizeAssetPatterns : list string -> Exc (list string).
(** [webpackConfigurationTransform], if there is one; its result may be
    [undefined] *)
Variable webpackConfigurationTransform :
  option (Configuration -> Exc (option Configuration)).
Variable deleteOutputDir : string -> Exc unit.

(** [options.assets?.length], as a condition *)
Definition hasAssets (options : Options) : bool :=
match assets options with
| Some (_ :: _) => true
| _ => false
end.

(** The [forEach] over the normalised patterns. *)
Fixpoint validate (outputs : list string) : Exc unit :=
match outputs with
| [] => inr tt
| output :: rest =>
    if startsWith output ".."
    then throw (JsError
                  "An asset cannot be written to a location outside of the output path.")
    else validate rest
end.

Definition initialize (options : Options) : Run Configuration :=
let originalOutputPath := outputPath options in
let adjustedOptions :=
  if watch options then options else with_assets options (Some []) in
config ← step (BuildConfig adjustedOptions)
           (buildBrowserWebpackConfigFromContext adjustedOptions);
(if hasAssets options && negb (hasAssets adjustedOptions)
 then outputs ← step (NormalizeAssetPatterns (default [] (assets options)))
                  (normalizeAssetPatterns (default [] (assets options)));
      ([], validate outputs)
 else mret tt);;
transformedConfig ←
  match webpackConfigurationTransform with
  | Some transform => step Transform (transform config)
  | None => mret None
  end;
(if deleteOutputPath options
 then step (DeleteOutputDir originalOutputPath)
        (deleteOutputDir originalOutputPath)
 else mret tt);;
mret (default config transformedConfig).
End Initialize.

(** Reading the calls. *)
Definition isDeleteOutputDir (s : Step) : bool :=
match s with
| DeleteOutputDir _ => true
| _ => false
end.

Definition isTransform (s : Step) : bool :=
match s with
| Transform => true
| _ => false
end.

End Initialize.

(** * Properties *)

(** ** The filename regular expressions *)

Example stripEs20_polyfills :
  stripEs20 "polyfills-es5-es2015.js" = "polyfills-es5.js".
Proof. reflexivity. Qed.

Example toEs5_main : toEs5 "main-es2015.js" = "main-es5.js".
Proof. reflexivity. Qed.

Example toEs5_esnext : toEs5 "0-esnext.worker.js" = "0-es5.worker.js".
Proof. reflexivity. Qed.

Example toEs5_leftmost :
  toEs5 "a-esnext-es2015.js" = "a-es5-es2015.js".
Proof. reflexivity. Qed.

Example stripEs20_needs_two_digits : stripEs20 "lib-es20x5.js" = "lib-es20x5.js".
Proof. reflexivity. Qed.

Example licenses_warning_filtered :
  WarningsFilter.ERRONEOUS_WARNINGS_FILTER
    "Multiple assets emit different content to the same filename 3rdpartylicenses.txt"
  = false.
Proof. reflexivity. Qed.

Example other_warning_kept :
  WarningsFilter.ERRONEOUS_WARNINGS_FILTER "budgets: bundle too large" = true.
Proof. reflexivity. Qed.

Example system_import_warning_filtered :
  WarningsFilter.ERRONEOUS_WARNINGS_FILTER
    "System.import() is deprecated and will be removed soon. Use import() instead."
  = false.
Proof. reflexivity. Qed.

(** A line terminator between the two parts of the first expression, here
    the line separator U+2028, keeps it from matching. *)
Example licenses_warning_over_two_lines_kept :
  WarningsFilter.ERRONEOUS_WARNINGS_FILTER
    ("multiple assets emit different content" +:+ WarningsFilter.lineSeparator
     +:+ "3rdpartylicenses.txt")
  = true
  /\ WarningsFilter.ERRONEOUS_WARNINGS_FILTER
       ("multiple assets emit different content"
        +:+ String (ascii_of_nat 10) "3rdpartylicenses.txt")
     = true.
Proof. split; vm_compute; reflexivity. Qed.

Example scoped_package_name :
  CommonJsUsageWarnPlugin.rawRequestToPackageName "@angular/common/locales/en"
  = "@angular/common".
Proof. reflexivity. Qed.

Example plain_package_name :
  CommonJsUsageWarnPlugin.rawRequestToPackageName "lodash/isEmpty" = "lodash".
Proof. reflexivity. Qed.

Section ReplaceFirst.
Variable m : string -> option string.

Lemma replaceFirst_no_match r s :
  hasMatch m s = false -> replaceFirst m r s = s.
Proof.
  induction s as [|c s IH]; simpl.
  - destruct (m EmptyString); [discriminate | reflexivity].
  - destruct (m (String c s)); [discriminate |].
    intros H. f_equal. auto.
Qed.
End ReplaceFirst.

Lemma dropPrefix_length p s rest :
  dropPrefix p s = Some rest ->
  String.length s = String.length p + String.length rest.
Proof.
  revert s. induction p as [|a p IH]; intros s; simpl.
  - intros [= ->]. reflexivity.
  - destruct s as [|b s]; [discriminate |].
    destruct (Ascii.eqb a b); [| discriminate].
    intros H. simpl. f_equal. auto.
Qed.

Lemma match_es20_length s rest :
  match_es20 s = Some rest -> String.length s = 7 + String.length rest.
Proof.
  unfold match_es20.
  destruct (dropPrefix "-es20" s) as [t|] eqn:E; [| discriminate].
  apply dropPrefix_length in E.
  destruct t as [|d1 [|d2 t]]; try discriminate.
  destruct (isDigit d1 && isDigit d2); [| discriminate].
  intros [= <-]. simpl in *. exact E.
Qed.

Lemma stripEs20_length s :
  hasMatch match_es20 s = true ->
  String.length s = 7 + String.length (stripEs20 s).
Proof.
  unfold stripEs20.
  induction s as [|c s IH]; simpl.
  - destruct (match_es20 EmptyString) eqn:E; [| discriminate].
    intros _. apply match_es20_length in E. simpl in E. lia.
  - destruct (match_es20 (String c s)) eqn:E.
    + intros _. apply match_es20_length in E.
      change ("" +:+ s0) with s0. exact E.
    + intros H. simpl. rewrite (IH H). lia.
Qed.

Lemma stripEs20_fixpoint s :
  stripEs20 s = s <-> hasMatch match_es20 s = false.
Proof.
  split.
  - intros H. destruct (hasMatch match_es20 s) eqn:E; [| reflexivity].
    apply stripEs20_length in E. rewrite H in E. lia.
  - apply replaceFirst_no_match.
Qed.

(** C8, as stated, fails: a name carrying the version suffix twice loses
    one occurrence at each application of the strip. *)
Lemma stripEs20_not_idempotent :
  stripEs20 (stripEs20 "polyfills-es5-es2015-es2015.js")
  <> stripEs20 "polyfills-es5-es2015-es2015.js".
Proof. vm_compute. discriminate. Qed.

(** [s] holds the text [-es20dd], with two digits, between [pre] and
    [post]. *)
Definition occurrence (pre post s : string) : Prop :=
exists d1 d2,
  isDigit d1 = true /\ isDigit d2 = true
  /\ s = pre +:+ "-es20" +:+ String d1 (String d2 post).

(** An occurrence with nothing in front of any other. *)
Definition leftmost (pre post s : string) : Prop :=
occurrence pre post s
/\ forall pre' post',
     occurrence pre' post' s -> String.length pre <= String.length pre'.

Lemma dropPrefix_Some (p s rest : string) :
  dropPrefix p s = Some rest <-> s = p +:+ rest.
Proof.
  revert s. induction p as [|a p IH]; intros s; cbn [dropPrefix].
  - change (EmptyString +:+ rest) with rest. split; congruence.
  - change (String a p +:+ rest) with (String a (p +:+ rest)).
    destruct s as [|b s]; [split; discriminate |].
    destruct (Ascii.eqb_spec a b) as [-> | Hne].
    + rewrite IH. split; [intros -> | intros [= ->]]; reflexivity.
    + split; [discriminate | intros [= <- _]; contradiction].
Qed.

Lemma match_es20_occurrence (s rest : string) :
  match_es20 s = Some rest <-> occurrence EmptyString rest s.
Proof.
  unfold match_es20, occurrence.
  change (EmptyString +:+ "-es20") with "-es20". split.
  - destruct (dropPrefix "-es20" s) as [t |] eqn:Hp; [| discriminate].
    apply dropPrefix_Some in Hp.
    destruct t as [|d1 [|d2 t]]; try discriminate.
    destruct (isDigit d1) eqn:H1, (isDigit d2) eqn:H2; try discriminate.
    intros [= <-]. exists d1, d2. auto.
  - intros (d1 & d2 & H1 & H2 & Hs).
    apply (dropPrefix_Some "-es20") in Hs. rewrite Hs, H1, H2. reflexivity.
Qed.

Lemma occurrence_cons (c : ascii) (pre post s : string) :
  occurrence (String c pre) post (String c s) <-> occurrence pre post s.
Proof.
  unfold occurrence.
  split; intros (d1 & d2 & H1 & H2 & Hs); exists d1, d2;
    (split; [exact H1 |]); (split; [exact H2 |]).
  - change (String c pre +:+ "-es20" +:+ String d1 (String d2 post))
      with (String c (pre +:+ "-es20" +:+ String d1 (String d2 post))) in Hs.
    congruence.
  - change (String c pre +:+ "-es20" +:+ String d1 (String d2 post))
      with (String c (pre +:+ "-es20" +:+ String d1 (String d2 post))).
    congruence.
Qed.

(** An occurrence that does not start at the head of the string lies in
    its tail. *)
Lemma occurrence_tail (c : ascii) (pre post s : string) :
  match_es20 (String c s) = None ->
  occurrence pre post (String c s) ->
  exists pre', pre = String c pre' /\ occurrence pre' post s.
Proof.
  intros Hhead Hocc. destruct pre as [|c' pre'].
  - apply match_es20_occurrence in Hocc. congruence.
  - assert (Hc : c' = c).
    { destruct Hocc as (d1 & d2 & _ & _ & Hs).
      change (String c' pre' +:+ "-es20" +:+ String d1 (String d2 post))
        with (String c' (pre' +:+ "-es20" +:+ String d1 (String d2 post)))
        in Hs.
      congruence. }
    subst c'. exists pre'. split; [reflexivity |].
    apply occurrence_cons in Hocc. exact Hocc.
Qed.

Lemma hasMatch_occurrence (s : string) :
  hasMatch match_es20 s = true <-> exists pre post, occurrence pre post s.
Proof.
  induction s as [|c s IH]; cbn [hasMatch].
  - destruct (match_es20 EmptyString) as [rest |] eqn:Hm.
    + split; [intros _ | reflexivity].
      exists EmptyString, rest. apply match_es20_occurrence. exact Hm.
    + split; [discriminate |]. intros (pre & post & d1 & d2 & _ & _ & Hs).
      destruct pre; discriminate.
  - destruct (match_es20 (String c s)) as [rest |] eqn:Hm.
    + split; [intros _ | reflexivity].
      exists EmptyString, rest. apply match_es20_occurrence. exact Hm.
    + rewrite IH. split.
      * intros (pre & post & Hocc). exists (String c pre), post.
        apply occurrence_cons. exact Hocc.
      * intros (pre & post & Hocc).
        destruct (occurrence_tail _ _ _ _ Hm Hocc) as (pre' & _ & Hocc').
        eauto.
Qed.

(** The strip takes out the leftmost occurrence and nothing else. *)
Lemma stripEs20_leftmost (s : string) :
  hasMatch match_es20 s = true ->
  exists pre post, leftmost pre post s /\ stripEs20 s = pre +:+ post.
Proof.
  unfold stripEs20. induction s as [|c s IH]; cbn [hasMatch replaceFirst].
  - destruct (match_es20 EmptyString) as [rest |] eqn:Hm; [| discriminate].
    intros _. exists EmptyString, rest. split; [| reflexivity].
    split; [apply match_es20_occurrence; exact Hm |].
    intros pre' post' _. cbn. lia.
  - destruct (match_es20 (String c s)) as [rest |] eqn:Hm.
    + intros _. exists EmptyString, rest. split; [| reflexivity].
      split; [apply match_es20_occurrence; exact Hm |].
      intros pre' post' _. cbn. lia.
    + intros Hs. destruct (IH Hs) as (pre & post & [Hocc Hleft] & Hstrip).
      exists (String c pre), post. split.
      * split; [apply occurrence_cons; exact Hocc |].
        intros pre' post' Hocc'.
        destruct (occurrence_tail _ _ _ _ Hm Hocc') as (pre'' & -> & Hocc'').
        specialize (Hleft _ _ Hocc''). cbn. lia.
      * rewrite Hstrip. reflexivity.
Qed.

(** The leftmost occurrence is the only one that is leftmost. *)
Lemma leftmost_unique (pre1 post1 pre2 post2 s : string) :
  leftmost pre1 post1 s -> leftmost pre2 post2 s ->
  pre1 = pre2 /\ post1 = post2.
Proof.
  revert pre1 pre2. induction s as [|c s IH]; intros pre1 pre2 [H1 L1] [H2 L2].
  - destruct H1 as (d1 & d2 & _ & _ & Hs). destruct pre1; discriminate.
  - destruct (match_es20 (String c s)) as [rest |] eqn:Hm.
    + apply match_es20_occurrence in Hm.
      pose proof (L1 _ _ Hm) as Hl1. pose proof (L2 _ _ Hm) as Hl2.
      destruct pre1; [| cbn in Hl1; lia]. destruct pre2; [| cbn in Hl2; lia].
      split; [reflexivity |].
      apply match_es20_occurrence in H1, H2. congruence.
    + destruct (occurrence_tail _ _ _ _ Hm H1) as (p1 & -> & H1').
      destruct (occurrence_tail _ _ _ _ Hm H2) as (p2 & -> & H2').
      destruct (IH p1 p2) as [-> ->]; [| | split; reflexivity].
      * split; [exact H1' |]. intros pre' post' Hocc.
        assert (Hc : occurrence (String c pre') post' (String c s))
          by (apply occurrence_cons; exact Hocc).
        specialize (L1 _ _ Hc). cbn in L1. lia.
      * split; [exact H2' |]. intros pre' post' Hocc.
        assert (Hc : occurrence (String c pre') post' (String c s))
          by (apply occurrence_cons; exact Hocc).
        specialize (L2 _ _ Hc). cbn in L2. lia.
Qed.

(** C8 (amended): the strip takes out the leftmost occurrence of [-es20dd]
    and keeps what is before and after it, so a name with an occurrence
    gets seven characters shorter; a name without any occurrence (an
    already renamed legacy polyfill) is left as it is, and only such a
    name is. So a second application changes nothing exactly when the name
    stripped once holds no further occurrence. *)
Theorem stripEs20_idempotent_iff (s : string) :
  (stripEs20 (stripEs20 s) = stripEs20 s
     <-> hasMatch match_es20 (stripEs20 s) = false)
  /\ (stripEs20 s = s <-> hasMatch match_es20 s = false)
  /\ (forall t,
        hasMatch match_es20 t = true <-> exists pre post, occurrence pre post t)
  /\ (forall pre post,
        leftmost pre post s ->
        stripEs20 s = pre +:+ post
        /\ String.length s = 7 + String.length (stripEs20 s))
  /\ ((exists pre post, occurrence pre post s) ->
      exists pre post, leftmost pre post s)
  /\ (stripEs20 (stripEs20 s) = stripEs20 s
      <-> forall pre post, ~ occurrence pre post (stripEs20 s)).
Proof.
  split; [apply stripEs20_fixpoint |].
  split; [apply stripEs20_fixpoint |].
  split; [exact hasMatch_occurrence |].
  split; [| split].
  - intros pre post Hleft.
    assert (Hs : hasMatch match_es20 s = true).
    { apply hasMatch_occurrence. exists pre, post. apply Hleft. }
    destruct (stripEs20_leftmost s Hs) as (pre0 & post0 & Hleft0 & Hstrip).
    destruct (leftmost_unique _ _ _ _ _ Hleft Hleft0) as [-> ->].
    split; [exact Hstrip | apply stripEs20_length; exact Hs].
  - intros Hocc. apply hasMatch_occurrence in Hocc.
    destruct (stripEs20_leftmost s Hocc) as (pre & post & Hleft & _). eauto.
  - rewrite stripEs20_fixpoint.
    destruct (hasMatch match_es20 (stripEs20 s)) eqn:Hm.
    + apply hasMatch_occurrence in Hm as (pre & post & Hocc).
      split; [discriminate |]. intros Hno. destruct (Hno _ _ Hocc).
    + split; [| reflexivity]. intros _ pre post Hocc.
      assert (Ht : hasMatch match_es20 (stripEs20 s) = true)
        by (apply hasMatch_occurrence; eauto).
      congruence.
Qed.

(** The name of the counterexample loses one suffix at each application. *)
Example stripEs20_one_suffix_each :
  stripEs20 "polyfills-es5-es2015-es2015.js" = "polyfills-es5-es2015.js"
  /\ stripEs20 "polyfills-es5-es2015.js" = "polyfills-es5.js"
  /\ stripEs20 "polyfills-es5.js" = "polyfills-es5.js".
Proof. repeat split. Qed.


(** ** The warnings of [CommonJsUsageWarnPlugin] *)

Section PluginFacts.
Context `{NodePath}.
Import CommonJsUsageWarnPlugin.

Lemma visit_cases (this : t) (warnings0 : list string) (m : WebpackModule) :
  visit (this, warnings0) m = (this, warnings0)
  \/ exists warning,
       warningOf this m = Some warning
       /\ (warning ∉ shownWarnings this)
       /\ visit (this, warnings0) m
          = (mk (shownWarnings this ∪ {[warning]}) (allowedDepedencies this),
             warnings0 ++ [warning]).
Proof.
  unfold visit. simpl.
  destruct (warningOf this m) as [warning|]; [| left; reflexivity].
  case_bool_decide as Hshown; [left; reflexivity |].
  right. exists warning. auto.
Qed.

(** What one compilation adds, and what it leaves in the instance. *)
Lemma finishModules_added (modules : list WebpackModule) :
  forall (this : t) (warnings0 : list string),
  exists added : list string,
    snd (finishModules this warnings0 modules) = warnings0 ++ added
    /\ NoDup added
    /\ (forall x, x ∈ added -> x ∉ shownWarnings this)
    /\ shownWarnings (fst (finishModules this warnings0 modules))
       = shownWarnings this ∪ list_to_set added.
Proof.
  unfold finishModules.
  induction modules as [|m modules IH]; intros this warnings0; simpl.
  - exists []. rewrite app_nil_r. repeat split.
    + constructor.
    + set_solver.
    + set_solver.
  - destruct (visit_cases this warnings0 m)
      as [-> | (warning & _ & Hshown & ->)]; [apply IH |].
    destruct (IH (mk (shownWarnings this ∪ {[warning]}) (allowedDepedencies this))
                (warnings0 ++ [warning]))
      as (added & Hw & Hnd & Hfresh & Hset).
    simpl in *. exists (warning :: added). repeat split.
    + rewrite Hw, <- app_assoc. reflexivity.
    + constructor; [| exact Hnd].
      intros Hin. apply Hfresh in Hin. set_solver.
    + intros x Hx. apply elem_of_cons in Hx as [-> | Hx]; [exact Hshown |].
      apply Hfresh in Hx. set_solver.
    + rewrite Hset. set_solver.
Qed.

Lemma compilations_added (builds : list (list string * list WebpackModule)) :
  forall this : t,
  exists added : list (list string),
    snd (compilations this builds) = zip_with app (builds.*1) added
    /\ length added = length builds
    /\ NoDup (concat added)
    /\ (forall x, x ∈ concat added -> x ∉ shownWarnings this)
    /\ shownWarnings (fst (compilations this builds))
       = shownWarnings this ∪ list_to_set (concat added).
Proof.
  induction builds as [|[warnings0 modules] builds IH]; intros this; simpl.
  - exists []. simpl. repeat split; [constructor | set_solver | set_solver].
  - destruct (finishModules_added modules this warnings0)
      as (added & Hw & Hnd & Hfresh & Hset).
    destruct (finishModules this warnings0 modules) as [this' warnings'].
    simpl in *. subst warnings'.
    destruct (IH this') as (others & Hws & Hlen & Hnd' & Hfresh' & Hset').
    destruct (compilations this' builds) as [this'' rest].
    simpl in *. subst rest.
    exists (added :: others). simpl. repeat split.
    + congruence.
    + apply NoDup_app. repeat split; [exact Hnd | | exact Hnd'].
      intros x Hx Hx'. apply Hfresh' in Hx'. rewrite Hset in Hx'.
      set_solver.
    + intros x Hx. apply elem_of_app in Hx as [Hx | Hx]; [auto |].
      apply Hfresh' in Hx. rewrite Hset in Hx. set_solver.
    + rewrite Hset', Hset. set_solver.
Qed.

(** C10: over all the compilations one instance takes part in, whatever
    their number and their modules, the warnings the instance adds (each
    compilation keeps what it had and gets [added] appended) never hold
    the same message twice; the set of shown warnings only grows, from
    the empty set of a new instance to all the messages added. *)
Theorem warning_added_at_most_once
    (optionsAllowedDepedencies : option (list string))
    (builds : list (list string * list WebpackModule)) :
  exists added : list (list string),
    snd (compilations (new optionsAllowedDepedencies) builds)
      = zip_with app (builds.*1) added
    /\ length added = length builds
    /\ NoDup (concat added)
    /\ shownWarnings (fst (compilations (new optionsAllowedDepedencies) builds))
       = list_to_set (concat added).
Proof.
  destruct (compilations_added builds (new optionsAllowedDepedencies))
    as (added & Hws & Hlen & Hnd & _ & Hset).
  exists added. repeat split; try assumption.
  rewrite Hset. simpl. set_solver.
Qed.
End PluginFacts.

Section PluginCases.
#[local] Existing Instance Demo.host.
Import CommonJsUsageWarnPlugin.

(** A rebuild of a watch session that meets the same CommonJS dependency
    again adds no second warning. *)
Example rebuild_warns_once :
  let entry := mkModule (Some "main") None (Some "/app/src/main.ts") [] None in
  let lodash :=
    mkModule None (Some "lodash") (Some "/app/node_modules/lodash/lodash.js")
      [mkDependency CommonJsRequireDependency None] (Some entry) in
  map length
    (snd (compilations (new None) [([], [entry; lodash]); ([], [entry; lodash])]))
  = [1; 0].
Proof. vm_compute. reflexivity. Qed.
End PluginCases.

(** ** Blocks and their traces *)

Section Blocks.
Context {A B : Type}.

Lemma trace_bind (m : M A) (f : A -> M B) :
  trace (m ≫= f)
  = trace m ++ match completion m with Normal a => trace (f a) | _ => [] end.
Proof.
  destruct m as [tr [a | r | e]]; simpl; try (rewrite app_nil_r); reflexivity.
Qed.

Lemma completion_bind (m : M A) (f : A -> M B) :
  completion (m ≫= f)
  = match completion m with
    | Normal a => completion (f a)
    | Return r => Return r
    | Throw e => Throw e
    end.
Proof. destruct m as [tr [a | r | e]]; reflexivity. Qed.

Lemma bind_liftExc_inr (a : A) (f : A -> M B) : liftExc (inr a) ≫= f = f a.
Proof.
  unfold mbind, M_bind, liftExc, mret, M_ret. simpl.
  destruct (f a); reflexivity.
Qed.

Lemma bind_normal (m : M A) (f : A -> M B) (a : A) :
  completion m = Normal a ->
  m ≫= f = (trace m ++ trace (f a), completion (f a)).
Proof. destruct m as [tr c]; simpl; intros ->; reflexivity. Qed.
End Blocks.

Lemma calls_app (kind : Event -> bool) (tr1 tr2 : list Event) :
  calls kind (tr1 ++ tr2) = calls kind tr1 + calls kind tr2.
Proof. induction tr1 as [|e tr1 IH]; simpl; [reflexivity | rewrite IH; lia]. Qed.

(** A block that makes no call of the given kind. *)
Definition quiet {A} (kind : Event -> bool) (m : M A) : Prop :=
calls kind (trace m) = 0.

Section Quiet.
Context {A B : Type} (kind : Event -> bool).

Lemma quiet_ret (a : A) : quiet kind (mret a).
Proof. reflexivity. Qed.

Lemma quiet_emit (e : Event) : kind e = false -> quiet kind (emit e).
Proof. unfold quiet; simpl; intros ->; reflexivity. Qed.

Lemma quiet_returnWith (r : BuilderOutput.t) : quiet kind (returnWith r : M A).
Proof. reflexivity. Qed.

Lemma quiet_throwM (e : JsValue) : quiet kind (throwM e : M A).
Proof. reflexivity. Qed.

Lemma quiet_liftExc (x : Exc A) : quiet kind (liftExc x).
Proof. destruct x; reflexivity. Qed.

Lemma quiet_bind (m : M A) (f : A -> M B) :
  quiet kind m -> (forall a, quiet kind (f a)) -> quiet kind (m ≫= f).
Proof.
  unfold quiet. intros Hm Hf. rewrite trace_bind, calls_app, Hm.
  destruct (completion m); simpl; auto.
Qed.

Lemma quiet_tryCatch (body : M A) (handler : JsValue -> M A) :
  quiet kind body -> (forall e, quiet kind (handler e)) ->
  quiet kind (tryCatch body handler).
Proof.
  unfold quiet, tryCatch. destruct body as [tr [a | r | e]]; simpl; auto.
  intros Hb Hh. rewrite calls_app, Hb. apply Hh.
Qed.
End Quiet.

(** Breaks a block into its statements, down to the calls it makes. *)
Ltac quiet_step :=
  first
    [ assumption
    | apply quiet_ret
    | apply quiet_returnWith
    | apply quiet_throwM
    | apply quiet_liftExc
    | apply quiet_emit; reflexivity
    | apply quiet_bind; [| intros ?]
    | apply quiet_tryCatch; [| intros ?]
    | match goal with
      | |- quiet _ (if ?b then _ else _) => destruct b
      | |- quiet _ (match ?x with _ => _ end) => destruct x
      end ].

Ltac quiet_block := repeat quiet_step.

Section StageQuiet.
Context `{NodePath}.
Variable w : World.
Variable options : Schema.t.
Variables outputPath baseOutputPath : string.
Variable shouldInline : bool.
Variable kind : Event -> bool.
Hypothesis kind_Stop_or_NewExecutor :
  forall e, kind e = true -> e = Stop \/ e = NewExecutor.

Lemma kind_other (e : Event) : e <> Stop -> e <> NewExecutor -> kind e = false.
Proof.
  intros H1 H2. destruct (kind e) eqn:E; [| reflexivity].
  destruct (kind_Stop_or_NewExecutor e E); contradiction.
Qed.

Lemma quiet_emit_other (e : Event) :
  e <> Stop -> e <> NewExecutor -> quiet kind (emit e).
Proof. intros H1 H2. apply quiet_emit, kind_other; assumption. Qed.

Ltac quiet_stage :=
  repeat first [ quiet_step | apply quiet_emit_other; discriminate ].

Lemma quiet_drawProcessed queue :
  forall processResults, quiet kind (Builder.drawProcessed w queue processResults).
Proof.
  induction queue as [|action queue IH]; intros processResults; simpl.
  - apply quiet_ret.
  - quiet_stage. apply IH.
Qed.

Lemma quiet_reportDiagnostics diagnostics :
  forall hasErrors, quiet kind (Builder.reportDiagnostics hasErrors diagnostics).
Proof.
  induction diagnostics as [|d diagnostics IH]; intros hasErrors; simpl.
  - apply quiet_ret.
  - quiet_stage; apply IH.
Qed.

Lemma quiet_drawInlined queue :
  forall hasErrors, quiet kind (Builder.drawInlined w options queue hasErrors).
Proof.
  induction queue as [|action queue IH]; intros hasErrors; simpl.
  - apply quiet_ret.
  - quiet_stage; first [apply quiet_reportDiagnostics | apply IH].
Qed.

Lemma quiet_reportBudgets webpackStats budgetFailures :
  quiet kind (Builder.reportBudgets w webpackStats budgetFailures).
Proof.
  unfold Builder.reportBudgets.
  destruct (Builder.recordBudgetFailures webpackStats budgetFailures)
    as [webpackStats' [e|]]; quiet_stage.
Qed.

(** The body of the [try] of the stage. *)
Lemma quiet_try_body workerReplacements mainChunkId actions :
  let parts := Builder.partitionActions workerReplacements actions in
  quiet kind
    (emit (SpinnerStart
             (Some "Generating ES5 bundles for differential loading..."));;
     processResults ← Builder.processBundles w (fst parts) (snd parts);
     emit (SpinnerSucceed "ES5 bundle generation complete.");;
     (if shouldInline
      then Builder.inlineTranslations w options outputPath baseOutputPath
             mainChunkId processResults
      else mret tt);;
     mret processResults).
Proof.
  intros parts. quiet_stage;
    first [apply quiet_drawProcessed | apply quiet_drawInlined].
Qed.
End StageQuiet.

(** ** The executor is stopped once *)

Section StopOnce.
Context `{NodePath}.
Variable w : World.
Variable options : Schema.t.
Variables outputPath baseOutputPath : string.
Variable shouldInline : bool.

Lemma only_Stop e : isStop e = true -> e = Stop \/ e = NewExecutor.
Proof. destruct e; try discriminate; auto. Qed.

Lemma only_NewExecutor e : isNewExecutor e = true -> e = Stop \/ e = NewExecutor.
Proof. destruct e; try discriminate; auto. Qed.

(** The trace of the stage: the construction, the [try] block, [stop()]. *)
Lemma trace_executeActions workerReplacements mainChunkId actions :
  exists body : list Event,
    trace (Builder.executeActions w options outputPath baseOutputPath
             shouldInline workerReplacements mainChunkId actions)
    = NewExecutor :: body ++ [Stop]
    /\ calls isStop body = 0
    /\ calls isNewExecutor body = 0.
Proof.
  unfold Builder.executeActions.
  pose proof (quiet_try_body w options outputPath baseOutputPath shouldInline
                isStop only_Stop workerReplacements mainChunkId actions) as Hs.
  pose proof (quiet_try_body w options outputPath baseOutputPath shouldInline
                isNewExecutor only_NewExecutor workerReplacements mainChunkId
                actions) as Hn.
  cbv zeta in Hs, Hn. unfold quiet in Hs, Hn.
  match goal with |- context [tryFinally ?b _] => exists (trace b) end.
  split; [reflexivity |]. split; assumption.
Qed.

Lemma calls_executeActions workerReplacements mainChunkId actions :
  calls isStop
    (trace (Builder.executeActions w options outputPath baseOutputPath
              shouldInline workerReplacements mainChunkId actions)) = 1
  /\ calls isNewExecutor
       (trace (Builder.executeActions w options outputPath baseOutputPath
                 shouldInline workerReplacements mainChunkId actions)) = 1.
Proof.
  destruct (trace_executeActions workerReplacements mainChunkId actions)
    as (body & -> & Hs & Hn).
  simpl. rewrite !calls_app, Hs, Hn. split; reflexivity.
Qed.

(** C3: whatever the jobs, the disk and the options do, that is on every
    path through the stage (it falls through, it returns early after an
    error diagnostic or a failure of the inline stage, or it throws), the
    trace of the stage holds [stop()] once, as its last call; and a whole
    differential-loading build stops as many executors as it constructs,
    one at most. *)
Theorem stop_invoked_exactly_once
    (workerReplacements : option (list (string * string)))
    (mainChunkId : option string) (actions : list ProcessBundleOptions.t)
    (disk0 : gmap string string) (webpackStats : Stats.t)
    (emittedFiles : list EmittedFiles.t) :
  calls isStop
    (trace (Builder.executeActions w options outputPath baseOutputPath
              shouldInline workerReplacements mainChunkId actions)) = 1
  /\ last (trace (Builder.executeActions w options outputPath baseOutputPath
                    shouldInline workerReplacements mainChunkId actions))
     = Some Stop
  /\ calls isStop
       (trace (Builder.differentialLoading w options outputPath baseOutputPath
                 shouldInline disk0 webpackStats emittedFiles))
     = calls isNewExecutor
         (trace (Builder.differentialLoading w options outputPath
                   baseOutputPath shouldInline disk0 webpackStats emittedFiles))
  /\ calls isStop
       (trace (Builder.differentialLoading w options outputPath baseOutputPath
                 shouldInline disk0 webpackStats emittedFiles)) <= 1.
Proof.
  split; [apply calls_executeActions |].
  split.
  { destruct (trace_executeActions workerReplacements mainChunkId actions)
      as (body & -> & _).
    change (NewExecutor :: body ++ [Stop]) with ((NewExecutor :: body) ++ [Stop]).
    apply last_snoc. }
  unfold Builder.differentialLoading.
  destruct (Classifier.classify options outputPath disk0 emittedFiles)
    as [e | st]; [simpl; split; [reflexivity | lia] |].
  rewrite bind_liftExc_inr, !trace_bind, !calls_app.
  destruct (calls_executeActions (Classifier.workerReplacements st)
              (Classifier.mainChunkId st) (Classifier.actions st))
    as [-> ->].
  assert (Hrest : forall kind, (forall e, kind e = true -> e = Stop \/ e = NewExecutor) ->
            calls kind
              match completion
                      (Builder.executeActions w options outputPath baseOutputPath
                         shouldInline (Classifier.workerReplacements st)
                         (Classifier.mainChunkId st) (Classifier.actions st))
              with
              | Normal a =>
                  trace (emit (LoggerInfo (buildStatsText w a));;
                         Builder.reportBudgets w webpackStats
                           (checkBudgets w webpackStats a))
              | _ => []
              end = 0).
  { intros kind Hk.
    destruct (completion _); try reflexivity.
    apply (quiet_bind kind).
    - apply quiet_emit. destruct (kind (LoggerInfo _)) eqn:E; [| reflexivity].
      destruct (Hk _ E); discriminate.
    - intros _. apply quiet_reportBudgets. exact Hk. }
  rewrite (Hrest isStop only_Stop), (Hrest isNewExecutor only_NewExecutor).
  split; [reflexivity | lia].
Qed.
End StopOnce.

(** ** Failures of the inline stage *)

Lemma completion_tryCatch {A} (body : M A) (handler : JsValue -> M A) :
  completion (tryCatch body handler)
  = match completion body with
    | Throw e => completion (handler e)
    | c => c
    end.
Proof. destruct body as [tr [a | r | e]]; reflexivity. Qed.

Section InlineFailure.
Context `{NodePath}.
Variable w : World.
Variable options : Schema.t.
Variables outputPath baseOutputPath : string.

(** How [inlineTranslations] ends, by how the inner [try] block ends. *)
Lemma completion_inlineTranslations mainChunkId processResults built :
  Builder.buildInlineActions w options baseOutputPath mainChunkId
    processResults ([], []) = inr built ->
  completion (Builder.inlineTranslations w options outputPath baseOutputPath
                mainChunkId processResults)
  = match completion (Builder.inlineAndCopy w options outputPath
                        (fst built) (snd built)) with
    | Normal true => Return (BuilderOutput.mk false None)
    | Normal false => Normal tt
    | Return r => Return r
    | Throw e => Return (BuilderOutput.mk false (mapErrorToMessage e))
    end.
Proof.
  intros Hbuilt. unfold Builder.inlineTranslations.
  rewrite completion_bind. cbn [emit completion snd].
  rewrite Hbuilt, bind_liftExc_inr, completion_bind, completion_tryCatch.
  destruct (completion (Builder.inlineAndCopy w options outputPath
                          (fst built) (snd built))) as [[|] | r | e];
    reflexivity.
Qed.

(** C9 (amended): when the inline jobs or the copy that follows them throw
    [e], the build returns [{success: false, error: mapErrorToMessage(e)}];
    the [error] field is a message exactly when [e] is an [Error] (its
    message) or a string (the string itself), and [undefined] for any other
    thrown value. *)
Theorem inline_failure_reported (mainChunkId : option string)
    (processResults : list ProcessBundleResult.t)
    (built : list InlineOptions.t * list string) (e : JsValue) :
  Builder.buildInlineActions w options baseOutputPath mainChunkId
    processResults ([], []) = inr built ->
  completion (Builder.inlineAndCopy w options outputPath (fst built) (snd built))
    = Throw e ->
  completion (Builder.inlineTranslations w options outputPath baseOutputPath
                mainChunkId processResults)
    = Return (BuilderOutput.mk false (mapErrorToMessage e))
  /\ (forall message,
        mapErrorToMessage e = Some message
        <-> e = JsError message \/ e = JsStr message)
  /\ (mapErrorToMessage e = None
      <-> (forall message, e <> JsError message /\ e <> JsStr message)).
Proof.
  intros Hbuilt Hthrow.
  rewrite (completion_inlineTranslations _ _ _ Hbuilt), Hthrow.
  split; [reflexivity |]. split.
  - intros message. destruct e; simpl; split;
      try (intros [= ->]; auto); try discriminate;
      intros [[= ->] | [= ->]]; reflexivity.
  - destruct e as [m | s | n | b | | | fields]; simpl; split;
      try discriminate; try reflexivity;
      try (intros _ message; split; discriminate).
    + intros Hno. destruct (Hno m) as [Hne _]. contradiction.
    + intros Hno. destruct (Hno s) as [_ Hne]. contradiction.
Qed.
End InlineFailure.

Section InlineFailureCases.
#[local] Existing Instance Demo.host.

(** C9, as stated, fails: an inline job that throws the number 42 makes
    the build return [success: false] with no [error] message at all. *)
Lemma thrown_number_has_no_message :
  completion (Builder.inlineAndCopy (Demo.withInline (fun _ => inl (JsNumber 42)))
                (Demo.options false) "dist"
                [InlineOptions.mk "main-es2015.js" "" None false "out" None true]
                ["dist/main-es2015.js"])
    = Throw (JsNumber 42)
  /\ completion (Builder.inlineTranslations
                   (Demo.withInline (fun _ => inl (JsNumber 42)))
                   (Demo.options false) "dist" "out" (Some "3") [Demo.mainResult])
     = Return (BuilderOutput.mk false None)
  /\ ~ (exists message,
          completion (Builder.inlineTranslations
                        (Demo.withInline (fun _ => inl (JsNumber 42)))
                        (Demo.options false) "dist" "out" (Some "3") [Demo.mainResult])
          = Return (BuilderOutput.mk false (Some message))).
Proof.
  split; [vm_compute; reflexivity |].
  split; [vm_compute; reflexivity |].
  intros [message Hm]. vm_compute in Hm. discriminate.
Qed.

(** [inline_failure_reported] at a job that throws an [Error]. *)
Lemma inline_failure_reported_witness :
  completion (Builder.inlineTranslations
                (Demo.withInline (fun _ => inl (JsError "worker crashed")))
                (Demo.options false) "dist" "out" (Some "3") [Demo.mainResult])
  = Return (BuilderOutput.mk false (Some "worker crashed")).
Proof.
  refine (proj1 (inline_failure_reported
                   (Demo.withInline (fun _ => inl (JsError "worker crashed")))
                   (Demo.options false) "dist" "out" (Some "3") [Demo.mainResult]
                   _ (JsError "worker crashed") _ _)).
  - vm_compute. reflexivity.
  - vm_compute. reflexivity.
Defined.
End InlineFailureCases.

(** ** Budget failures *)

Section BudgetFacts.
Context `{NodePath}.
Variable w : World.

Lemma recordBudgetFailures_expected (budgetFailures : list BudgetFailure) :
  forall webpackStats : Stats.t,
  forallb expectedSeverity budgetFailures = true ->
  Builder.recordBudgetFailures webpackStats budgetFailures
  = (Stats.mk
       (Stats.warnings webpackStats
          ++ map budgetMessage (List.filter isWarning budgetFailures))
       (Stats.errors webpackStats
          ++ map budgetMessage (List.filter isError budgetFailures))
       (Stats.children webpackStats),
     None).
Proof.
  induction budgetFailures as [|[sev msg] rest IH]; intros [ws es cs]; simpl.
  - intros _. rewrite !app_nil_r. reflexivity.
  - unfold expectedSeverity at 1, isWarning at 1, isError at 1,
      Builder.recordBudgetFailure. simpl.
    destruct sev as [| | value]; simpl; [| | discriminate]; intros Hrest;
      rewrite (IH _ Hrest); simpl; rewrite <- app_assoc; reflexivity.
Qed.

Lemma recordBudgetFailures_app (pre rest : list BudgetFailure) :
  forall webpackStats : Stats.t,
  forallb expectedSeverity pre = true ->
  Builder.recordBudgetFailures webpackStats (pre ++ rest)
  = Builder.recordBudgetFailures
      (fst (Builder.recordBudgetFailures webpackStats pre)) rest.
Proof.
  induction pre as [|[sev msg] pre IH]; intros webpackStats; simpl;
    [reflexivity |].
  unfold expectedSeverity at 1, Builder.recordBudgetFailure. simpl.
  destruct sev as [| | value]; simpl; [| | discriminate]; intros Hpre;
    apply IH, Hpre.
Qed.

Lemma statsHasErrors_nonempty ws es cs :
  es <> [] -> statsHasErrors (Stats.mk ws es cs) = true.
Proof. destruct es; [contradiction | reflexivity]. Qed.

Lemma completion_reportBudgets webpackStats budgetFailures :
  completion (Builder.reportBudgets w webpackStats budgetFailures)
  = match Builder.recordBudgetFailures webpackStats budgetFailures with
    | (_, Some e) => Throw e
    | (webpackStats', None) =>
        if statsHasErrors webpackStats'
        then Return (BuilderOutput.mk false None)
        else Normal webpackStats'
    end.
Proof.
  unfold Builder.reportBudgets.
  destruct (Builder.recordBudgetFailures webpackStats budgetFailures)
    as [webpackStats' [e|]]; [reflexivity |].
  rewrite completion_bind.
  assert (Hlog : exists tr,
             (if statsHasWarnings webpackStats'
              then emit (LoggerWarn (statsWarningsToString w webpackStats'))
              else mret ()) = (tr, Normal tt)).
  { destruct (statsHasWarnings webpackStats'); eexists; reflexivity. }
  destruct Hlog as [tr ->]. cbn [completion snd].
  destruct (statsHasErrors webpackStats'); reflexivity.
Qed.

(** C5: a failure of severity warning appends its message (prefixed with
    [budgets: ]) to the warnings and leaves the errors as they are; one of
    severity error appends it to the errors, and the build then returns
    [success: false]; any other severity makes [assertNever] throw, with
    nothing appended for that failure. Failures of severity warning alone
    do not fail a build that has no error. *)
Theorem budget_failure_by_severity (webpackStats : Stats.t) (msg : string) :
  Builder.recordBudgetFailure webpackStats (mkBudgetFailure Warning msg)
    = (Stats.mk (Stats.warnings webpackStats ++ ["budgets: " +:+ msg])
         (Stats.errors webpackStats) (Stats.children webpackStats), None)
  /\ Builder.recordBudgetFailure webpackStats (mkBudgetFailure Error msg)
     = (Stats.mk (Stats.warnings webpackStats)
          (Stats.errors webpackStats ++ ["budgets: " +:+ msg])
          (Stats.children webpackStats), None)
  /\ (forall value,
        Builder.recordBudgetFailure webpackStats
          (mkBudgetFailure (Unexpected value) msg)
        = (webpackStats,
           Some (JsError ("Unexpected call to assertNever() with input: "
                          +:+ JSON_stringify value))))
  /\ (forall pre post,
        forallb expectedSeverity (pre ++ post) = true ->
        completion (Builder.reportBudgets w webpackStats
                      (pre ++ mkBudgetFailure Error msg :: post))
        = Return (BuilderOutput.mk false None))
  /\ (forall pre post value,
        forallb expectedSeverity pre = true ->
        completion (Builder.reportBudgets w webpackStats
                      (pre ++ mkBudgetFailure (Unexpected value) msg :: post))
        = Throw (JsError ("Unexpected call to assertNever() with input: "
                          +:+ JSON_stringify value)))
  /\ (forall failures,
        forallb isWarning failures = true ->
        statsHasErrors webpackStats = false ->
        completion (Builder.reportBudgets w webpackStats failures)
        = Normal (Stats.mk
                    (Stats.warnings webpackStats ++ map budgetMessage failures)
                    (Stats.errors webpackStats) (Stats.children webpackStats))).
Proof.
  repeat split.
  - intros pre post Hexp. rewrite completion_reportBudgets.
    rewrite recordBudgetFailures_expected.
    + rewrite statsHasErrors_nonempty; [reflexivity |].
      rewrite List.filter_app. simpl.
      intros Hnil. apply app_eq_nil in Hnil as [_ Hnil].
      rewrite map_app in Hnil. apply app_eq_nil in Hnil as [_ Hnil].
      discriminate.
    + rewrite forallb_app in *. simpl. exact Hexp.
  - intros pre post value Hpre. rewrite completion_reportBudgets.
    rewrite (recordBudgetFailures_app _ _ _ Hpre). reflexivity.
  - intros failures Hwarn Hok. rewrite completion_reportBudgets.
    assert (Hexp : forallb expectedSeverity failures = true).
    { clear -Hwarn. induction failures as [|[[| |v] m] fs IH]; simpl in *;
        try discriminate; auto. }
    rewrite (recordBudgetFailures_expected _ _ Hexp).
    assert (Hw : List.filter isWarning failures = failures).
    { clear -Hwarn. induction failures as [|[[| |v] m] fs IH]; simpl in *;
        try discriminate; [reflexivity |]. f_equal. auto. }
    assert (He : List.filter isError failures = []).
    { clear -Hwarn. induction failures as [|[[| |v] m] fs IH]; simpl in *;
        try discriminate; auto. }
    rewrite Hw, He. simpl. rewrite app_nil_r.
    destruct webpackStats as [ws es cs]. simpl in *.
    unfold statsHasErrors in *. simpl in *. rewrite Hok. reflexivity.
Qed.
End BudgetFacts.

(** ** The classifier *)

Section ClassifierFacts.
Context `{NodePath}.
Variable options : Schema.t.
Variable outputPath : string.
Import Classifier.

#[local] Abbreviation scripts := (Schema.scriptsEntryPointName options).

(** Closes the goals on the fields of a state that is known. *)
Ltac classified :=
  repeat match goal with |- _ /\ _ => split end;
  first [ reflexivity
        | exists EmptyString, None; reflexivity
        | eexists _, _; reflexivity ].

(** What an iteration that does not throw does to each variable. *)
Lemma classifyFile_inr (st st1 : State) (file : EmittedFiles.t) :
  classifyFile options outputPath st file = inr st1 ->
  workerReplacements st1
    = (if workerAsset file
       then Some (default [] (workerReplacements st) ++ [workerPair file])
       else workerReplacements st)
  /\ files st1
     = (if passThrough scripts file
        then Some (default [] (files st) ++ [file])
        else files st)
  /\ seen st1
     = (if fresh scripts st file
        then seen st ∪ {[ EmittedFiles.file file ]}
        else seen st)
  /\ mainChunkId st1
     = (if fresh scripts st file
        then pickMain (mainChunkId st) file
        else mainChunkId st)
  /\ (exists code map,
        actions st1
        = if fresh scripts st file
          then actions st ++ [actionFor options outputPath file code map]
          else actions st)
  /\ moduleFiles st1
     = (if fresh scripts st file
           && negb (startsWith (EmittedFiles.file file) "polyfills-es5")
        then moduleFiles st ++ [file]
        else moduleFiles st)
  /\ noModuleFiles st1
     = (if fresh scripts st file
           && negb (startsWith (EmittedFiles.file file) "polyfills-es20")
        then noModuleFiles st ++ [noModuleFile file]
        else noModuleFiles st).
Proof.
  unfold classifyFile, fresh, processable, passThrough, skippedAsset,
    workerAsset, assetBranch, pickMain, workerPair.
  destruct (EmittedFiles.asset file) as [[|]|];
    destruct (endsWith (EmittedFiles.file file) ".worker.js");
    cbn [negb andb];
    try (intros [= <-]; classified);
    (destruct (notProcessed scripts file); cbn [negb andb];
     [intros [= <-]; classified |]);
    (case_bool_decide; cbn [negb andb];
     [intros [= <-]; classified |]);
    (destruct (namesMainChunk (mainChunkId st) file);
     [destruct (EmittedFiles.id file); [| discriminate] |]);
    cbn [mbind Exc_bind mret Exc_ret];
    (destruct (disk st !! path_join outputPath (EmittedFiles.file file))
       as [code|]; [| discriminate]);
    cbn [mbind Exc_bind mret Exc_ret];
    (destruct (Schema.sourceMapScripts options);
     [destruct (disk st !! (path_join outputPath (EmittedFiles.file file) +:+ ".map"))
        as [m|] |]);
    destruct (startsWith (EmittedFiles.file file) "polyfills-es5");
    destruct (startsWith (EmittedFiles.file file) "polyfills-es20");
    intros [= <-]; cbn; classified.
Qed.

Lemma pushAll_push {A} (o : option (list A)) (x : A) (l : list A) :
  pushAll (Some (default [] o ++ [x])) l = pushAll o (x :: l).
Proof.
  destruct l as [|y l]; simpl; [reflexivity |].
  rewrite <- app_assoc. reflexivity.
Qed.

(** What a loop that does not throw does to each variable. *)
Lemma classifyFrom_inr (emittedFiles : list EmittedFiles.t) :
  forall st st' : State,
  classifyFrom options outputPath st emittedFiles = inr st' ->
  workerReplacements st'
    = pushAll (workerReplacements st)
        (map workerPair (List.filter workerAsset emittedFiles))
  /\ files st'
     = pushAll (files st) (List.filter (passThrough scripts) emittedFiles)
  /\ seen st'
     = seen st
       ∪ list_to_set
           (map EmittedFiles.file
              (firstByPath (seen st)
                 (List.filter (processable scripts) emittedFiles)))
  /\ mainChunkId st'
     = fold_left pickMain
         (firstByPath (seen st) (List.filter (processable scripts) emittedFiles))
         (mainChunkId st)
  /\ (exists acts,
        actions st' = actions st ++ acts
        /\ Forall2 (actionOf options outputPath)
             (firstByPath (seen st)
                (List.filter (processable scripts) emittedFiles))
             acts)
  /\ moduleFiles st'
     = moduleFiles st
       ++ List.filter
            (fun f => negb (startsWith (EmittedFiles.file f) "polyfills-es5"))
            (firstByPath (seen st)
               (List.filter (processable scripts) emittedFiles))
  /\ noModuleFiles st'
     = noModuleFiles st
       ++ map noModuleFile
            (List.filter
               (fun f => negb (startsWith (EmittedFiles.file f) "polyfills-es20"))
               (firstByPath (seen st)
                  (List.filter (processable scripts) emittedFiles))).
Proof.
  induction emittedFiles as [|file rest IH]; intros st st' Hrun.
  - simpl in Hrun. injection Hrun as <-. simpl.
    rewrite !app_nil_r. repeat split; [set_solver |].
    exists []. rewrite app_nil_r. split; [reflexivity | constructor].
  - simpl in Hrun.
    destruct (classifyFile options outputPath st file) as [e | st1] eqn:Hstep;
      [discriminate |].
    cbn [mbind Exc_bind] in Hrun.
    apply classifyFile_inr in Hstep
      as (Hwr & Hfiles & Hseen & Hmain & (code & smap & Hacts) & Hmod & Hnomod).
    apply IH in Hrun
      as (Hwr' & Hfiles' & Hseen' & Hmain' & (acts & Hacts' & Hall) & Hmod' & Hnomod').
    rewrite Hwr', Hfiles', Hseen', Hmain', Hacts', Hmod', Hnomod'.
    rewrite Hwr, Hfiles, Hseen, Hmain, Hacts, Hmod, Hnomod.
    clear Hwr' Hfiles' Hseen' Hmain' Hacts' Hmod' Hnomod'.
    clear Hwr Hfiles Hmain Hacts Hmod Hnomod.
    rewrite Hseen in Hall. clear Hseen.
    unfold fresh in *. cbn [List.filter].
    repeat split.
    + destruct (workerAsset file); [apply pushAll_push | reflexivity].
    + destruct (passThrough scripts file); [apply pushAll_push | reflexivity].
    + destruct (processable scripts file); cbn [andb firstByPath];
        [| reflexivity].
      case_bool_decide; cbn [negb]; [reflexivity |].
      simpl. set_solver.
    + destruct (processable scripts file); cbn [andb firstByPath];
        [| reflexivity].
      case_bool_decide; reflexivity.
    + destruct (processable scripts file); cbn [andb firstByPath] in *;
        [| exists acts; split; [reflexivity | exact Hall]].
      case_bool_decide; cbn [negb] in *;
        [exists acts; split; [reflexivity | exact Hall] |].
      exists (actionFor options outputPath file code smap :: acts).
      split; [rewrite <- app_assoc; reflexivity |].
      constructor; [exists code, smap; reflexivity | exact Hall].
    + destruct (processable scripts file); cbn [andb firstByPath];
        [| reflexivity].
      case_bool_decide; cbn [negb andb List.filter]; [reflexivity |].
      destruct (startsWith (EmittedFiles.file file) "polyfills-es5");
        cbn [negb]; [reflexivity |].
      rewrite <- app_assoc. reflexivity.
    + destruct (processable scripts file); cbn [andb firstByPath];
        [| reflexivity].
      case_bool_decide; cbn [negb andb List.filter]; [reflexivity |].
      destruct (startsWith (EmittedFiles.file file) "polyfills-es20");
        cbn [negb]; [reflexivity |].
      rewrite <- app_assoc. reflexivity.
Qed.

(** The loop does not throw when every processable record has an id and
    its file on the disk, none of them being a legacy polyfill (the only
    files the loop deletes). *)
Definition readable (disk0 : gmap string string) (file : EmittedFiles.t)
  : Prop :=
processable scripts file = true ->
is_Some (EmittedFiles.id file)
/\ startsWith (EmittedFiles.file file) "polyfills-es5" = false
/\ is_Some (disk0 !! path_join outputPath (EmittedFiles.file file)).

Lemma classifyFile_total (st : State) (file : EmittedFiles.t) :
  readable (disk st) file ->
  exists st1,
    classifyFile options outputPath st file = inr st1 /\ disk st1 = disk st.
Proof.
  unfold readable, processable, skippedAsset, classifyFile, assetBranch.
  intros Hok.
  destruct (EmittedFiles.asset file) as [[|]|];
    destruct (endsWith (EmittedFiles.file file) ".worker.js");
    cbn [negb andb] in *;
    try (eexists; split; reflexivity);
    (destruct (notProcessed scripts file); cbn [negb andb] in *;
     [eexists; split; reflexivity |]);
    (case_bool_decide; [eexists; split; reflexivity |]);
    destruct (Hok eq_refl) as ([i ->] & -> & [code ->]);
    (destruct (namesMainChunk (mainChunkId st) file));
    cbn [mbind Exc_bind mret Exc_ret];
    (destruct (Schema.sourceMapScripts options);
     [destruct (disk st !! (path_join outputPath (EmittedFiles.file file) +:+ ".map"))
      |]);
    eexists; split; reflexivity.
Qed.

Lemma classifyFrom_total (emittedFiles : list EmittedFiles.t) :
  forall st : State,
  Forall (readable (disk st)) emittedFiles ->
  exists st', classifyFrom options outputPath st emittedFiles = inr st'.
Proof.
  induction emittedFiles as [|file rest IH]; intros st Hall.
  - exists st. reflexivity.
  - apply Forall_cons in Hall as [Hfile Hrest].
    destruct (classifyFile_total st file Hfile) as (st1 & Hstep & Hdisk).
    rewrite <- Hdisk in Hrest. destruct (IH st1 Hrest) as (st' & Hrun).
    exists st'. simpl. rewrite Hstep. exact Hrun.
Qed.
End ClassifierFacts.

Section MainChunk.
Import Classifier.

Lemma namesMainChunk_named (m : option string) (file : EmittedFiles.t) :
  namesMainChunk m file
  = named "vendor" file || (negb (truthy m) && named "main" file).
Proof.
  unfold namesMainChunk, named.
  destruct (EmittedFiles.name file); [reflexivity |].
  destruct (truthy m); reflexivity.
Qed.

Lemma pickMain_vendor (m : option string) (file : EmittedFiles.t) :
  named "vendor" file = true -> pickMain m file = EmittedFiles.id file.
Proof.
  intros Hv. unfold pickMain. rewrite namesMainChunk_named, Hv. reflexivity.
Qed.

Lemma pickMain_main (file : EmittedFiles.t) (m : option string) :
  truthy m = false -> named "main" file = true ->
  pickMain m file = EmittedFiles.id file.
Proof.
  intros Hm Hn. unfold pickMain. rewrite namesMainChunk_named, Hm, Hn.
  rewrite orb_true_r. reflexivity.
Qed.

Lemma pickMain_keeps (m : option string) (file : EmittedFiles.t) :
  named "vendor" file = false ->
  truthy m = true \/ named "main" file = false ->
  pickMain m file = m.
Proof.
  intros Hv Hor. unfold pickMain. rewrite namesMainChunk_named, Hv.
  destruct Hor as [-> | ->]; [reflexivity |].
  rewrite andb_false_r. reflexivity.
Qed.

Lemma fold_pickMain_set (l : list EmittedFiles.t) (m : option string) :
  truthy m = true ->
  Forall (fun f => named "vendor" f = false) l ->
  fold_left pickMain l m = m.
Proof.
  intros Hm Hl. induction Hl as [|f l Hf Hl IH]; simpl; [reflexivity |].
  rewrite pickMain_keeps; auto.
Qed.

Lemma fold_pickMain_unnamed (l : list EmittedFiles.t) (m : option string) :
  Forall (fun f => named "vendor" f = false) l ->
  Forall (fun f => named "main" f = false) l ->
  fold_left pickMain l m = m.
Proof.
  intros Hv. revert m. induction Hv as [|f l Hf Hl IH]; intros m Hm; simpl;
    [reflexivity |].
  apply Forall_cons in Hm as [Hmf Hm].
  rewrite pickMain_keeps; auto.
Qed.
End MainChunk.

Section FirstByPath.
Import Classifier.

Lemma firstByPath_paths (l : list EmittedFiles.t) :
  forall (seen0 : gset string) (p : string),
  p ∈ map EmittedFiles.file (firstByPath seen0 l)
  <-> (p ∉ seen0) /\ p ∈ map EmittedFiles.file l.
Proof.
  induction l as [|f l IH]; intros seen0 p; simpl.
  - split; [intros Hp | intros [_ Hp]]; inversion Hp.
  - case_bool_decide as Hin; simpl.
    + rewrite IH, elem_of_cons. clear IH.
      split; intros [Hp Hl]; split; auto.
      destruct Hl as [-> | Hl]; [contradiction | assumption].
    + rewrite !elem_of_cons, IH. clear IH.
      split.
      * intros [-> | [Hp Hl]]; [split; [assumption | left; reflexivity] |].
        split; [| right; assumption].
        intros Hp'. apply Hp. apply elem_of_union. left. assumption.
      * intros [Hp [-> | Hl]]; [left; reflexivity |].
        destruct (decide (p = EmittedFiles.file f)) as [-> | Hne];
          [left; reflexivity |].
        right. split; [| assumption].
        intros Hp'. apply elem_of_union in Hp' as [Hp' | Hp']; [auto |].
        apply elem_of_singleton in Hp'. contradiction.
Qed.

Lemma firstByPath_NoDup (l : list EmittedFiles.t) :
  forall seen0 : gset string,
  NoDup (map EmittedFiles.file (firstByPath seen0 l)).
Proof.
  induction l as [|f l IH]; intros seen0; simpl; [constructor |].
  case_bool_decide as Hin; simpl; [apply IH |].
  constructor; [| apply IH].
  rewrite firstByPath_paths. intros [Hp _]. apply Hp.
  apply elem_of_union. right. apply elem_of_singleton. reflexivity.
Qed.
End FirstByPath.

Section ClassifierClaims.
Context `{NodePath}.
Variable options : Schema.t.
Variable outputPath : string.
Import Classifier.

#[local] Abbreviation entryPoints := (Schema.scriptsEntryPointName options).

Lemma classify_inr (disk0 : gmap string string)
    (emittedFiles : list EmittedFiles.t) (st : State) :
  classify options outputPath disk0 emittedFiles = inr st ->
  workerReplacements st
    = pushAll None (map workerPair (List.filter workerAsset emittedFiles))
  /\ files st = pushAll None (List.filter (passThrough entryPoints) emittedFiles)
  /\ mainChunkId st = fold_left pickMain (scriptsOf entryPoints emittedFiles) None
  /\ Forall2 (actionOf options outputPath)
       (scriptsOf entryPoints emittedFiles) (actions st).
Proof.
  intros Hrun. apply classifyFrom_inr in Hrun
    as (Hwr & Hfiles & _ & Hmain & (acts & Hacts & Hall) & _).
  simpl in *. subst acts. auto.
Qed.

(** C6 (amended): when the loop does not throw, the processable scripts
    are deduplicated by path: their paths are pairwise distinct, they are
    the paths of the processable records of the input, and [actions] holds
    one action for each, in the order of first occurrence. The records that
    pass through go to [files] at every occurrence, the worker assets go to
    [workerReplacements] at every occurrence (and on to the test that makes
    them pass through or processable), and an asset that is not a worker
    script goes nowhere. *)
Theorem scripts_classified_once (disk0 : gmap string string)
    (emittedFiles : list EmittedFiles.t) (st : State) :
  classify options outputPath disk0 emittedFiles = inr st ->
  NoDup (map EmittedFiles.file (scriptsOf entryPoints emittedFiles))
  /\ (forall p,
        p ∈ map EmittedFiles.file (scriptsOf entryPoints emittedFiles)
        <-> exists f, f ∈ emittedFiles
                      /\ processable entryPoints f = true
                      /\ EmittedFiles.file f = p)
  /\ Forall2 (actionOf options outputPath)
       (scriptsOf entryPoints emittedFiles) (actions st)
  /\ files st = pushAll None (List.filter (passThrough entryPoints) emittedFiles)
  /\ workerReplacements st
     = pushAll None (map workerPair (List.filter workerAsset emittedFiles))
  /\ (forall f,
        skippedAsset f = true ->
        processable entryPoints f = false
        /\ passThrough entryPoints f = false
        /\ workerAsset f = false).
Proof.
  intros Hrun. apply classify_inr in Hrun as (Hwr & Hfiles & _ & Hall).
  split; [apply firstByPath_NoDup |].
  split.
  { intros p. unfold scriptsOf. rewrite firstByPath_paths.
    rewrite list_elem_of_fmap. split.
    - intros (_ & f & -> & Hf).
      apply list_elem_of_In, filter_In in Hf as [Hf Hp].
      exists f. rewrite list_elem_of_In. auto.
    - intros (f & Hf & Hp & <-). split; [apply not_elem_of_empty |].
      exists f. split; [reflexivity |].
      apply list_elem_of_In, filter_In. rewrite <- list_elem_of_In. auto. }
  repeat split; try assumption;
    unfold processable, passThrough, workerAsset, skippedAsset in *;
    destruct (EmittedFiles.asset f) as [[|]|]; try discriminate;
    destruct (endsWith (EmittedFiles.file f) ".worker.js");
    try discriminate; reflexivity.
Qed.

(** C7 (amended): when the loop does not throw, the main chunk id is the
    id of the last deduplicated script named [vendor]; without any script
    named [vendor] it is the id of the first one named [main]; without
    either it stays undefined. (Ids are taken to be non-empty strings.) *)
Theorem main_chunk_last_vendor_else_first_main (disk0 : gmap string string)
    (emittedFiles : list EmittedFiles.t) (st : State) :
  classify options outputPath disk0 emittedFiles = inr st ->
  (forall pre v post,
     scriptsOf entryPoints emittedFiles = pre ++ v :: post ->
     named "vendor" v = true ->
     truthy (EmittedFiles.id v) = true ->
     Forall (fun f => named "vendor" f = false) post ->
     mainChunkId st = EmittedFiles.id v)
  /\ (forall pre m post,
        scriptsOf entryPoints emittedFiles = pre ++ m :: post ->
        Forall (fun f => named "vendor" f = false)
          (scriptsOf entryPoints emittedFiles) ->
        named "main" m = true ->
        truthy (EmittedFiles.id m) = true ->
        Forall (fun f => named "main" f = false) pre ->
        mainChunkId st = EmittedFiles.id m)
  /\ (Forall (fun f => named "vendor" f = false)
        (scriptsOf entryPoints emittedFiles) ->
      Forall (fun f => named "main" f = false)
        (scriptsOf entryPoints emittedFiles) ->
      mainChunkId st = None).
Proof.
  intros Hrun. apply classify_inr in Hrun as (_ & _ & -> & _).
  repeat split.
  - intros pre v post -> Hv Hid Hpost.
    rewrite fold_left_app. simpl.
    rewrite (pickMain_vendor _ _ Hv). apply fold_pickMain_set; assumption.
  - intros pre m post Hsplit Hnov Hm Hid Hpre. rewrite Hsplit in *.
    apply Forall_app in Hnov as [Hnov_pre Hnov_post].
    apply Forall_cons in Hnov_post as [_ Hnov_post].
    rewrite fold_left_app. simpl.
    rewrite (fold_pickMain_unnamed _ _ Hnov_pre Hpre).
    rewrite (pickMain_main m None eq_refl Hm).
    apply fold_pickMain_set; assumption.
  - intros Hnov Hnom. apply fold_pickMain_unnamed; assumption.
Qed.
End ClassifierClaims.

Section ClassifierCases.
#[local] Existing Instance Demo.host.
Import Classifier.

(** C6, as stated, fails: of these four records the icon lands in no
    group, the style sheet lands in the pass-through group twice, and the
    worker script lands in two groups, the worker replacements and the
    actions. *)
Lemma groups_are_no_partition :
  let icon := EmittedFiles.mk None None "favicon.ico" false (Some true) ".ico" in
  let css := EmittedFiles.mk (Some "4") (Some "styles") "styles.css" true None ".css" in
  let worker :=
    EmittedFiles.mk None None "0-es2015.worker.js" false (Some true) ".js" in
  exists st,
    classify (Demo.options false) "dist" (Demo.diskOf ["0-es2015.worker.js"])
      [icon; css; css; worker] = inr st
    /\ files st = Some [css; css]
    /\ map ProcessBundleOptions.filename (actions st)
       = ["dist/0-es2015.worker.js"]
    /\ workerReplacements st
       = Some [("0-es2015.worker.js", "0-es5.worker.js")].
Proof.
  cbv zeta. eexists. split; [vm_compute; reflexivity |].
  repeat split.
Qed.

(** [scripts_classified_once] at a build that emits its main script
    twice. *)
Lemma scripts_classified_once_witness :
  let main := Demo.script "3" "main" "main-es2015.js" in
  let css := EmittedFiles.mk (Some "4") (Some "styles") "styles.css" true None ".css" in
  exists st,
    classify (Demo.options false) "dist" (Demo.diskOf ["main-es2015.js"])
      [main; css; main; css] = inr st
    /\ map ProcessBundleOptions.filename (actions st) = ["dist/main-es2015.js"]
    /\ files st = Some [css; css].
Proof.
  cbv zeta.
  destruct (classify (Demo.options false) "dist" (Demo.diskOf ["main-es2015.js"])
              [Demo.script "3" "main" "main-es2015.js";
               EmittedFiles.mk (Some "4") (Some "styles") "styles.css" true None ".css";
               Demo.script "3" "main" "main-es2015.js";
               EmittedFiles.mk (Some "4") (Some "styles") "styles.css" true None ".css"])
    as [e | st] eqn:Hrun; [vm_compute in Hrun; discriminate |].
  exists st. split; [reflexivity |].
  pose proof (scripts_classified_once (Demo.options false) "dist" _ _ _ Hrun)
    as (_ & _ & Hacts & Hfiles & _).
  split; [| exact Hfiles].
  vm_compute in Hrun. injection Hrun as <-. reflexivity.
Defined.

(** C7, as stated, fails: of two scripts named [vendor] the second gives
    the main chunk id, not the first. *)
Lemma second_vendor_wins :
  exists st,
    classify (Demo.options false) "dist"
      (Demo.diskOf ["vendor-es2015.js"; "vendor-extra-es2015.js"])
      [Demo.script "5" "vendor" "vendor-es2015.js";
       Demo.script "7" "vendor" "vendor-extra-es2015.js"] = inr st
    /\ mainChunkId st = Some "7"
    /\ mainChunkId st
       <> EmittedFiles.id (Demo.script "5" "vendor" "vendor-es2015.js").
Proof.
  eexists. split; [vm_compute; reflexivity |].
  split; [reflexivity | discriminate].
Qed.

(** [main_chunk_last_vendor_else_first_main] at a build whose main script
    comes before its vendor script. *)
Lemma main_chunk_witness :
  exists st,
    classify (Demo.options false) "dist"
      (Demo.diskOf ["main-es2015.js"; "vendor-es2015.js"])
      [Demo.script "3" "main" "main-es2015.js";
       Demo.script "5" "vendor" "vendor-es2015.js"] = inr st
    /\ mainChunkId st = Some "5".
Proof.
  destruct (classify (Demo.options false) "dist"
              (Demo.diskOf ["main-es2015.js"; "vendor-es2015.js"])
              [Demo.script "3" "main" "main-es2015.js";
               Demo.script "5" "vendor" "vendor-es2015.js"])
    as [e | st] eqn:Hrun; [vm_compute in Hrun; discriminate |].
  exists st. split; [reflexivity |].
  refine (proj1 (main_chunk_last_vendor_else_first_main
                   (Demo.options false) "dist" _ _ _ Hrun)
            [Demo.script "3" "main" "main-es2015.js"]
            (Demo.script "5" "vendor" "vendor-es2015.js") [] _ _ _ _).
  - vm_compute. reflexivity.
  - reflexivity.
  - reflexivity.
  - constructor.
Defined.
End ClassifierCases.

(** ** The runtime bundle comes last *)

Section RuntimeLast.
Context `{NodePath}.
Variable w : World.

Lemma partitionActions_from workerReplacements actions :
  forall acc,
  fold_left (Builder.partitionStep workerReplacements) actions acc
  = (fst acc
       ++ map (ProcessBundleOptions.with_replacements workerReplacements)
            (List.filter (fun a => negb (deferred a)) actions),
     match last (List.filter deferred actions) with
     | Some a => Some a
     | None => snd acc
     end).
Proof.
  induction actions as [|a actions IH]; intros [batch rt]; simpl.
  - rewrite app_nil_r. reflexivity.
  - rewrite IH. unfold Builder.partitionStep. fold (deferred a).
    destruct (deferred a); simpl.
    + f_equal.
      destruct (List.filter deferred actions) as [|b l]; [reflexivity |].
      change (last (a :: b :: l)) with (last (b :: l)).
      destruct (last (b :: l)) eqn:E; [reflexivity |].
      apply last_None in E. discriminate.
    + rewrite <- app_assoc. reflexivity.
Qed.

Lemma partitionActions_spec workerReplacements actions :
  Builder.partitionActions workerReplacements actions
  = (map (ProcessBundleOptions.with_replacements workerReplacements)
       (List.filter (fun a => negb (deferred a)) actions),
     last (List.filter deferred actions)).
Proof.
  unfold Builder.partitionActions. rewrite partitionActions_from. simpl.
  destruct (last _); reflexivity.
Qed.

Lemma drawProcessed_spec queue :
  forall processResults,
  Builder.drawProcessed w queue processResults
  = (map ProcessAllNext (fst (processed w queue)),
     match snd (processed w queue) with
     | None => Normal (processResults ++ fst (processed w queue))
     | Some e => Throw e
     end).
Proof.
  induction queue as [|action queue IH]; intros processResults.
  - simpl. rewrite app_nil_r. reflexivity.
  - cbn [Builder.drawProcessed processed].
    destruct (run w action) as [e | result]; [reflexivity |].
    rewrite bind_liftExc_inr.
    rewrite (bind_normal (emit (ProcessAllNext result)) _ tt eq_refl).
    rewrite IH. cbn [trace completion fst snd emit app map].
    destruct (snd (processed w queue)); [reflexivity |].
    rewrite <- app_assoc. reflexivity.
Qed.

(** The trace and the end of [processBundles] when a runtime action was
    set apart. *)
Lemma processBundles_runtime processActions action :
  Builder.processBundles w processActions (Some action)
  = let batch := fst (processed w (processOrder w processActions)) in
    let runtimeOptions :=
      ProcessBundleOptions.with_runtime action batch (supportedBrowsers w) in
    match snd (processed w (processOrder w processActions)) with
    | None =>
        (ProcessAll processActions :: map ProcessAllNext batch
           ++ [Process runtimeOptions],
         match process w runtimeOptions with
         | inr result => Normal (batch ++ [result])
         | inl e => Throw e
         end)
    | Some e => (ProcessAll processActions :: map ProcessAllNext batch, Throw e)
    end.
Proof.
  unfold Builder.processBundles.
  rewrite (bind_normal (emit (ProcessAll processActions)) _ tt eq_refl).
  rewrite drawProcessed_spec. cbv zeta.
  destruct (snd (processed w (processOrder w processActions))) as [e|];
    [reflexivity |].
  cbn [mbind M_bind trace completion snd fst emit app].
  destruct (process w _) as [e | result]; simpl;
    rewrite ?app_nil_r; reflexivity.
Qed.

Lemma processed_length queue :
  snd (processed w queue) = None ->
  length (fst (processed w queue)) = length queue.
Proof.
  induction queue as [|a queue IH]; simpl; [reflexivity |].
  destruct (run w a); simpl; [discriminate |].
  intros Hq. f_equal. auto.
Qed.

Lemma last_filter_elem {A} (P : A -> bool) (l : list A) :
  Exists (fun a => P a = true) l ->
  exists a, last (List.filter P l) = Some a /\ P a = true /\ a ∈ l.
Proof.
  intros Hex.
  destruct (last (List.filter P l)) as [a|] eqn:E.
  - exists a. split; [reflexivity |].
    apply last_Some_elem_of, list_elem_of_In, filter_In in E as [Hin HP].
    rewrite list_elem_of_In. auto.
  - apply last_None in E. apply Exists_exists in Hex as (a & Hin & HP).
    assert (Hf : In a (List.filter P l)).
    { apply filter_In. rewrite <- list_elem_of_In. auto. }
    rewrite E in Hf. destruct Hf.
Qed.

(** With an integrity algorithm on every action, the last action of a
    runtime bundle is set apart and processed once the batch is drained. *)
Lemma runtime_action_last workerReplacements actions :
  fair w ->
  Forall (fun a => truthy (ProcessBundleOptions.integrityAlgorithm a) = true)
    actions ->
  Exists (fun a => ProcessBundleOptions.runtime a = true) actions ->
  let parts := Builder.partitionActions workerReplacements actions in
  exists rt,
    snd parts = Some rt
    /\ ProcessBundleOptions.runtime rt = true
    /\ rt ∈ actions
    /\ Forall (fun a => ProcessBundleOptions.runtime a = false)
         (processOrder w (fst parts))
    /\ (snd (processed w (processOrder w (fst parts))) = None ->
        length (fst (processed w (processOrder w (fst parts))))
        = length (fst parts))
    /\ Builder.processBundles w (fst parts) (snd parts)
       = let batch := fst (processed w (processOrder w (fst parts))) in
         let runtimeOptions :=
           ProcessBundleOptions.with_runtime rt batch (supportedBrowsers w) in
         match snd (processed w (processOrder w (fst parts))) with
         | None =>
             (ProcessAll (fst parts) :: map ProcessAllNext batch
                ++ [Process runtimeOptions],
              match process w runtimeOptions with
              | inr result => Normal (batch ++ [result])
              | inl e => Throw e
              end)
         | Some e => (ProcessAll (fst parts) :: map ProcessAllNext batch, Throw e)
         end.
Proof.
  intros [Hfair _] Hsri Hrt parts. subst parts.
  rewrite partitionActions_spec. cbn [fst snd].
  assert (Hdef : forall a, a ∈ actions -> deferred a = ProcessBundleOptions.runtime a).
  { intros a Ha. unfold deferred.
    rewrite Forall_forall in Hsri. rewrite (Hsri a Ha). reflexivity. }
  assert (Hex : Exists (fun a => deferred a = true) actions).
  { apply Exists_exists in Hrt as (a & Ha & Hr).
    apply Exists_exists. exists a. split; [assumption |].
    rewrite (Hdef a Ha). assumption. }
  apply last_filter_elem in Hex as (rt & -> & Hd & Hin).
  exists rt. split; [reflexivity |].
  split; [rewrite <- (Hdef rt Hin); assumption |].
  split; [assumption |].
  split.
  { rewrite Hfair. apply Forall_forall. intros a Ha.
    apply list_elem_of_fmap in Ha as (b & -> & Hb).
    apply list_elem_of_In, filter_In in Hb as [Hb Hnd].
    apply list_elem_of_In in Hb. rewrite (Hdef b Hb) in Hnd.
    destruct b as [fn c m n rt' o sm hsm vsm ia io oo rp rd sb]. simpl in *.
    destruct rt'; [discriminate | reflexivity]. }
  split; [intros Hn; rewrite (processed_length _ Hn), Hfair; reflexivity |].
  apply processBundles_runtime.
Qed.
End RuntimeLast.

Section RuntimeLastClaim.
Context `{NodePath}.
Variable w : World.
Variable options : Schema.t.
Variable outputPath : string.
Import Classifier.

Lemma actionOf_fields file action :
  actionOf options outputPath file action ->
  ProcessBundleOptions.integrityAlgorithm action = integrityAlgorithm options
  /\ ProcessBundleOptions.runtime action
     = startsWith (EmittedFiles.file file) "runtime".
Proof. intros (code & smap & ->). split; reflexivity. Qed.

(** C1 (amended): in a build with subresource integrity enabled whose
    deduplicated scripts include a runtime script, and whose
    classification does not throw, the last action of a runtime script is
    set apart; the batch handed to [processAll] holds no runtime action;
    [process] is called for the runtime action after the last result of
    the batch was drawn, with these results as [runtimeData]; and its
    result is appended last to [processResults], after one result for
    each action of the batch. (If a job of the batch fails, the stage
    throws before the runtime action is processed.) *)
Theorem runtime_result_last (disk0 : gmap string string)
    (emittedFiles : list EmittedFiles.t) (st : State) :
  Schema.subresourceIntegrity options = true ->
  fair w ->
  classify options outputPath disk0 emittedFiles = inr st ->
  Exists (fun f => startsWith (EmittedFiles.file f) "runtime" = true)
    (scriptsOf (Schema.scriptsEntryPointName options) emittedFiles) ->
  let parts := Builder.partitionActions (workerReplacements st) (actions st) in
  exists rt,
    snd parts = Some rt
    /\ ProcessBundleOptions.runtime rt = true
    /\ rt ∈ actions st
    /\ Forall (fun a => ProcessBundleOptions.runtime a = false)
         (processOrder w (fst parts))
    /\ (snd (processed w (processOrder w (fst parts))) = None ->
        length (fst (processed w (processOrder w (fst parts))))
        = length (fst parts))
    /\ Builder.processBundles w (fst parts) (snd parts)
       = let batch := fst (processed w (processOrder w (fst parts))) in
         let runtimeOptions :=
           ProcessBundleOptions.with_runtime rt batch (supportedBrowsers w) in
         match snd (processed w (processOrder w (fst parts))) with
         | None =>
             (ProcessAll (fst parts) :: map ProcessAllNext batch
                ++ [Process runtimeOptions],
              match process w runtimeOptions with
              | inr result => Normal (batch ++ [result])
              | inl e => Throw e
              end)
         | Some e => (ProcessAll (fst parts) :: map ProcessAllNext batch, Throw e)
         end.
Proof.
  intros Hsri Hfair Hrun Hrt.
  apply classify_inr in Hrun as (_ & _ & _ & Hall).
  apply runtime_action_last; [assumption | |].
  - clear Hrt. induction Hall as [|f a fs acts Hfa Hall IH]; constructor; auto.
    apply actionOf_fields in Hfa as [-> _].
    unfold integrityAlgorithm. rewrite Hsri. reflexivity.
  - induction Hall as [|f a fs acts Hfa Hall IH]; [inversion Hrt |].
    apply actionOf_fields in Hfa as [_ Hr].
    apply Exists_cons in Hrt as [Hrt | Hrt].
    + apply Exists_cons_hd. rewrite Hr. assumption.
    + apply Exists_cons_tl. auto.
Qed.
End RuntimeLastClaim.

Section RuntimeLastCases.
#[local] Existing Instance Demo.host.
Import Classifier.

Lemma fair_demo : fair Demo.world.
Proof. split; intros l; reflexivity. Qed.

(** C1, as stated, fails: without subresource integrity the runtime action
    stays in the batch, and in a pool that completes jobs in submission
    order its result is the first of [processResults], not the last. *)
Lemma runtime_result_first_without_integrity :
  exists st results,
    classify (Demo.options false) "dist"
      (Demo.diskOf ["runtime-es2015.js"; "main-es2015.js"])
      [Demo.script "0" "runtime" "runtime-es2015.js";
       Demo.script "3" "main" "main-es2015.js"] = inr st
    /\ snd (Builder.partitionActions (workerReplacements st) (actions st)) = None
    /\ completion
         (Builder.processBundles Demo.world
            (fst (Builder.partitionActions (workerReplacements st) (actions st)))
            (snd (Builder.partitionActions (workerReplacements st) (actions st))))
       = Normal results
    /\ map ProcessBundleResult.name results = [Some "0"; Some "3"]
    /\ option_map ProcessBundleResult.name (last results) <> Some (Some "0").
Proof.
  eexists. eexists. split; [vm_compute; reflexivity |].
  split; [vm_compute; reflexivity |].
  split; [vm_compute; reflexivity |].
  split; [reflexivity | discriminate].
Qed.

(** [runtime_result_last] at the same build with subresource integrity:
    the result of the runtime chunk [0] comes after that of chunk [3]. *)
Lemma runtime_result_last_witness :
  exists st results,
    classify (Demo.options true) "dist"
      (Demo.diskOf ["runtime-es2015.js"; "main-es2015.js"])
      [Demo.script "0" "runtime" "runtime-es2015.js";
       Demo.script "3" "main" "main-es2015.js"] = inr st
    /\ completion
         (Builder.processBundles Demo.world
            (fst (Builder.partitionActions (workerReplacements st) (actions st)))
            (snd (Builder.partitionActions (workerReplacements st) (actions st))))
       = Normal results
    /\ map ProcessBundleResult.name results = [Some "3"; Some "0"].
Proof.
  destruct (classify (Demo.options true) "dist"
              (Demo.diskOf ["runtime-es2015.js"; "main-es2015.js"])
              [Demo.script "0" "runtime" "runtime-es2015.js";
               Demo.script "3" "main" "main-es2015.js"])
    as [e | st] eqn:Hrun; [vm_compute in Hrun; discriminate |].
  destruct (runtime_result_last Demo.world (Demo.options true) "dist" _ _ st
              eq_refl fair_demo Hrun)
    as (rt & Hrt & _ & _ & _ & _ & Hproc).
  { apply Exists_cons_hd. reflexivity. }
  exists st. eexists. split; [reflexivity |].
  rewrite Hproc. clear Hproc.
  vm_compute in Hrun. injection Hrun as <-.
  vm_compute in Hrt. injection Hrt as <-.
  split; [vm_compute; reflexivity | vm_compute; reflexivity].
Defined.
End RuntimeLastCases.

(** ** The default locale *)

Section SetLocale.
Context `{NodePath}.
Variable w : World.
Variable options : Schema.t.
Variable baseOutputPath : string.

(** The comparison of the builder is equality of the two values. *)
Lemma isMainChunk_eq (mainChunkId : option string)
    (result : ProcessBundleResult.t) :
  Builder.isMainChunk mainChunkId result
  = bool_decide (ProcessBundleResult.name result = mainChunkId).
Proof.
  unfold Builder.isMainChunk.
  destruct (ProcessBundleResult.name result) as [n |], mainChunkId as [i |];
    try reflexivity.
  destruct (String.eqb_spec n i) as [-> | Hne].
  - symmetry. apply bool_decide_eq_true. reflexivity.
  - symmetry. apply bool_decide_eq_false. congruence.
Qed.

Lemma addVariant_flags mainChunkId result es5 bundle acc acc' :
  Builder.addVariant w options baseOutputPath mainChunkId result es5 bundle acc
    = inr acc' ->
  map flags (fst acc')
  = map flags (fst acc)
    ++ match bundle with
       | Some _ =>
           [(es5, bool_decide (ProcessBundleResult.name result = mainChunkId))]
       | None => []
       end.
Proof.
  rewrite <- isMainChunk_eq. unfold Builder.addVariant.
  destruct bundle as [b|]; [| intros [= <-]; rewrite app_nil_r; reflexivity].
  destruct (readFileSync w (ProcessBundleFile.filename b)) as [e | code];
    [discriminate |].
  cbn [mbind Exc_bind].
  destruct (ProcessBundleFile.map b) as [m|].
  - destruct (readFileSync w (ProcessBundleFile.map_filename m)) as [e | c];
      [discriminate |].
    intros [= <-]. cbn [fst]. rewrite map_app. reflexivity.
  - intros [= <-]. cbn [fst]. rewrite map_app. reflexivity.
Qed.

Lemma buildInlineActions_flags mainChunkId processResults :
  forall acc acc',
  Builder.buildInlineActions w options baseOutputPath mainChunkId
    processResults acc = inr acc' ->
  map flags (fst acc')
  = map flags (fst acc) ++ flat_map (variants mainChunkId) processResults.
Proof.
  induction processResults as [|result rest IH]; intros acc acc'.
  - intros [= <-]. simpl. rewrite app_nil_r. reflexivity.
  - cbn [Builder.buildInlineActions].
    destruct (Builder.addVariant w options baseOutputPath mainChunkId result
                false (ProcessBundleResult.original result) acc)
      as [e | acc1] eqn:H1; [discriminate |].
    cbn [mbind Exc_bind].
    destruct (Builder.addVariant w options baseOutputPath mainChunkId result
                true (ProcessBundleResult.downlevel result) acc1)
      as [e | acc2] eqn:H2; [discriminate |].
    cbn [mbind Exc_bind].
    intros Hrest. apply IH in Hrest. rewrite Hrest.
    apply addVariant_flags in H1, H2. rewrite H2, H1.
    cbn [flat_map]. unfold variants at 2. rewrite <- !app_assoc. reflexivity.
Qed.

(** C2 (amended): the inline actions are made result by result, one for
    each artifact the result holds (the original with [es5 = false], then
    the downlevel one with [es5 = true]), and an action has
    [setLocale = true] exactly when the name of its result equals the main
    chunk id, as two values that are each a string or [undefined]. A
    main-chunk result with both artifacts gives two such actions; when the
    main chunk id is [undefined], so does a result without a name. *)
Theorem set_locale_follows_main_chunk (mainChunkId : option string)
    (processResults : list ProcessBundleResult.t)
    (built : list InlineOptions.t * list string) :
  Builder.buildInlineActions w options baseOutputPath mainChunkId
    processResults ([], []) = inr built ->
  map flags (fst built) = flat_map (variants mainChunkId) processResults.
Proof. intros Hbuilt. apply buildInlineActions_flags in Hbuilt. exact Hbuilt. Qed.
End SetLocale.

Section SetLocaleCases.
#[local] Existing Instance Demo.host.

(** C2, as stated, fails: the result of the main chunk holds two
    artifacts, and both of its inline actions have [setLocale = true]. *)
Lemma two_actions_set_locale :
  exists built,
    Builder.buildInlineActions Demo.world (Demo.options false) "out"
      (Some "3") [Demo.mainResult] ([], []) = inr built
    /\ map InlineOptions.setLocale (fst built) = [true; true].
Proof. eexists. split; vm_compute; reflexivity. Qed.

(** [set_locale_follows_main_chunk] at the results of a runtime chunk and
    a main chunk. *)
Lemma set_locale_follows_main_chunk_witness :
  exists built,
    Builder.buildInlineActions Demo.world (Demo.options false) "out"
      (Some "3")
      [ProcessBundleResult.mk (Some "0") None
         (Some (ProcessBundleFile.mk "dist/runtime-es2015.js" 0 None None)) None;
       Demo.mainResult] ([], []) = inr built
    /\ map flags (fst built) = [(false, false); (false, true); (true, true)].
Proof.
  destruct (Builder.buildInlineActions Demo.world (Demo.options false) "out"
              (Some "3")
              [ProcessBundleResult.mk (Some "0") None
                 (Some (ProcessBundleFile.mk "dist/runtime-es2015.js" 0 None None))
                 None;
               Demo.mainResult] ([], [])) as [e | built] eqn:Hbuilt;
    [vm_compute in Hbuilt; discriminate |].
  exists built. split; [reflexivity |].
  exact (set_locale_follows_main_chunk Demo.world (Demo.options false) "out"
           _ _ _ Hbuilt).
Defined.

(** A build without a script named [main] or [vendor] leaves the main
    chunk id [undefined]; the action of a worker asset, which has no id,
    has no name, nor has its result, and the inline actions of that result
    set the locale. *)
Example undefined_name_sets_locale :
  exists st results built,
    Classifier.classify (Demo.options false) "dist"
      (Demo.diskOf ["0-es2015.worker.js"])
      [EmittedFiles.mk None None "0-es2015.worker.js" false (Some true) ".js"]
    = inr st
    /\ Classifier.mainChunkId st = None
    /\ completion
         (Builder.processBundles Demo.world
            (fst (Builder.partitionActions (Classifier.workerReplacements st)
                    (Classifier.actions st)))
            (snd (Builder.partitionActions (Classifier.workerReplacements st)
                    (Classifier.actions st))))
       = Normal results
    /\ map ProcessBundleResult.name results = [None]
    /\ Builder.buildInlineActions Demo.world (Demo.options false) "out"
         (Classifier.mainChunkId st) results ([], []) = inr built
    /\ map flags (fst built) = [(false, true); (true, true)].
Proof.
  eexists _, _, _. split; [vm_compute; reflexivity |].
  split; [reflexivity |]. split; [vm_compute; reflexivity |].
  split; [reflexivity |]. split; vm_compute; reflexivity.
Qed.
End SetLocaleCases.

(** ** Error diagnostics of the inline stage *)

Section InlineDiagnostics.
Context `{NodePath}.
Variable w : World.
Variable options : Schema.t.
Variables outputPath baseOutputPath : string.

Lemma drawnInline_app tr1 tr2 :
  drawnInline (tr1 ++ tr2) = drawnInline tr1 ++ drawnInline tr2.
Proof.
  induction tr1 as [|e tr1 IH]; [reflexivity |].
  destruct e; simpl; rewrite IH; reflexivity.
Qed.

Lemma copies_app tr1 tr2 : copies (tr1 ++ tr2) = copies tr1 ++ copies tr2.
Proof.
  induction tr1 as [|e tr1 IH]; [reflexivity |].
  destruct e; simpl; rewrite IH; reflexivity.
Qed.

(** Runs the binds of a block whose statements are known. *)
Ltac run_block := cbn [mbind M_bind emit mret M_ret liftExc throwM fst snd app].

Lemma reportDiagnostics_spec diagnostics :
  forall hasErrors,
  exists tr,
    Builder.reportDiagnostics hasErrors diagnostics
    = (tr,
       Normal (hasErrors
               || existsb (fun d => String.eqb (InlineResult.type d) "error")
                    diagnostics))
    /\ drawnInline tr = []
    /\ copies tr = [].
Proof.
  induction diagnostics as [|d rest IH]; intros hasErrors.
  - exists []. simpl. rewrite orb_false_r. auto.
  - cbn [Builder.reportDiagnostics existsb].
    destruct (String.eqb (InlineResult.type d) "error").
    + destruct (IH true) as (tr & E & Hd & Hk).
      run_block. rewrite E. run_block. rewrite orb_true_r.
      eexists. split; [reflexivity |]. split; assumption.
    + destruct (IH hasErrors) as (tr & E & Hd & Hk).
      run_block. rewrite E. run_block.
      eexists. split; [reflexivity |]. split; assumption.
Qed.

Lemma drawInlined_spec queue :
  forall hasErrors,
  exists tr,
    Builder.drawInlined w options queue hasErrors
    = (tr,
       match snd (inlined w queue) with
       | None =>
           Normal (hasErrors
                   || existsb hasErrorDiagnostic (fst (inlined w queue)))
       | Some e => Throw e
       end)
    /\ drawnInline tr = fst (inlined w queue)
    /\ copies tr = [].
Proof.
  induction queue as [|action rest IH]; intros hasErrors.
  - exists []. simpl. rewrite orb_false_r. auto.
  - cbn [Builder.drawInlined inlined].
    destruct (inline w action) as [e | result].
    + exists []. auto.
    + destruct (reportDiagnostics_spec (InlineResult.diagnostics result) hasErrors)
        as (tr1 & E1 & Hd1 & Hk1).
      destruct (IH (hasErrors
                    || existsb (fun d => String.eqb (InlineResult.type d) "error")
                         (InlineResult.diagnostics result)))
        as (tr2 & E2 & Hd2 & Hk2).
      destruct (Schema.verbose options); run_block; rewrite E1; run_block;
        rewrite E2; run_block;
        (eexists; split;
         [f_equal; destruct (snd (inlined w rest)); [reflexivity |];
          cbn [existsb]; unfold hasErrorDiagnostic at 2;
          rewrite orb_assoc; reflexivity |]);
        cbn [drawnInline copies];
        rewrite drawnInline_app, copies_app, Hd1, Hd2, Hk1, Hk2; auto.
Qed.

Lemma inlineAndCopy_spec inlineActions processedFiles :
  exists tr,
    Builder.inlineAndCopy w options outputPath inlineActions processedFiles
    = (InlineAll inlineActions
         :: tr ++ match snd (inlined w (inlineOrder w inlineActions)) with
                  | None => [CopyAssets (Builder.ignored outputPath processedFiles)]
                  | Some _ => []
                  end,
       match snd (inlined w (inlineOrder w inlineActions)) with
       | Some e => Throw e
       | None =>
           match copyAssets w (Builder.ignored outputPath processedFiles) with
           | inl e => Throw e
           | inr _ =>
               Normal (existsb hasErrorDiagnostic
                         (fst (inlined w (inlineOrder w inlineActions))))
           end
       end)
    /\ drawnInline tr = fst (inlined w (inlineOrder w inlineActions))
    /\ copies tr = [].
Proof.
  destruct (drawInlined_spec (inlineOrder w inlineActions) false)
    as (tr & E & Hd & Hk).
  exists tr. split; [| split; assumption].
  unfold Builder.inlineAndCopy. run_block. rewrite E. run_block.
  destruct (snd (inlined w (inlineOrder w inlineActions))) as [e|].
  - rewrite app_nil_r. reflexivity.
  - run_block.
    destruct (copyAssets w (Builder.ignored outputPath processedFiles))
      as [e | []]; run_block; rewrite ?app_nil_r; reflexivity.
Qed.

(** The calls of [inlineTranslations], once the inline actions are built:
    the inline jobs, the copy if no job failed, and calls on the spinner. *)
Lemma trace_inlineTranslations mainChunkId processResults built :
  Builder.buildInlineActions w options baseOutputPath mainChunkId
    processResults ([], []) = inr built ->
  exists tr tail,
    trace (Builder.inlineTranslations w options outputPath baseOutputPath
             mainChunkId processResults)
    = (SpinnerStart (Some "Generating localized bundles...")
         :: InlineAll (fst built) :: tr)
      ++ match snd (inlined w (inlineOrder w (fst built))) with
         | None => [CopyAssets (Builder.ignored outputPath (snd built))]
         | Some _ => []
         end
      ++ tail
    /\ drawnInline tr = fst (inlined w (inlineOrder w (fst built)))
    /\ copies tr = []
    /\ drawnInline tail = []
    /\ copies tail = [].
Proof.
  intros Hbuilt.
  destruct (inlineAndCopy_spec (fst built) (snd built)) as (tr & E & Hd & Hk).
  exists tr. unfold Builder.inlineTranslations.
  rewrite Hbuilt. run_block. rewrite E. clear E.
  unfold tryCatch. cbn [fst snd].
  destruct (snd (inlined w (inlineOrder w (fst built)))) as [e|].
  - run_block. eexists. split.
    { unfold trace. cbn [fst app]. rewrite <- !app_assoc. reflexivity. }
    repeat split; try assumption; reflexivity.
  - destruct (copyAssets w (Builder.ignored outputPath (snd built)))
      as [e | []].
    + run_block. eexists. split.
      { unfold trace. cbn [fst app]. rewrite <- !app_assoc. reflexivity. }
      repeat split; try assumption; reflexivity.
    + destruct (existsb hasErrorDiagnostic
                  (fst (inlined w (inlineOrder w (fst built)))));
        run_block;
        (eexists; split;
         [unfold trace; cbn [fst app]; rewrite <- !app_assoc; reflexivity |]);
        repeat split; try assumption; reflexivity.
Qed.

Lemma inlined_all queue :
  snd (inlined w queue) = None ->
  Forall2 (fun action result => inline w action = inr result)
    queue (fst (inlined w queue)).
Proof.
  induction queue as [|action rest IH]; simpl; [constructor |].
  destruct (inline w action) as [e | result] eqn:E; [discriminate |].
  simpl. intros Hrest. constructor; auto.
Qed.

(** C4: once the inline actions are built, if a result drawn from
    [inlineAll] carries an error diagnostic, the build returns
    [success: false]; every result the sequence delivers is drawn, whatever
    the diagnostics of the results before it; and when no job fails, there
    is one result for each job, the copy of the files that were not
    processed is called after the last result was drawn, and the build
    returns [success: false] (with no message) only after that copy. *)
Theorem error_diagnostic_fails_after_all_results
    (mainChunkId : option string)
    (processResults : list ProcessBundleResult.t)
    (built : list InlineOptions.t * list string) :
  Builder.buildInlineActions w options baseOutputPath mainChunkId
    processResults ([], []) = inr built ->
  existsb hasErrorDiagnostic (fst (inlined w (inlineOrder w (fst built)))) = true ->
  (exists r,
     completion (Builder.inlineTranslations w options outputPath baseOutputPath
                   mainChunkId processResults) = Return r
     /\ BuilderOutput.success r = false)
  /\ drawnInline
       (trace (Builder.inlineTranslations w options outputPath baseOutputPath
                 mainChunkId processResults))
     = fst (inlined w (inlineOrder w (fst built)))
  /\ (snd (inlined w (inlineOrder w (fst built))) = None ->
      Forall2 (fun action result => inline w action = inr result)
        (inlineOrder w (fst built))
        (fst (inlined w (inlineOrder w (fst built))))
      /\ (exists pre post,
            trace (Builder.inlineTranslations w options outputPath
                     baseOutputPath mainChunkId processResults)
            = pre ++ CopyAssets (Builder.ignored outputPath (snd built)) :: post
            /\ drawnInline pre = fst (inlined w (inlineOrder w (fst built)))
            /\ drawnInline post = []
            /\ copies pre = []
            /\ copies post = [])
      /\ (copyAssets w (Builder.ignored outputPath (snd built)) = inr tt ->
          completion (Builder.inlineTranslations w options outputPath
                        baseOutputPath mainChunkId processResults)
          = Return (BuilderOutput.mk false None))).
Proof.
  intros Hbuilt Herr.
  pose proof (completion_inlineTranslations w options outputPath baseOutputPath
                _ _ _ Hbuilt) as Hc.
  destruct (inlineAndCopy_spec (fst built) (snd built)) as (tr0 & E & _ & _).
  rewrite E in Hc. cbn [completion snd] in Hc. clear E tr0.
  destruct (trace_inlineTranslations _ _ _ Hbuilt)
    as (tr & tail & Htr & Hd & Hk & Hdt & Hkt).
  split; [| split].
  - rewrite Hc.
    destruct (snd (inlined w (inlineOrder w (fst built)))) as [e|];
      [eexists; split; reflexivity |].
    destruct (copyAssets w (Builder.ignored outputPath (snd built)))
      as [e | u]; [eexists; split; reflexivity |].
    rewrite Herr. eexists; split; reflexivity.
  - rewrite Htr, !drawnInline_app. cbn [drawnInline]. rewrite Hd, Hdt.
    destruct (snd (inlined w (inlineOrder w (fst built))));
      cbn [drawnInline]; rewrite !app_nil_r; reflexivity.
  - intros Hnone. split; [apply inlined_all; assumption |].
    rewrite Hnone in *. split.
    + eexists. exists tail. split; [exact Htr |].
      cbn [drawnInline copies]. auto.
    + intros Hcopy. rewrite Hc, Hcopy, Herr. reflexivity.
Qed.
End InlineDiagnostics.

Section InlineDiagnosticsCases.
#[local] Existing Instance Demo.host.

(** [error_diagnostic_fails_after_all_results] at a main chunk whose
    modern bundle lacks a translation: both bundles are inlined, then the
    build fails. *)
Lemma error_diagnostic_witness :
  completion (Builder.inlineTranslations (Demo.withInline Demo.inlineWithError)
                (Demo.options false) "dist" "out" (Some "3") [Demo.mainResult])
    = Return (BuilderOutput.mk false None)
  /\ map InlineResult.file
       (drawnInline
          (trace (Builder.inlineTranslations
                    (Demo.withInline Demo.inlineWithError)
                    (Demo.options false) "dist" "out" (Some "3")
                    [Demo.mainResult])))
     = ["main-es2015.js"; "main-es5.js"].
Proof.
  destruct (Builder.buildInlineActions (Demo.withInline Demo.inlineWithError)
              (Demo.options false) "out" (Some "3") [Demo.mainResult] ([], []))
    as [e | built] eqn:Hbuilt; [vm_compute in Hbuilt; discriminate |].
  destruct (error_diagnostic_fails_after_all_results
              (Demo.withInline Demo.inlineWithError) (Demo.options false)
              "dist" "out" (Some "3") [Demo.mainResult] built Hbuilt)
    as (_ & Hdrawn & Hrest).
  { vm_compute in Hbuilt. injection Hbuilt as <-. vm_compute. reflexivity. }
  destruct Hrest as (_ & _ & Hreturn).
  { vm_compute in Hbuilt. injection Hbuilt as <-. vm_compute. reflexivity. }
  split; [apply Hreturn; reflexivity |].
  rewrite Hdrawn. vm_compute in Hbuilt. injection Hbuilt as <-.
  vm_compute. reflexivity.
Defined.

(** The four ways out of the stage, each with [stop()] as its last call:
    falling through, ... *)
Example stage_falls_through :
  let stage :=
    Builder.executeActions Demo.world (Demo.options false) "dist" "out" true
      None (Some "3") [] in
  completion stage = Normal [] /\ last (trace stage) = Some Stop.
Proof. vm_compute. split; reflexivity. Qed.

(** ... returning after an error diagnostic, ... *)
Example stage_returns_on_error_diagnostic :
  let stage :=
    Builder.executeActions (Demo.withInline Demo.inlineWithError)
      (Demo.options false) "dist" "out" true None (Some "3")
      [ProcessBundleOptions.mk "dist/main-es2015.js" "" None (Some "3") false
         true false false false None false false None None None] in
  completion stage = Return (BuilderOutput.mk false None)
  /\ last (trace stage) = Some Stop.
Proof. vm_compute. split; reflexivity. Qed.

(** ... returning after a failure of an inline job, ... *)
Example stage_returns_on_inline_failure :
  let stage :=
    Builder.executeActions (Demo.withInline (fun _ => inl (JsStr "out of memory")))
      (Demo.options false) "dist" "out" true None (Some "3")
      [ProcessBundleOptions.mk "dist/main-es2015.js" "" None (Some "3") false
         true false false false None false false None None None] in
  completion stage = Return (BuilderOutput.mk false (Some "out of memory"))
  /\ last (trace stage) = Some Stop.
Proof. vm_compute. split; reflexivity. Qed.

(** ... and throwing when a transform job fails. *)
Example stage_throws_on_transform_failure :
  let stage :=
    Builder.executeActions (Demo.withRun (fun _ => inl (JsError "syntax error")))
      (Demo.options false) "dist" "out" true None (Some "3")
      [ProcessBundleOptions.mk "dist/main-es2015.js" "" None (Some "3") false
         true false false false None false false None None None] in
  completion stage = Throw (JsError "syntax error")
  /\ last (trace stage) = Some Stop.
Proof. vm_compute. split; reflexivity. Qed.
End InlineDiagnosticsCases.

(** * Further properties of the code *)

(** ** What the classifier does to the file lists and to the disk *)

Section ClassifierEffects.
Context `{NodePath}.
Variable options : Schema.t.
Variable outputPath : string.
Import Classifier.

#[local] Abbreviation entries := (Schema.scriptsEntryPointName options).

(** [file.file.startsWith('polyfills-es5')] *)
Definition legacyPolyfill (file : EmittedFiles.t) : bool :=
startsWith (EmittedFiles.file file) "polyfills-es5".

(** [file.file.startsWith('polyfills-es20')] *)
Definition modernPolyfill (file : EmittedFiles.t) : bool :=
startsWith (EmittedFiles.file file) "polyfills-es20".

(** What an iteration that does not throw does to the disk. *)
Lemma classifyFile_disk (st st1 : State) (file : EmittedFiles.t) :
  classifyFile options outputPath st file = inr st1 ->
  let filename := path_join outputPath (EmittedFiles.file file) in
  (forall p v, disk st1 !! p = Some v -> disk st !! p = Some v)
  /\ (forall p,
        fresh entries st file && legacyPolyfill file = false
        \/ (p <> filename /\ p <> filename +:+ ".map") ->
        disk st1 !! p = disk st !! p)
  /\ (fresh entries st file && legacyPolyfill file = true ->
      disk st1 !! filename = None).
Proof.
  unfold classifyFile, fresh, processable, skippedAsset, assetBranch,
    legacyPolyfill.
  destruct (EmittedFiles.asset file) as [[|]|];
    destruct (endsWith (EmittedFiles.file file) ".worker.js");
    cbn [negb andb];
    try (intros [= <-]; cbn; repeat split; auto; discriminate);
    (destruct (notProcessed entries file); cbn [negb andb];
     [intros [= <-]; cbn; repeat split; auto; discriminate |]);
    (case_bool_decide; cbn [negb andb];
     [intros [= <-]; cbn; repeat split; auto; discriminate |]);
    (destruct (namesMainChunk (mainChunkId st) file);
     [destruct (EmittedFiles.id file); [| discriminate] |]);
    cbn [mbind Exc_bind mret Exc_ret];
    (destruct (disk st !! path_join outputPath (EmittedFiles.file file))
       as [code|]; [| discriminate]);
    cbn [mbind Exc_bind mret Exc_ret];
    (destruct (Schema.sourceMapScripts options);
     [destruct (disk st !! (path_join outputPath (EmittedFiles.file file) +:+ ".map"))
        as [m|] |]);
    destruct (startsWith (EmittedFiles.file file) "polyfills-es5");
    intros [= <-]; cbn;
    (split; [| split]);
    try (intros p v; rewrite ?lookup_delete_Some; tauto);
    try (intros p [Hd | [Hp Hm]]; [discriminate || reflexivity |];
         rewrite ?lookup_delete_ne by auto; reflexivity);
    try (intros p _; reflexivity);
    try discriminate;
    try (intros _; apply lookup_delete_eq).
Qed.

(** The deduplicated scripts of a list, by its head and its tail. *)
Lemma firstByPath_step (st st1 : State) (file : EmittedFiles.t)
    (rest : list EmittedFiles.t) :
  classifyFile options outputPath st file = inr st1 ->
  firstByPath (seen st) (List.filter (processable entries) (file :: rest))
  = (if fresh entries st file then [file] else [])
    ++ firstByPath (seen st1) (List.filter (processable entries) rest).
Proof.
  intros Hstep. apply classifyFile_inr in Hstep as (_ & _ & -> & _).
  unfold fresh. cbn [List.filter].
  destruct (processable entries file); cbn [andb firstByPath]; [| reflexivity].
  case_bool_decide; reflexivity.
Qed.

Lemma classifyFrom_disk (emittedFiles : list EmittedFiles.t) :
  forall st st' : State,
  classifyFrom options outputPath st emittedFiles = inr st' ->
  (forall p v, disk st' !! p = Some v -> disk st !! p = Some v)
  /\ (forall p,
        Forall (fun f =>
                  legacyPolyfill f = true ->
                  p <> path_join outputPath (EmittedFiles.file f)
                  /\ p <> path_join outputPath (EmittedFiles.file f) +:+ ".map")
          (firstByPath (seen st) (List.filter (processable entries) emittedFiles)) ->
        disk st' !! p = disk st !! p)
  /\ Forall (fun f =>
               legacyPolyfill f = true ->
               disk st' !! path_join outputPath (EmittedFiles.file f) = None)
       (firstByPath (seen st) (List.filter (processable entries) emittedFiles)).
Proof.
  induction emittedFiles as [|file rest IH]; intros st st' Hrun.
  - simpl in Hrun. injection Hrun as <-. simpl. auto.
  - simpl in Hrun.
    destruct (classifyFile options outputPath st file) as [e | st1] eqn:Hstep;
      [discriminate |].
    cbn [mbind Exc_bind] in Hrun.
    rewrite (firstByPath_step _ _ _ _ Hstep).
    apply classifyFile_disk in Hstep as (Hsub & Hsame & Hgone).
    apply IH in Hrun as (Hsub' & Hsame' & Hgone').
    split; [auto |]. split.
    + intros p Hp. apply Forall_app in Hp as [Hfile Hrest].
      rewrite (Hsame' p Hrest). apply Hsame.
      destruct (fresh entries st file); [| left; reflexivity].
      destruct (legacyPolyfill file) eqn:Hl; [| left; reflexivity].
      right. apply Forall_cons in Hfile as [Hfile _]. auto.
    + apply Forall_app. split; [| exact Hgone'].
      destruct (fresh entries st file); [| constructor].
      constructor; [| constructor].
      intros Hl. rewrite Hl in Hgone.
      destruct (disk st' !! path_join outputPath (EmittedFiles.file file))
        as [v|] eqn:Hv; [| reflexivity].
      apply Hsub' in Hv. rewrite (Hgone eq_refl) in Hv. discriminate.
Qed.

(** X1: when the loop does not throw, [moduleFiles] holds the deduplicated
    scripts that are not legacy polyfills and [noModuleFiles] holds one
    renamed entry for each deduplicated script that is not a modern
    polyfill, both in the order of the input: a legacy polyfill is never
    loaded as a module, a modern polyfill never gets a [nomodule] twin. *)
Theorem module_and_nomodule_files (disk0 : gmap string string)
    (emittedFiles : list EmittedFiles.t) (st : State) :
  classify options outputPath disk0 emittedFiles = inr st ->
  moduleFiles st
    = List.filter (fun f => negb (legacyPolyfill f))
        (scriptsOf entries emittedFiles)
  /\ noModuleFiles st
     = map noModuleFile
         (List.filter (fun f => negb (modernPolyfill f))
            (scriptsOf entries emittedFiles))
  /\ Forall (fun f => legacyPolyfill f = false) (moduleFiles st)
  /\ Forall (fun f => f ∈ emittedFiles) (moduleFiles st).
Proof.
  intros Hrun. apply classifyFrom_inr in Hrun as (_ & _ & _ & _ & _ & Hm & Hn).
  simpl in Hm, Hn. rewrite Hm, Hn.
  split; [reflexivity |]. split; [reflexivity |].
  split; apply Forall_forall; intros f Hf;
    apply list_elem_of_In, filter_In in Hf as [Hf Hl].
  - unfold legacyPolyfill.
    destruct (startsWith (EmittedFiles.file f) "polyfills-es5");
      [discriminate | reflexivity].
  - clear Hl. unfold scriptsOf in Hf.
    assert (Hsub : forall l seen0, In f (firstByPath seen0 l) -> In f l).
    { clear. induction l as [|x l IH]; intros seen0; simpl; [auto |].
      case_bool_decide; simpl; intros Hin; [right; eauto |].
      destruct Hin as [-> | Hin]; [left; reflexivity | right; eauto]. }
    apply Hsub, filter_In in Hf as [Hf _]. apply list_elem_of_In. exact Hf.
Qed.

(** X2: when the loop does not throw, it never writes to the disk, it
    deletes every legacy polyfill among the deduplicated scripts, and a
    path that is neither such a polyfill nor the source map next to one
    keeps its content. *)
Theorem only_legacy_polyfills_deleted (disk0 : gmap string string)
    (emittedFiles : list EmittedFiles.t) (st : State) :
  classify options outputPath disk0 emittedFiles = inr st ->
  (forall p v, disk st !! p = Some v -> disk0 !! p = Some v)
  /\ (forall p,
        Forall (fun f =>
                  legacyPolyfill f = true ->
                  p <> path_join outputPath (EmittedFiles.file f)
                  /\ p <> path_join outputPath (EmittedFiles.file f) +:+ ".map")
          (scriptsOf entries emittedFiles) ->
        disk st !! p = disk0 !! p)
  /\ Forall (fun f =>
               legacyPolyfill f = true ->
               disk st !! path_join outputPath (EmittedFiles.file f) = None)
       (scriptsOf entries emittedFiles).
Proof. intros Hrun. apply classifyFrom_disk in Hrun. exact Hrun. Qed.
End ClassifierEffects.

(** ** The batch, the runtime action and the files of the inline stage *)

(** The files an artifact consists of: the bundle and its source map. *)
Definition artifactFiles (bundle : option ProcessBundleFile.t) : list string :=
match bundle with
| Some b =>
    ProcessBundleFile.filename b
    :: match ProcessBundleFile.map b with
       | Some m => [ProcessBundleFile.map_filename m]
       | None => []
       end
| None => []
end.

(** The files of the artifacts of a result. *)
Definition resultFiles (result : ProcessBundleResult.t) : list string :=
artifactFiles (ProcessBundleResult.original result)
++ artifactFiles (ProcessBundleResult.downlevel result).

Section StageFacts.
Context `{NodePath}.
Variable w : World.
Variable options : Schema.t.
Variables outputPath baseOutputPath : string.

(** X3: the loop over [actions] keeps the order of the actions it puts in
    the batch, gives each of them the worker replacements, and withholds
    the last action that is a runtime bundle with an integrity algorithm;
    any such action before the last is in neither part. *)
Theorem actions_split_in_batch_and_runtime
    (workerReplacements : option (list (string * string)))
    (actions : list ProcessBundleOptions.t) :
  fst (Builder.partitionActions workerReplacements actions)
    = map (ProcessBundleOptions.with_replacements workerReplacements)
        (List.filter (fun a => negb (deferred a)) actions)
  /\ snd (Builder.partitionActions workerReplacements actions)
     = last (List.filter deferred actions)
  /\ length (fst (Builder.partitionActions workerReplacements actions))
     + length (List.filter deferred actions)
     = length actions.
Proof.
  rewrite partitionActions_spec. cbn [fst snd].
  split; [reflexivity |]. split; [reflexivity |].
  rewrite length_map, Nat.add_comm. apply List.filter_length.
Qed.

Lemma processBundles_failed processActions processRuntimeAction e :
  snd (processed w (processOrder w processActions)) = Some e ->
  Builder.processBundles w processActions processRuntimeAction
  = (ProcessAll processActions
       :: map ProcessAllNext (fst (processed w (processOrder w processActions))),
     Throw e).
Proof.
  intros He. unfold Builder.processBundles.
  rewrite (bind_normal (emit (ProcessAll processActions)) _ tt eq_refl).
  rewrite drawProcessed_spec, He. reflexivity.
Qed.

(** X4: when a transform job of the batch fails, the stage throws what the
    job threw, after drawing the results of the jobs completed before it:
    the runtime bundle is not processed, no inline job is started, nothing
    is copied, and the executor is stopped. *)
Theorem transform_failure_ends_stage (shouldInline : bool)
    (workerReplacements : option (list (string * string)))
    (mainChunkId : option string) (actions : list ProcessBundleOptions.t)
    (e : JsValue) :
  snd (processed w
         (processOrder w
            (fst (Builder.partitionActions workerReplacements actions))))
    = Some e ->
  Builder.executeActions w options outputPath baseOutputPath shouldInline
    workerReplacements mainChunkId actions
  = (NewExecutor
       :: SpinnerStart
            (Some "Generating ES5 bundles for differential loading...")
       :: ProcessAll (fst (Builder.partitionActions workerReplacements actions))
       :: map ProcessAllNext
            (fst (processed w
                    (processOrder w
                       (fst (Builder.partitionActions workerReplacements
                               actions)))))
       ++ [Stop],
     Throw e).
Proof.
  intros He. unfold Builder.executeActions. cbv zeta.
  rewrite (processBundles_failed _ _ _ He).
  reflexivity.
Qed.
End StageFacts.

Section ProcessedFiles.
Context `{NodePath}.
Variable w : World.
Variable options : Schema.t.
Variables outputPath baseOutputPath : string.

Lemma list_includes_elem (l : list string) (x : string) :
  list_includes l x = true <-> x ∈ l.
Proof.
  unfold list_includes. rewrite existsb_exists. split.
  - intros (y & Hy & Heq). apply String.eqb_eq in Heq as ->.
    apply list_elem_of_In. exact Hy.
  - intros Hx. exists x. split; [apply list_elem_of_In, Hx |].
    apply String.eqb_refl.
Qed.

Lemma setAdd_elem (s : list string) (x y : string) :
  y ∈ Builder.setAdd s x <-> y ∈ s \/ y = x.
Proof.
  unfold Builder.setAdd. destruct (list_includes s x) eqn:E.
  - apply list_includes_elem in E. split; [auto |].
    intros [Hy | ->]; assumption.
  - rewrite elem_of_app, list_elem_of_singleton. reflexivity.
Qed.

Lemma setAdd_NoDup (s : list string) (x : string) :
  NoDup s -> NoDup (Builder.setAdd s x).
Proof.
  intros Hs. unfold Builder.setAdd. destruct (list_includes s x) eqn:E;
    [exact Hs |].
  apply NoDup_app. split; [exact Hs |]. split; [| apply NoDup_singleton].
  intros y Hy Hx. apply list_elem_of_singleton in Hx as ->.
  apply list_includes_elem in Hy. congruence.
Qed.

Lemma addVariant_files mainChunkId result es5 bundle acc acc' :
  Builder.addVariant w options baseOutputPath mainChunkId result es5 bundle acc
    = inr acc' ->
  (NoDup (snd acc) -> NoDup (snd acc'))
  /\ (forall p, p ∈ snd acc' <-> p ∈ snd acc \/ p ∈ artifactFiles bundle).
Proof.
  unfold Builder.addVariant, artifactFiles.
  destruct bundle as [b|].
  2: { intros [= <-]. split; [auto |]. intros p. rewrite elem_of_nil. tauto. }
  destruct (readFileSync w (ProcessBundleFile.filename b)) as [e | code];
    [discriminate |].
  cbn [mbind Exc_bind].
  destruct (ProcessBundleFile.map b) as [m|].
  - destruct (readFileSync w (ProcessBundleFile.map_filename m)) as [e | c];
      [discriminate |].
    intros [= <-]. cbn [snd]. split.
    + intros Hnd. apply setAdd_NoDup, setAdd_NoDup, Hnd.
    + intros p. rewrite !setAdd_elem, !elem_of_cons, elem_of_nil. tauto.
  - intros [= <-]. cbn [snd]. split.
    + intros Hnd. apply setAdd_NoDup, Hnd.
    + intros p. rewrite !setAdd_elem, !elem_of_cons, elem_of_nil. tauto.
Qed.

Lemma buildInlineActions_files mainChunkId processResults :
  forall acc acc',
  Builder.buildInlineActions w options baseOutputPath mainChunkId
    processResults acc = inr acc' ->
  (NoDup (snd acc) -> NoDup (snd acc'))
  /\ (forall p,
        p ∈ snd acc'
        <-> p ∈ snd acc \/ exists r, r ∈ processResults /\ p ∈ resultFiles r).
Proof.
  induction processResults as [|result rest IH]; intros acc acc'.
  - intros [= <-]. split; [auto |]. intros p. split; [auto |].
    intros [Hp | (r & Hr & _)]; [exact Hp |]. inversion Hr.
  - cbn [Builder.buildInlineActions].
    destruct (Builder.addVariant w options baseOutputPath mainChunkId result
                false (ProcessBundleResult.original result) acc)
      as [e | acc1] eqn:H1; [discriminate |].
    cbn [mbind Exc_bind].
    destruct (Builder.addVariant w options baseOutputPath mainChunkId result
                true (ProcessBundleResult.downlevel result) acc1)
      as [e | acc2] eqn:H2; [discriminate |].
    cbn [mbind Exc_bind].
    intros Hrest. apply IH in Hrest as [Hnd Hin].
    apply addVariant_files in H1 as [Hnd1 Hin1].
    apply addVariant_files in H2 as [Hnd2 Hin2].
    split; [auto |].
    intros p. rewrite Hin, Hin2, Hin1. unfold resultFiles. split.
    + intros [[[Hp | Hp] | Hp] | (r & Hr & Hp)].
      * left. exact Hp.
      * right. exists result. rewrite elem_of_cons, elem_of_app. auto.
      * right. exists result. rewrite elem_of_cons, elem_of_app. auto.
      * right. exists r. rewrite elem_of_cons. auto.
    + intros [Hp | (r & Hr & Hp)]; [auto |].
      apply elem_of_cons in Hr as [-> | Hr].
      * apply elem_of_app in Hp as [Hp | Hp]; auto.
      * right. exists r. auto.
Qed.

(** X5: once the inline actions are built, the files marked as processed
    are the bundles and source maps of the artifacts of the results, each
    once; and when no inline job fails, the copy of the other files is
    called once, with exactly these files (relative to the output path of
    webpack) to ignore. *)
Theorem processed_files_are_ignored (mainChunkId : option string)
    (processResults : list ProcessBundleResult.t)
    (built : list InlineOptions.t * list string) :
  Builder.buildInlineActions w options baseOutputPath mainChunkId
    processResults ([], []) = inr built ->
  NoDup (snd built)
  /\ (forall p,
        p ∈ snd built
        <-> exists r, r ∈ processResults /\ p ∈ resultFiles r)
  /\ (snd (inlined w (inlineOrder w (fst built))) = None ->
      copies (trace (Builder.inlineTranslations w options outputPath
                       baseOutputPath mainChunkId processResults))
      = [map (path_relative outputPath) (snd built)]).
Proof.
  intros Hbuilt.
  pose proof (buildInlineActions_files _ _ _ _ Hbuilt) as [Hnd Hin].
  split; [apply Hnd; constructor |]. split.
  - intros p. rewrite Hin. cbn [snd]. rewrite elem_of_nil. tauto.
  - intros Hnone.
    destruct (trace_inlineTranslations w options outputPath baseOutputPath
                _ _ _ Hbuilt) as (tr & tail & -> & _ & Hk & _ & Hkt).
    rewrite Hnone, !copies_app. cbn [copies]. rewrite Hk, Hkt. reflexivity.
Qed.
End ProcessedFiles.

(** ** Budget failures keep what was recorded before *)

Section BudgetPrefix.
Context `{NodePath}.

(** X6: recording budget failures only appends: the warnings and the
    errors the statistics held before are a prefix of those they hold
    afterwards, and the statistics of the children are not touched, also
    when a failure of unexpected severity makes the loop throw. *)
Theorem budget_failures_only_append (budgetFailures : list BudgetFailure) :
  forall webpackStats : Stats.t,
  Stats.warnings webpackStats
    `prefix_of`
    Stats.warnings (fst (Builder.recordBudgetFailures webpackStats budgetFailures))
  /\ Stats.errors webpackStats
       `prefix_of`
       Stats.errors (fst (Builder.recordBudgetFailures webpackStats budgetFailures))
  /\ Stats.children (fst (Builder.recordBudgetFailures webpackStats budgetFailures))
     = Stats.children webpackStats.
Proof.
  induction budgetFailures as [|[sev msg] rest IH]; intros webpackStats.
  - simpl. auto.
  - cbn [Builder.recordBudgetFailures]. unfold Builder.recordBudgetFailure.
    cbn [severity message].
    destruct sev as [| | value].
    + destruct (IH (Stats.mk
                      (Stats.warnings webpackStats ++ ["budgets: " +:+ msg])
                      (Stats.errors webpackStats) (Stats.children webpackStats)))
        as (Hw & He & Hc).
      cbn [Stats.warnings Stats.errors Stats.children] in *.
      split; [| split; assumption].
      etransitivity; [| exact Hw]. apply prefix_app_r. reflexivity.
    + destruct (IH (Stats.mk (Stats.warnings webpackStats)
                      (Stats.errors webpackStats ++ ["budgets: " +:+ msg])
                      (Stats.children webpackStats)))
        as (Hw & He & Hc).
      cbn [Stats.warnings Stats.errors Stats.children] in *.
      split; [assumption |]. split; [| assumption].
      etransitivity; [| exact He]. apply prefix_app_r. reflexivity.
    + cbn [fst]. auto.
Qed.
End BudgetPrefix.

(** ** More on [CommonJsUsageWarnPlugin] *)

Section PluginMore.
Context `{NodePath}.
Import CommonJsUsageWarnPlugin.

(** The warning of a module depends on the instance through the allowed
    dependencies only. *)
Lemma warningOf_allowed (a b : t) (m : WebpackModule) :
  allowedDepedencies a = allowedDepedencies b -> warningOf a m = warningOf b m.
Proof.
  intros Heq. unfold warningOf, skipped. rewrite Heq. reflexivity.
Qed.

Lemma visit_keeps (acc : t * list string) (m : WebpackModule) :
  allowedDepedencies (fst (visit acc m)) = allowedDepedencies (fst acc)
  /\ shownWarnings (fst acc) ⊆ shownWarnings (fst (visit acc m))
  /\ (forall msg,
        warningOf (fst acc) m = Some msg ->
        msg ∈ shownWarnings (fst (visit acc m))).
Proof.
  destruct acc as [this ws].
  destruct (visit_cases this ws m) as [E | (warning & Hw & Hnew & E)].
  - rewrite E. cbn [fst]. split; [reflexivity |]. split; [set_solver |].
    intros msg Hmsg. unfold visit in E. cbn [fst snd] in E. rewrite Hmsg in E.
    case_bool_decide as Hin; [exact Hin |].
    injection E as E _. exfalso.
    assert (Hsame : shownWarnings
                      (mk (shownWarnings this ∪ {[msg]}) (allowedDepedencies this))
                    = shownWarnings this) by (rewrite E; reflexivity).
    cbn in Hsame. apply Hin. rewrite <- Hsame. set_solver.
  - rewrite E. cbn [fst shownWarnings allowedDepedencies].
    split; [reflexivity |]. split; [set_solver |].
    intros msg Hmsg. rewrite Hmsg in Hw. injection Hw as <-. set_solver.
Qed.

Lemma finishModules_keeps (modules : list WebpackModule) :
  forall (this : t) (warnings0 : list string),
  allowedDepedencies (fst (finishModules this warnings0 modules))
    = allowedDepedencies this
  /\ shownWarnings this ⊆ shownWarnings (fst (finishModules this warnings0 modules))
  /\ (forall m msg,
        m ∈ modules -> warningOf this m = Some msg ->
        msg ∈ shownWarnings (fst (finishModules this warnings0 modules))).
Proof.
  unfold finishModules.
  induction modules as [|m modules IH]; intros this warnings0; cbn [fold_left].
  - cbn [fst]. split; [reflexivity |]. split; [set_solver |].
    intros m msg Hm. inversion Hm.
  - destruct (visit_keeps (this, warnings0) m) as (Ha & Hs & Hm).
    destruct (visit (this, warnings0) m) as [this1 warnings1].
    cbn [fst] in *.
    destruct (IH this1 warnings1) as (Ha' & Hs' & Hm').
    split; [congruence |]. split; [set_solver |].
    intros m' msg Hin Hmsg. apply elem_of_cons in Hin as [-> | Hin].
    + apply Hs', Hm, Hmsg.
    + apply (Hm' m' msg Hin).
      rewrite (warningOf_allowed this1 this m' Ha). exact Hmsg.
Qed.

Lemma compilations_keeps (builds : list (list string * list WebpackModule)) :
  forall this : t,
  allowedDepedencies (fst (compilations this builds)) = allowedDepedencies this
  /\ shownWarnings this ⊆ shownWarnings (fst (compilations this builds))
  /\ (forall warnings0 modules m msg,
        (warnings0, modules) ∈ builds -> m ∈ modules ->
        warningOf this m = Some msg ->
        msg ∈ shownWarnings (fst (compilations this builds))).
Proof.
  induction builds as [|[warnings0 modules] builds IH]; intros this;
    cbn [compilations].
  - cbn [fst]. split; [reflexivity |]. split; [set_solver |].
    intros ws ms m msg Hin. inversion Hin.
  - destruct (finishModules_keeps modules this warnings0) as (Ha & Hs & Hm).
    destruct (finishModules this warnings0 modules) as [this1 warnings1].
    cbn [fst] in *.
    destruct (IH this1) as (Ha' & Hs' & Hm').
    destruct (compilations this1 builds) as [this2 others]. cbn [fst] in *.
    split; [congruence |]. split; [set_solver |].
    intros ws ms m msg Hin Hmod Hmsg.
    apply elem_of_cons in Hin as [[= -> ->] | Hin].
    + apply Hs', (Hm m msg Hmod Hmsg).
    + apply (Hm' ws ms m msg Hin Hmod).
      rewrite (warningOf_allowed this1 this m Ha). exact Hmsg.
Qed.

Lemma elem_of_concat_zip_app (inits added : list (list string)) (x : string) :
  length added = length inits ->
  x ∈ concat added -> x ∈ concat (zip_with app inits added).
Proof.
  revert added. induction inits as [|i inits IH]; intros [|a added]; simpl;
    try discriminate; [auto |].
  intros [= Hlen] Hx. rewrite !elem_of_app in *.
  destruct Hx as [Hx | Hx]; [auto |]. right. apply IH; assumption.
Qed.

(** X7: over the compilations of a new instance, every module that calls
    for a warning has its message among the warnings of one of the
    compilations when they are finished: with the set of shown warnings
    kept for the life of the instance, no warning is lost, it is only
    never repeated. *)
Theorem module_warning_is_reported
    (optionsAllowedDepedencies : option (list string))
    (builds : list (list string * list WebpackModule))
    (warnings0 : list string) (modules : list WebpackModule)
    (m : WebpackModule) (msg : string) :
  (warnings0, modules) ∈ builds ->
  m ∈ modules ->
  warningOf (new optionsAllowedDepedencies) m = Some msg ->
  msg ∈ concat (snd (compilations (new optionsAllowedDepedencies) builds)).
Proof.
  intros Hin Hmod Hmsg.
  destruct (compilations_keeps builds (new optionsAllowedDepedencies))
    as (_ & _ & Hshown).
  specialize (Hshown _ _ _ _ Hin Hmod Hmsg).
  destruct (compilations_added builds (new optionsAllowedDepedencies))
    as (added & Hws & Hlen & _ & _ & Hset).
  rewrite Hset in Hshown. rewrite Hws.
  apply elem_of_concat_zip_app; [rewrite length_fmap; exact Hlen |].
  apply elem_of_union in Hshown as [Hshown | Hshown].
  - simpl in Hshown. apply not_elem_of_empty in Hshown. destruct Hshown.
  - apply elem_of_list_to_set in Hshown. exact Hshown.
Qed.

(** A module whose request, or the package of whose request, is among the
    allowed dependencies of the instance is skipped. *)
Lemma warningOf_skips_allowed (this : t) (m : WebpackModule) (r : string) :
  rawRequest m = Some r ->
  r ∈ allowedDepedencies this
  \/ rawRequestToPackageName r ∈ allowedDepedencies this ->
  warningOf this m = None.
Proof.
  intros Hr Hallowed. unfold warningOf, skipped. rewrite Hr.
  assert (Hskip : bool_decide (r ∈ allowedDepedencies this)
                  || bool_decide (rawRequestToPackageName r
                                  ∈ allowedDepedencies this)
                  = true).
  { apply orb_true_iff.
    destruct Hallowed as [Hin | Hin]; [left | right];
      apply bool_decide_eq_true; exact Hin. }
  apply orb_true_iff in Hskip.
  destruct (String.eqb r ""); [reflexivity |].
  destruct (startsWith r "."); [reflexivity |].
  destruct (path_isAbsolute r); [reflexivity |].
  cbn [orb].
  destruct Hskip as [-> | ->]; [reflexivity |].
  rewrite orb_true_r. reflexivity.
Qed.

(** X8: a module whose request, or the package of whose request, is among
    the allowed dependencies given to the constructor, or whose request is
    [webpack/hot/dev-server], never calls for a warning. *)
Theorem allowed_dependency_never_warns (allowed : list string)
    (m : WebpackModule) (r : string) :
  rawRequest m = Some r ->
  r ∈ allowed \/ rawRequestToPackageName r ∈ allowed
  \/ r = "webpack/hot/dev-server" ->
  warningOf (new (Some allowed)) m = None.
Proof.
  intros Hr Hallowed. apply (warningOf_skips_allowed _ m r Hr).
  cbn [new allowedDepedencies default].
  destruct Hallowed as [Hin | [Hin | ->]]; [left | right | left]; set_solver.
Qed.
End PluginMore.

(** ** The package of a request *)

(** Whether a string holds a slash. *)
Fixpoint hasSlash (s : string) : bool :=
match s with
| EmptyString => false
| String c s' => Ascii.eqb c "/"%char || hasSlash s'
end.

Section PackageName.
Import CommonJsUsageWarnPlugin.

Lemma append_cons (c : ascii) (s t : string) :
  String c s +:+ t = String c (s +:+ t).
Proof. reflexivity. Qed.

Lemma append_nil_l (t : string) : EmptyString +:+ t = t.
Proof. reflexivity. Qed.

Lemma append_nil_r (s : string) : s +:+ EmptyString = s.
Proof. induction s as [|c s IH]; [reflexivity |]. rewrite append_cons, IH. reflexivity. Qed.

Lemma append_assoc (s t u : string) : (s +:+ t) +:+ u = s +:+ (t +:+ u).
Proof.
  induction s as [|c s IH]; [reflexivity |].
  rewrite !append_cons, IH. reflexivity.
Qed.

Lemma splitSlash_cons (s : string) : exists x xs, splitSlash s = x :: xs.
Proof.
  induction s as [|c s (x & xs & IH)]; simpl; [eauto |].
  destruct (Ascii.eqb c "/"); [eauto |]. rewrite IH. eauto.
Qed.

Lemma splitSlash_plain (s : string) :
  hasSlash s = false -> splitSlash s = [s].
Proof.
  induction s as [|c s IH]; simpl; [reflexivity |].
  destruct (Ascii.eqb c "/"); [discriminate |].
  intros Hs. rewrite (IH Hs). reflexivity.
Qed.

Lemma splitSlash_segments (s : string) :
  Forall (fun x => hasSlash x = false) (splitSlash s).
Proof.
  induction s as [|c s IH]; simpl; [repeat constructor |].
  destruct (Ascii.eqb c "/") eqn:E; [constructor; [reflexivity | exact IH] |].
  destruct (splitSlash s) as [|x xs]; [repeat constructor; simpl; rewrite E; reflexivity |].
  apply Forall_cons in IH as [Hx Hxs].
  constructor; [simpl; rewrite E, Hx; reflexivity | exact Hxs].
Qed.

Lemma splitSlash_append (x y : string) :
  hasSlash x = false ->
  splitSlash (x +:+ "/" +:+ y) = x :: splitSlash y.
Proof.
  induction x as [|c x IH]; [reflexivity |].
  intros Hx. cbn [hasSlash] in Hx. apply orb_false_iff in Hx as [E Hx].
  rewrite append_cons. cbn [splitSlash]. rewrite E, (IH Hx). reflexivity.
Qed.

Lemma joinSlash_cons (x y : string) (ys : list string) :
  joinSlash (x :: y :: ys) = x +:+ "/" +:+ joinSlash (y :: ys).
Proof. reflexivity. Qed.

Lemma joinSlash_splitSlash (s : string) : joinSlash (splitSlash s) = s.
Proof.
  induction s as [|c s IH]; [reflexivity |].
  cbn [splitSlash]. destruct (Ascii.eqb c "/") eqn:E.
  - apply Ascii.eqb_eq in E as ->.
    destruct (splitSlash_cons s) as (x & xs & Hs). rewrite Hs in *.
    rewrite joinSlash_cons, IH. reflexivity.
  - destruct (splitSlash s) as [|x xs]; [simpl in IH; subst; reflexivity |].
    destruct xs as [|y ys].
    + simpl in IH. subst. reflexivity.
    + rewrite joinSlash_cons in *. rewrite append_cons, IH. reflexivity.
Qed.

Lemma startsWith_at (c : ascii) (s : string) :
  startsWith (String c s) "@" = Ascii.eqb "@" c.
Proof.
  unfold startsWith. cbn [dropPrefix].
  destruct (Ascii.eqb "@" c); reflexivity.
Qed.

(** The first segment of a request starts with [@] when the request does. *)
Lemma first_segment_scoped (r x : string) (xs : list string) :
  splitSlash r = x :: xs -> startsWith x "@" = startsWith r "@".
Proof.
  destruct r as [|c r]; simpl.
  - intros [= <- <-]. reflexivity.
  - destruct (Ascii.eqb c "/") eqn:E.
    + intros [= <- <-]. apply Ascii.eqb_eq in E as ->. reflexivity.
    + destruct (splitSlash r) as [|y ys]; intros [= <- <-];
        rewrite !startsWith_at; reflexivity.
Qed.

(** X9: the package name of a request is a prefix of the request, and
    taking the package name of a package name changes nothing: for a
    scoped request it is the first two segments, otherwise the first. So
    the request is its package name, or the package name, a slash and more;
    the package name of a request that is not scoped holds no slash, that
    of a scoped one holds one slash at most. *)
Theorem package_name_idempotent (r : string) :
  rawRequestToPackageName (rawRequestToPackageName r)
    = rawRequestToPackageName r
  /\ (exists rest, r = rawRequestToPackageName r +:+ rest)
  /\ (r = rawRequestToPackageName r
      \/ exists rest, r = rawRequestToPackageName r +:+ "/" +:+ rest)
  /\ (if startsWith r "@"
      then (hasSlash r = false /\ rawRequestToPackageName r = r)
           \/ exists x y,
                hasSlash x = false /\ hasSlash y = false
                /\ rawRequestToPackageName r = x +:+ "/" +:+ y
      else hasSlash (rawRequestToPackageName r) = false).
Proof.
  unfold rawRequestToPackageName at 2 3 4 5 6 7 8 9.
  pose proof (splitSlash_segments r) as Hseg.
  pose proof (joinSlash_splitSlash r) as Hjoin.
  destruct (splitSlash r) as [|x xs] eqn:Hr;
    [destruct (splitSlash_cons r) as (x & xs & E); congruence |].
  pose proof (first_segment_scoped _ _ _ Hr) as Hfirst.
  apply Forall_cons in Hseg as [Hx Hxs].
  destruct (startsWith r "@") eqn:Hat.
  - destruct xs as [|y ys].
    + cbn [take joinSlash] in *. subst x. split; [| split; [| split]].
      * unfold rawRequestToPackageName. rewrite Hat.
        rewrite (splitSlash_plain _ Hx). reflexivity.
      * exists EmptyString. rewrite append_nil_r. reflexivity.
      * left. reflexivity.
      * left. split; [exact Hx | reflexivity].
    + apply Forall_cons in Hxs as [Hy Hys].
      change (take 2 (x :: y :: ys)) with [x; y].
      rewrite joinSlash_cons. cbn [joinSlash]. split; [| split; [| split]].
      * unfold rawRequestToPackageName.
        assert (Hs : startsWith (x +:+ "/" +:+ y) "@" = true).
        { destruct x as [|c x]; [discriminate |].
          rewrite append_cons, startsWith_at.
          rewrite startsWith_at in Hfirst. exact Hfirst. }
        rewrite Hs, (splitSlash_append _ _ Hx), (splitSlash_plain _ Hy).
        reflexivity.
      * destruct ys as [|z zs].
        -- exists EmptyString. rewrite append_nil_r. symmetry. exact Hjoin.
        -- exists ("/" +:+ joinSlash (z :: zs)). rewrite <- Hjoin.
           rewrite !joinSlash_cons, !append_assoc. reflexivity.
      * destruct ys as [|z zs].
        -- left. symmetry. exact Hjoin.
        -- right. exists (joinSlash (z :: zs)). rewrite <- Hjoin.
           rewrite !joinSlash_cons, !append_assoc. reflexivity.
      * right. exists x, y. auto.
  - change (default EmptyString (head (take 1 (x :: xs)))) with x.
    split; [| split; [| split]].
    + unfold rawRequestToPackageName. rewrite Hfirst.
      rewrite (splitSlash_plain _ Hx). reflexivity.
    + destruct xs as [|y ys].
      * exists EmptyString. rewrite append_nil_r. symmetry. exact Hjoin.
      * exists ("/" +:+ joinSlash (y :: ys)). rewrite <- Hjoin.
        rewrite joinSlash_cons. reflexivity.
    + destruct xs as [|y ys].
      * left. symmetry. exact Hjoin.
      * right. exists (joinSlash (y :: ys)). rewrite <- Hjoin.
        rewrite joinSlash_cons. reflexivity.
    + exact Hx.
Qed.
End PackageName.

(** ** The browser configuration *)

Section BrowserConfigFacts.
Import BrowserConfig.

(** X10: webpack loads chunks without a cross-origin attribute only when
    there is neither subresource integrity nor a cross-origin option other
    than [none]; with subresource integrity alone the attribute is
    [anonymous], and an option other than [none] is passed on as it is. *)
Theorem cross_origin_loading_cases (wco : WebpackConfigOptions) :
  (crossOriginLoading (getBrowserConfig wco) = None
   <-> subresourceIntegrity (buildOptions wco) = false
       /\ default "none" (crossOrigin (buildOptions wco)) = "none")
  /\ crossOriginLoading (getBrowserConfig wco) <> Some "none"
  /\ (subresourceIntegrity (buildOptions wco) = true
      /\ default "none" (crossOrigin (buildOptions wco)) = "none"
      <-> crossOriginLoading (getBrowserConfig wco) = Some "anonymous"
          /\ default "none" (crossOrigin (buildOptions wco)) <> "anonymous")
  /\ (default "none" (crossOrigin (buildOptions wco)) <> "none"
      <-> crossOriginLoading (getBrowserConfig wco)
          = Some (default "none" (crossOrigin (buildOptions wco)))).
Proof.
  destruct wco as [[co sri lic vc cc allowed sm] dl]. cbn.
  destruct (String.eqb_spec (default "none" co) "none") as [E | E];
    [rewrite E |]; destruct sri; cbn; intuition (try congruence; discriminate).
Qed.

(** X11: in differential-loading mode the source-map plugin, when there is
    one, hides the source-map comment whatever the [hidden] option says;
    there is such a plugin exactly when source maps for scripts or styles
    are asked for, and never more than one. *)
Theorem differential_loading_hides_source_maps (wco : WebpackConfigOptions) :
  differentialLoadingMode wco = true ->
  Forall (fun p => isSourceMapDevTool p = true -> hidesSourceMaps p = true)
    (plugins (getBrowserConfig wco))
  /\ length (List.filter isSourceMapDevTool (plugins (getBrowserConfig wco)))
     = (if scripts (sourceMap (buildOptions wco))
           || styles (sourceMap (buildOptions wco)) then 1 else 0).
Proof.
  destruct wco as [[co sri lic vc cc allowed [st sc hid]] dl]. cbn.
  intros ->.
  destruct sri, lic, (sc || st); cbn; split; try reflexivity;
    repeat constructor; discriminate.
Qed.

Lemma differential_loading_hides_source_maps_witness :
  Forall (fun p => isSourceMapDevTool p = true -> hidesSourceMaps p = true)
    (plugins (getBrowserConfig
       (mkWebpackConfigOptions
          (mkBuildOptions None true false true true None
             (mkSourceMap false true (Some false))) true)))
  /\ length (List.filter isSourceMapDevTool (plugins (getBrowserConfig
       (mkWebpackConfigOptions
          (mkBuildOptions None true false true true None
             (mkSourceMap false true (Some false))) true)))) = 1.
Proof.
  exact (differential_loading_hides_source_maps
           (mkWebpackConfigOptions
              (mkBuildOptions None true false true true None
                 (mkSourceMap false true (Some false))) true)
           eq_refl).
Defined.

Section AllowedByOptions.
Context `{NodePath}.

(** X12: whatever the options, the plugin that warns about CommonJS
    dependencies is the first plugin of the browser configuration, it is
    the only one of its kind, and it is made from
    [allowedCommonJsDependencies]: it never warns about a module whose
    request, or the package of whose request, is in that list, nor about
    [webpack/hot/dev-server]. *)
Theorem allowed_dependencies_reach_the_plugin (wco : WebpackConfigOptions) :
  exists rest,
    plugins (getBrowserConfig wco)
    = CommonJsUsageWarn
        (CommonJsUsageWarnPlugin.new
           (allowedCommonJsDependencies (buildOptions wco)))
      :: rest
    /\ Forall (fun p => forall q, p <> CommonJsUsageWarn q) rest
    /\ (forall (m : CommonJsUsageWarnPlugin.WebpackModule) (r : string),
          CommonJsUsageWarnPlugin.rawRequest m = Some r ->
          r ∈ default [] (allowedCommonJsDependencies (buildOptions wco))
          \/ CommonJsUsageWarnPlugin.rawRequestToPackageName r
             ∈ default [] (allowedCommonJsDependencies (buildOptions wco))
          \/ r = "webpack/hot/dev-server" ->
          CommonJsUsageWarnPlugin.warningOf
            (CommonJsUsageWarnPlugin.new
               (allowedCommonJsDependencies (buildOptions wco))) m
          = None).
Proof.
  destruct wco as [[co sri lic vc cc allowed [st sc hid]] dl].
  eexists. split; [reflexivity |]. split.
  - cbn. destruct sri, lic, (sc || st); cbn; repeat constructor;
      intros q; discriminate.
  - cbn [buildOptions allowedCommonJsDependencies].
    intros m r Hr Hin. apply (warningOf_skips_allowed _ m r Hr).
    cbn [CommonJsUsageWarnPlugin.new CommonJsUsageWarnPlugin.allowedDepedencies].
    destruct Hin as [Hin | [Hin | ->]]; [left | right | left]; set_solver.
Qed.
End AllowedByOptions.

End BrowserConfigFacts.

(** ** Externals of the server configuration *)

Section ServerConfigFacts.
Import ServerConfig.
Context `{NodePath}.
Variable require_resolve : string -> list string -> Exc string.

(** X13: [externalizePackages] answers with the request itself or with
    nothing: a request is external exactly when it is neither relative nor
    absolute and Node resolves it from the context; a failure to resolve
    is never passed on. *)
Theorem externalize_only_resolvable_packages (context0 request0 : string)
    (result : string) :
  externalizePackages require_resolve context0 request0 = External result
  <-> result = request0
      /\ startsWith request0 "." = false
      /\ path_isAbsolute request0 = false
      /\ exists file, require_resolve request0 [context0] = inr file.
Proof.
  unfold externalizePackages.
  destruct (startsWith request0 "."), (path_isAbsolute request0); cbn;
    try (split; [discriminate | intros (_ & ? & ? & _); discriminate]).
  destruct (require_resolve request0 [context0]) as [e | file].
  - split; [discriminate | intros (_ & _ & _ & file & [=])].
  - split.
    + intros [= <-]. repeat split. exists file. reflexivity.
    + intros (-> & _). reflexivity.
Qed.

(** X14: the function pushed on the externals under webpack 5 hands the
    request and the context over in the other order: what it may declare
    external is the context, resolved from the request, and for a context
    that is an absolute path, or starts with a dot, nothing is external. *)
Theorem webpack5_hook_looks_at_the_context (data : HookData) :
  (forall result,
     hook require_resolve data = External result ->
     result = context data
     /\ exists file, require_resolve (context data) [request data] = inr file)
  /\ (path_isAbsolute (context data) = true
      \/ startsWith (context data) "." = true ->
      hook require_resolve data = NotExternal).
Proof.
  unfold hook, externalizePackages. split.
  - intros result.
    destruct (startsWith (context data) "." || path_isAbsolute (context data));
      [discriminate |].
    destruct (require_resolve (context data) [request data]) as [e | file];
      [discriminate |].
    intros [= <-]. split; [reflexivity | exists file; reflexivity].
  - intros [-> | ->]; [rewrite orb_true_r |]; reflexivity.
Qed.

End ServerConfigFacts.

(** ** The category of the analytics plugin *)

(** Whether a character occurs in a string. *)
Fixpoint hasChar (sep : ascii) (s : string) : bool :=
match s with
| EmptyString => false
| String c s' => Ascii.eqb c sep || hasChar sep s'
end.

Section AnalyticsFacts.
Import AnalyticsConfig.

Lemma split_plain (sep : ascii) (s : string) :
  hasChar sep s = false -> split sep s = [s].
Proof.
  induction s as [|c s IH]; [reflexivity |].
  cbn [hasChar split]. intros Hs. apply orb_false_iff in Hs as [E Hs].
  rewrite E, (IH Hs). reflexivity.
Qed.

Lemma split_append (sep : ascii) (x y : string) :
  hasChar sep x = false ->
  split sep (x +:+ String sep y) = x :: split sep y.
Proof.
  induction x as [|c x IH].
  - intros _. change (EmptyString +:+ String sep y) with (String sep y).
    cbn [split]. rewrite Ascii.eqb_refl. reflexivity.
  - cbn [hasChar]. intros Hx. apply orb_false_iff in Hx as [E Hx].
    change (String c x +:+ String sep y) with (String c (x +:+ String sep y)).
    cbn [split]. rewrite E, (IH Hx). reflexivity.
Qed.

Lemma orElse_truthy (a : option string) (b : string) :
  b <> EmptyString -> orElse a b <> EmptyString.
Proof.
  intros Hb. destruct a as [s |]; [| exact Hb]. cbn.
  destruct (String.eqb_spec s ""); [exact Hb | assumption].
Qed.

(** X15: the category handed to the analytics plugin is never the empty
    string; it is [build] without a builder, and for a builder name of the
    form [package:name] with a non-empty name it is that name. Without
    analytics there is no plugin. *)
Theorem analytics_category (projectRoot0 : string) (enableIvy0 : bool)
    (builderName : option string) :
  Forall (fun p => category p <> EmptyString)
    (getAnalyticsConfig projectRoot0 enableIvy0 true builderName)
  /\ getAnalyticsConfig projectRoot0 enableIvy0 true None
     = [mkNgBuildAnalyticsPlugin projectRoot0 "build" enableIvy0]
  /\ (forall package name,
        hasChar ":" package = false -> hasChar ":" name = false ->
        name <> EmptyString ->
        getAnalyticsConfig projectRoot0 enableIvy0 true
          (Some (package +:+ ":" +:+ name))
        = [mkNgBuildAnalyticsPlugin projectRoot0 name enableIvy0])
  /\ getAnalyticsConfig projectRoot0 enableIvy0 false builderName = [].
Proof.
  repeat split.
  - unfold getAnalyticsConfig. repeat constructor. cbn [category].
    destruct builderName as [name |]; [| discriminate].
    apply orElse_truthy, orElse_truthy. discriminate.
  - intros package name Hpackage Hname Hne. unfold getAnalyticsConfig.
    change (package +:+ ":" +:+ name) with (package +:+ String ":" name).
    rewrite (split_append _ _ _ Hpackage), (split_plain _ _ Hname).
    cbn. destruct (String.eqb_spec name ""); [contradiction | reflexivity].
Qed.

End AnalyticsFacts.

(** ** The input host *)

Section InputHostFacts.
Import WebpackInputHost.
Variable getSystemPath : string -> string.
Variable statSync : string -> Result Stats.

(** X16: for a path the file system reports as missing (error code
    [ENOENT]) the host raises nothing: there is no stat, and the path
    neither exists nor is a file or a directory. *)
Theorem missing_path_is_not_an_error (path : string) (e : ErrnoException) :
  statSync (getSystemPath path) = inl e ->
  code e = Some "ENOENT" ->
  stat getSystemPath statSync path = inr None
  /\ exists_ getSystemPath statSync path = inr false
  /\ isFile getSystemPath statSync path = inr false
  /\ isDirectory getSystemPath statSync path = inr false.
Proof.
  intros Hstat Hcode. unfold exists_, isFile, isDirectory, stat.
  rewrite Hstat, Hcode. cbn. repeat split.
Qed.

(** X17: what is a file or a directory exists; and the three queries raise
    exactly the errors of the file system other than [ENOENT], unchanged. *)
Theorem host_queries_follow_stat (path : string) :
  (isFile getSystemPath statSync path = inr true
   \/ isDirectory getSystemPath statSync path = inr true ->
   exists_ getSystemPath statSync path = inr true)
  /\ (forall e,
        (statSync (getSystemPath path) = inl e /\ code e <> Some "ENOENT")
        <-> exists_ getSystemPath statSync path = inl e)
  /\ (forall e,
        exists_ getSystemPath statSync path = inl e
        <-> isFile getSystemPath statSync path = inl e)
  /\ (forall e,
        exists_ getSystemPath statSync path = inl e
        <-> isDirectory getSystemPath statSync path = inl e).
Proof.
  unfold exists_, isFile, isDirectory, stat.
  destruct (statSync (getSystemPath path)) as [e0 | s];
    [destruct (code e0) as [c |] eqn:Hc;
       [destruct (String.eqb_spec c "ENOENT") as [-> | Hne] |] |];
    naive_solver congruence.
Qed.

End InputHostFacts.

Section InputHostCases.
Import WebpackInputHost.

Lemma missing_path_witness :
  stat id (fun _ => inl (mkErrnoException (Some "ENOENT") "no such file"))
    "/src/main.ts" = inr None
  /\ exists_ id (fun _ => inl (mkErrnoException (Some "ENOENT") "no such file"))
       "/src/main.ts" = inr false
  /\ isFile id (fun _ => inl (mkErrnoException (Some "ENOENT") "no such file"))
       "/src/main.ts" = inr false
  /\ isDirectory id
       (fun _ => inl (mkErrnoException (Some "ENOENT") "no such file"))
       "/src/main.ts" = inr false.
Proof.
  exact (missing_path_is_not_an_error id
           (fun _ => inl (mkErrnoException (Some "ENOENT") "no such file"))
           "/src/main.ts" _ eq_refl eq_refl).
Defined.
End InputHostCases.

(** ** The texts of the warnings and of the errors *)

Section StatsTextFacts.
Import WebpackUtilsStats.
Variable ansiColors : Style -> string -> string.

Lemma append_empty (s t : string) :
  s +:+ t = EmptyString <-> s = EmptyString /\ t = EmptyString.
Proof.
  split.
  - destruct s; [intros Ht; split; [reflexivity | exact Ht] | discriminate].
  - intros [-> ->]. reflexivity.
Qed.

Lemma fold_text_empty {A} (f : A -> string) (l : list A) (acc : string) :
  fold_left (fun output x => output +:+ f x) l acc = EmptyString
  <-> acc = EmptyString /\ Forall (fun x => f x = EmptyString) l.
Proof.
  revert acc. induction l as [|x l IH]; intros acc; cbn [fold_left].
  - split; [intros ->; split; [reflexivity | constructor] | intros [-> _]; reflexivity].
  - rewrite IH, append_empty, Forall_cons. tauto.
Qed.

Lemma fold_app_concat {A} (ls : list (list A)) (acc : list A) :
  fold_left (fun a b => a ++ b) ls acc = acc ++ concat ls.
Proof.
  revert acc. induction ls as [|l ls IH]; intros acc; cbn [fold_left concat].
  - rewrite app_nil_r. reflexivity.
  - rewrite IH, app_assoc. reflexivity.
Qed.

Lemma nonempty_length {A} (l : list A) :
  negb (Nat.eqb (length l) 0) = true <-> l <> [].
Proof. destruct l; cbn; split; congruence. Qed.

Lemma existsb_nonempty {A B} (f : A -> list B) (cs : list A) :
  existsb (fun c => negb (Nat.eqb (length (f c)) 0)) cs = true
  <-> concat (map f cs) <> [].
Proof.
  induction cs as [|c cs IH]; cbn [existsb map concat].
  - split; [discriminate | congruence].
  - rewrite orb_true_iff, IH, nonempty_length.
    destruct (f c); cbn; split; try tauto; try congruence.
    intros _. left. discriminate.
Qed.

Lemma statsHasErrors_allErrors (json : Json) :
  statsHasErrors json = true <-> allErrors json <> [].
Proof.
  unfold statsHasErrors, allErrors.
  rewrite orb_true_iff, nonempty_length.
  destruct (children json) as [cs |].
  - rewrite existsb_nonempty, fold_app_concat. cbn [app].
    destruct (errors json), (concat (map child_errors cs)); cbn;
      split; try tauto; try congruence; intros _; left; discriminate.
  - rewrite app_nil_r. split; [intros [? | ?]; [assumption | discriminate] | tauto].
Qed.

Lemma passing_app (l1 l2 : list Entry) :
  passing (l1 ++ l2) = passing l1 ++ passing l2.
Proof. apply List.filter_app. Qed.

Lemma passing_concat (ls : list (list Entry)) :
  passing (concat ls) = concat (map passing ls).
Proof.
  induction ls as [|l ls IH]; [reflexivity |].
  cbn [concat map]. rewrite passing_app, IH. reflexivity.
Qed.

Lemma statsHasWarnings_allWarnings (json : Json) :
  statsHasWarnings json = true <-> passing (allWarnings json) <> [].
Proof.
  unfold statsHasWarnings, allWarnings.
  rewrite orb_true_iff, nonempty_length, passing_app.
  destruct (children json) as [cs |].
  - rewrite (existsb_nonempty (fun c => passing (child_warnings c))).
    rewrite fold_app_concat. cbn [app].
    rewrite passing_concat, map_map.
    destruct (passing (warnings json)),
      (concat (map (fun c => passing (child_warnings c)) cs)); cbn;
      split; try tauto; try congruence; intros _; left; discriminate.
  - cbn. rewrite app_nil_r.
    split; [intros [? | ?]; [assumption | discriminate] | tauto].
Qed.

Lemma nl_not_empty (s : string) : s +:+ nl +:+ nl <> EmptyString.
Proof. intros Hs. apply append_empty in Hs as [_ Hs]. discriminate. Qed.

(** ** The rows of the table of bundles *)

Lemma changedChunksStats_from (data : list BundleStats)
    (acc : list (string * string * string) * list (string * string * string)) :
  fold_left
    (fun acc d =>
       if initial d then (acc.1 ++ [stats d], acc.2)
       else (acc.1, acc.2 ++ [stats d]))
    data acc
  = (acc.1 ++ map stats (List.filter initial data),
     acc.2 ++ map stats (List.filter (fun d => negb (initial d)) data)).
Proof.
  revert acc. induction data as [|d data IH]; intros acc.
  - cbn. rewrite !app_nil_r. destruct acc. reflexivity.
  - cbn [fold_left List.filter]. rewrite IH.
    destruct (initial d); cbn [negb map fst snd];
      rewrite <- app_assoc; reflexivity.
Qed.

(** The table starts with the initial chunks under their header, then,
    after an empty row if both kinds are there, the lazy chunks under
    theirs. *)
Definition tableOf (colors : bool)
    (entry lazy : list (string * string * string)) : list (list string) :=
match entry, lazy with
| [], [] => []
| _ :: _, [] =>
    map (paint ansiColors colors Bold) ["Initial Chunk Files"; "Names"; "Size"]
    :: map row entry
| [], _ :: _ =>
    map (paint ansiColors colors Bold) ["Lazy Chunk Files"; "Names"; "Size"]
    :: map row lazy
| _ :: _, _ :: _ =>
    (map (paint ansiColors colors Bold) ["Initial Chunk Files"; "Names"; "Size"]
     :: map row entry)
    ++ [] :: map (paint ansiColors colors Bold)
               ["Lazy Chunk Files"; "Names"; "Size"]
    :: map row lazy
end.

(** X18: the table of bundles lists every bundle once, the initial chunks
    first and then the lazy ones, each kind in the order of the data and
    under its own header, with one empty row between the two kinds; it has
    no row at all exactly when there is no bundle. *)
Theorem build_table_rows (data : list BundleStats) (colors : bool) :
  bundleInfo ansiColors data colors
  = tableOf colors (map stats (List.filter initial data))
      (map stats (List.filter (fun d => negb (initial d)) data))
  /\ (bundleInfo ansiColors data colors = [] <-> data = [])
  /\ map stats data
     ≡ₚ map stats (List.filter initial data)
        ++ map stats (List.filter (fun d => negb (initial d)) data).
Proof.
  assert (Hrows : bundleInfo ansiColors data colors
                  = tableOf colors (map stats (List.filter initial data))
                      (map stats
                         (List.filter (fun d => negb (initial d)) data))).
  { unfold bundleInfo, changedChunksStats. rewrite changedChunksStats_from.
    cbn [fst snd app].
    destruct (map stats (List.filter initial data)),
      (map stats (List.filter (fun d => negb (initial d)) data));
      cbn; rewrite ?app_nil_r; reflexivity. }
  split; [exact Hrows |]. split.
  - rewrite Hrows. destruct data as [|d data]; [cbn; tauto |].
    split; [| discriminate]. cbn [List.filter].
    destruct (initial d); cbn [negb map];
      destruct (map stats (List.filter initial data)),
        (map stats (List.filter (fun d => negb (initial d)) data));
      discriminate.
  - clear Hrows. induction data as [|d data IH]; [reflexivity |].
    cbn [List.filter map]. destruct (initial d); cbn [negb map app].
    + constructor. exact IH.
    + rewrite <- Permutation_middle. constructor. exact IH.
Qed.
Section Painted.
(** A style never makes a text disappear. *)
Hypothesis styled :
  forall style x, x <> EmptyString -> ansiColors style x <> EmptyString.

Lemma paint_not_empty (colors : bool) (style : Style) (x : string) :
  x <> EmptyString -> paint ansiColors colors style x <> EmptyString.
Proof. intros Hx. unfold paint. destruct colors; [apply styled |]; exact Hx. Qed.

Lemma errorText_not_empty (colors : bool) (error : Entry) :
  errorText ansiColors colors error <> EmptyString.
Proof.
  destruct error as [s | d]; cbn [errorText].
  - apply paint_not_empty. discriminate.
  - intros Hd. apply append_empty in Hd as [_ Hd].
    apply append_empty in Hd as [_ Hd]. exact (nl_not_empty _ Hd).
Qed.

Lemma warningText_not_empty (colors : bool) (warning : Entry) :
  warningText ansiColors colors warning <> EmptyString
  <-> ERRONEOUS_WARNINGS_FILTER
        (match warning with inl s => s | inr d => message d end) = true.
Proof.
  destruct warning as [s | d]; cbn [warningText].
  - destruct (ERRONEOUS_WARNINGS_FILTER s); split; try congruence.
    intros _. apply paint_not_empty. discriminate.
  - destruct (ERRONEOUS_WARNINGS_FILTER (message d)); split; try congruence.
    intros _ Hd. apply append_empty in Hd as [_ Hd].
    apply append_empty in Hd as [_ Hd]. exact (nl_not_empty _ Hd).
Qed.

Lemma statsErrorsToString_empty (json : Json) (colors : bool) :
  statsErrorsToString ansiColors json colors = EmptyString
  <-> allErrors json = [].
Proof.
  unfold statsErrorsToString, truthy.
  destruct (String.eqb_spec
              (fold_left (fun output error =>
                            output +:+ errorText ansiColors colors error)
                 (allErrors json) EmptyString) "") as [E | E]; cbn [negb].
  - apply fold_text_empty in E as [_ E].
    destruct (allErrors json) as [|error rest]; [tauto |].
    apply Forall_cons in E as [E _].
    destruct (errorText_not_empty colors error E).
  - split; [discriminate |]. intros Hnil. rewrite Hnil in E.
    destruct E. reflexivity.
Qed.

Lemma statsWarningsToString_empty (json : Json) (colors : bool) :
  statsWarningsToString ansiColors json colors = EmptyString
  <-> Forall (fun warning =>
                ERRONEOUS_WARNINGS_FILTER
                  (match warning with inl s => s | inr d => message d end)
                = false)
        (allWarnings json).
Proof.
  unfold statsWarningsToString, truthy.
  destruct (String.eqb_spec
              (fold_left (fun output warning =>
                            output +:+ warningText ansiColors colors warning)
                 (allWarnings json) EmptyString) "") as [E | E]; cbn [negb].
  - apply fold_text_empty in E as [_ E]. split; [intros _ | reflexivity].
    eapply Forall_impl; [exact E |]. intros warning Hw. cbn beta in Hw.
    apply not_true_is_false. intros Hf.
    apply (warningText_not_empty colors) in Hf. contradiction.
  - split; [discriminate |]. intros Hall. destruct E.
    apply fold_text_empty. split; [reflexivity |].
    eapply Forall_impl; [exact Hall |]. intros warning Hw. cbn beta in Hw.
    destruct (String.eqb_spec (warningText ansiColors colors warning) "")
      as [Hempty | Hne]; [exact Hempty |].
    apply warningText_not_empty in Hne. congruence.
Qed.

(** Whether an entry is a string. *)
Definition isString (entry : Entry) : bool :=
match entry with
| inl _ => true
| inr _ => false
end.

(** X19: a text of warnings that is not empty implies [statsHasWarnings];
    when every warning is a string the two agree, so the logging callback
    then never logs an empty warning. *)
Theorem warning_text_needs_warnings (json : Json) (colors : bool) :
  (statsWarningsToString ansiColors json colors <> EmptyString ->
   statsHasWarnings json = true)
  /\ (Forall (fun warning => isString warning = true) (allWarnings json) ->
      (statsHasWarnings json = true
       <-> statsWarningsToString ansiColors json colors <> EmptyString)).
Proof.
  rewrite statsHasWarnings_allWarnings, statsWarningsToString_empty.
  unfold passing. split.
  - intros Htext Hnil. apply Htext.
    induction (allWarnings json) as [|warning rest IH]; [constructor |].
    cbn [List.filter] in Hnil.
    destruct warning as [s | d]; cbn [entryToString] in Hnil.
    + destruct (ERRONEOUS_WARNINGS_FILTER s) eqn:Hs; [discriminate |].
      constructor; [exact Hs | apply IH; [| exact Hnil]].
      intros Hrest. apply Htext. constructor; [exact Hs | exact Hrest].
    + discriminate.
  - intros Hstrings.
    induction (allWarnings json) as [|warning rest IH].
    + cbn [List.filter]. split; [intros Hn; destruct Hn; reflexivity |].
      intros Hn. destruct Hn. constructor.
    + apply Forall_cons in Hstrings as [Hs Hrest].
      destruct warning as [s | d]; [| discriminate].
      cbn [List.filter entryToString]. rewrite Forall_cons.
      destruct (ERRONEOUS_WARNINGS_FILTER s) eqn:Hf.
      * split; [intros _ [? _]; discriminate | discriminate].
      * rewrite (IH Hrest). tauto.
Qed.
Section LoggedErrors.
Variable statsToString : Json -> bool -> string.

(** X20: the text of the errors is empty exactly when the statistics have
    no error, their children included, so [statsHasErrors] holds exactly
    when there is a text to show; and the logging callback never logs an
    empty error. *)
Theorem error_text_iff_has_errors (json : Json) (colors : bool) :
  (statsHasErrors json = true
   <-> statsErrorsToString ansiColors json colors <> EmptyString)
  /\ (forall verbose stats0 text,
        LoggerError text
        ∈ createWebpackLoggingCallback ansiColors statsToString verbose
            stats0 colors ->
        text <> EmptyString).
Proof.
  split.
  - rewrite statsHasErrors_allErrors, statsErrorsToString_empty. tauto.
  - intros verbose stats0 text. unfold createWebpackLoggingCallback.
    rewrite !elem_of_app, list_elem_of_singleton.
    intros [[=] | [Hw | He]].
    + destruct (statsHasWarnings (toJson stats0));
        [apply list_elem_of_singleton in Hw; discriminate
        | apply elem_of_nil in Hw; contradiction].
    + destruct (statsHasErrors (toJson stats0)) eqn:Herr;
        [| apply elem_of_nil in He; contradiction].
      apply list_elem_of_singleton in He as [= ->].
      rewrite statsErrorsToString_empty.
      apply statsHasErrors_allErrors. exact Herr.
Qed.

End LoggedErrors.
End Painted.

Section LoggedWarnings.
Variable statsToString : Json -> bool -> string.

(** X21: when every warning is a diagnostic whose message one of the two
    expressions matches, and there is one at least, [statsHasWarnings]
    holds (it tests the diagnostic, not its message) while the text is
    empty: the logging callback logs the empty warning. *)
Theorem suppressed_diagnostics_log_an_empty_warning (verbose : bool)
    (stats0 : WebpackStats) (colors : bool) :
  allWarnings (toJson stats0) <> [] ->
  Forall (fun warning =>
            exists d, warning = inr d
                      /\ ERRONEOUS_WARNINGS_FILTER (message d) = false)
    (allWarnings (toJson stats0)) ->
  statsHasWarnings (toJson stats0) = true
  /\ statsWarningsToString ansiColors (toJson stats0) colors = EmptyString
  /\ LoggerWarn EmptyString
     ∈ createWebpackLoggingCallback ansiColors statsToString verbose stats0
         colors.
Proof.
  intros Hne Hall.
  assert (Hhas : statsHasWarnings (toJson stats0) = true).
  { apply statsHasWarnings_allWarnings. unfold passing.
    destruct (allWarnings (toJson stats0)) as [|warning rest];
      [congruence |].
    apply Forall_cons in Hall as [(d & -> & _) _]. discriminate. }
  assert (Htext : statsWarningsToString ansiColors (toJson stats0) colors
                  = EmptyString).
  { unfold statsWarningsToString.
    assert (Hfold : fold_left
                      (fun output warning =>
                         output +:+ warningText ansiColors colors warning)
                      (allWarnings (toJson stats0)) EmptyString
                    = EmptyString).
    { apply fold_text_empty. split; [reflexivity |].
      eapply Forall_impl; [exact Hall |].
      intros warning (d & -> & Hd). cbn [warningText]. rewrite Hd.
      reflexivity. }
    rewrite Hfold. reflexivity. }
  repeat split; [exact Hhas | exact Htext |].
  unfold createWebpackLoggingCallback. rewrite Hhas, Htext.
  apply elem_of_app. right. apply elem_of_app. left.
  apply list_elem_of_singleton. reflexivity.
Qed.

End LoggedWarnings.

End StatsTextFacts.

Section StatsTextCases.
Import WebpackUtilsStats.

Lemma error_text_witness :
  (statsHasErrors (mkJson [] [inl "broken"] None) = true
   <-> statsErrorsToString (fun _ x => x) (mkJson [] [inl "broken"] None) true
       <> EmptyString)
  /\ (forall verbose stats0 text,
        LoggerError text
        ∈ createWebpackLoggingCallback (fun _ x => x) (fun _ _ => EmptyString)
            verbose stats0 true ->
        text <> EmptyString).
Proof.
  exact (error_text_iff_has_errors (fun _ x => x) (fun _ _ Hx => Hx)
           (fun _ _ => EmptyString) (mkJson [] [inl "broken"] None) true).
Defined.

Lemma warning_text_witness :
  (statsWarningsToString (fun _ x => x)
     (mkJson [inl "unused import"] [] None) false <> EmptyString ->
   statsHasWarnings (mkJson [inl "unused import"] [] None) = true)
  /\ (Forall (fun warning => isString warning = true)
        (allWarnings (mkJson [inl "unused import"] [] None)) ->
      (statsHasWarnings (mkJson [inl "unused import"] [] None) = true
       <-> statsWarningsToString (fun _ x => x)
             (mkJson [inl "unused import"] [] None) false <> EmptyString)).
Proof.
  exact (warning_text_needs_warnings (fun _ x => x) (fun _ _ Hx => Hx)
           (mkJson [inl "unused import"] [] None) false).
Defined.

(** A build whose only warning is the deprecation of [System.import]. *)
Definition deprecation : WebpackStats :=
mkWebpackStats
  (mkJson
     [inr (mkWebpackDiagnostic
             "System.import() is deprecated and will be removed soon. Use import() instead."
             (Some "./node_modules/@angular/core/fesm2015/core.js") None
             (Some "29176:15-36"))]
     [] None)
  EmptyString.

Lemma suppressed_diagnostics_witness :
  statsHasWarnings (toJson deprecation) = true
  /\ statsWarningsToString (fun _ x => x) (toJson deprecation) true
     = EmptyString
  /\ LoggerWarn EmptyString
     ∈ createWebpackLoggingCallback (fun _ x => x) (fun _ _ => EmptyString)
         false deprecation true.
Proof.
  refine (suppressed_diagnostics_log_an_empty_warning (fun _ x => x)
            (fun _ _ => EmptyString) false deprecation true _ _).
  - discriminate.
  - repeat constructor. eexists. split; [reflexivity |].
    vm_compute. reflexivity.
Defined.
End StatsTextCases.

(** ** The further properties at concrete builds *)

Section FurtherCases.
#[local] Existing Instance Demo.host.
Import Classifier.

(** [module_and_nomodule_files] at a build with both polyfill bundles. *)
Lemma module_and_nomodule_files_witness :
  exists st,
    classify (Demo.options false) "dist"
      (Demo.diskOf ["polyfills-es5-es2015.js"; "polyfills-es2015.js";
                    "main-es2015.js"])
      [Demo.script "1" "polyfills-es5" "polyfills-es5-es2015.js";
       Demo.script "2" "polyfills" "polyfills-es2015.js";
       Demo.script "3" "main" "main-es2015.js"] = inr st
    /\ map EmittedFiles.file (moduleFiles st)
       = ["polyfills-es2015.js"; "main-es2015.js"]
    /\ map EmittedFiles.file (noModuleFiles st)
       = ["polyfills-es5.js"; "main-es5.js"].
Proof.
  destruct (classify (Demo.options false) "dist"
              (Demo.diskOf ["polyfills-es5-es2015.js"; "polyfills-es2015.js";
                            "main-es2015.js"])
              [Demo.script "1" "polyfills-es5" "polyfills-es5-es2015.js";
               Demo.script "2" "polyfills" "polyfills-es2015.js";
               Demo.script "3" "main" "main-es2015.js"])
    as [e | st] eqn:Hrun; [vm_compute in Hrun; discriminate |].
  exists st. split; [reflexivity |].
  destruct (module_and_nomodule_files (Demo.options false) "dist" _ _ _ Hrun)
    as (-> & -> & _).
  split; vm_compute; reflexivity.
Defined.

(** [only_legacy_polyfills_deleted] at the same build: the legacy
    polyfill is gone, the main bundle is still there. *)
Lemma only_legacy_polyfills_deleted_witness :
  exists st,
    classify (Demo.options false) "dist"
      (Demo.diskOf ["polyfills-es5-es2015.js"; "polyfills-es2015.js";
                    "main-es2015.js"])
      [Demo.script "1" "polyfills-es5" "polyfills-es5-es2015.js";
       Demo.script "2" "polyfills" "polyfills-es2015.js";
       Demo.script "3" "main" "main-es2015.js"] = inr st
    /\ disk st !! "dist/main-es2015.js" = Some "main-es2015.js"
    /\ disk st !! "dist/polyfills-es5-es2015.js" = None.
Proof.
  destruct (classify (Demo.options false) "dist"
              (Demo.diskOf ["polyfills-es5-es2015.js"; "polyfills-es2015.js";
                            "main-es2015.js"])
              [Demo.script "1" "polyfills-es5" "polyfills-es5-es2015.js";
               Demo.script "2" "polyfills" "polyfills-es2015.js";
               Demo.script "3" "main" "main-es2015.js"])
    as [e | st] eqn:Hrun; [vm_compute in Hrun; discriminate |].
  exists st. split; [reflexivity |].
  destruct (only_legacy_polyfills_deleted (Demo.options false) "dist" _ _ _
              Hrun) as (_ & Hkept & Hgone).
  assert (Hscripts :
            scriptsOf (Schema.scriptsEntryPointName (Demo.options false))
              [Demo.script "1" "polyfills-es5" "polyfills-es5-es2015.js";
               Demo.script "2" "polyfills" "polyfills-es2015.js";
               Demo.script "3" "main" "main-es2015.js"]
            = [Demo.script "1" "polyfills-es5" "polyfills-es5-es2015.js";
               Demo.script "2" "polyfills" "polyfills-es2015.js";
               Demo.script "3" "main" "main-es2015.js"])
    by (vm_compute; reflexivity).
  rewrite Hscripts in Hgone. split.
  - rewrite (Hkept "dist/main-es2015.js"); [vm_compute; reflexivity |].
    rewrite Hscripts.
    repeat (apply Forall_cons; split); [| | | constructor];
      intros Hl; vm_compute in Hl; try discriminate Hl;
      split; intros Heq; vm_compute in Heq; discriminate Heq.
  - apply Forall_cons in Hgone as [Hgone _]. exact (Hgone eq_refl).
Defined.

(** A pool whose transform jobs fail. *)
Definition failing : World :=
Demo.withRun (fun _ => inl (JsError "Unexpected token")).

(** An action for the main bundle. *)
Definition mainAction : ProcessBundleOptions.t :=
ProcessBundleOptions.mk "dist/main-es2015.js" "" None (Some "3") false
  true false false false None false false None None None.

(** [transform_failure_ends_stage] at a build whose only transform job
    fails. *)
Lemma transform_failure_witness :
  Builder.executeActions failing (Demo.options false) "dist" "dist" true
    None (Some "3") [mainAction]
  = ([NewExecutor;
      SpinnerStart (Some "Generating ES5 bundles for differential loading...");
      ProcessAll [mainAction]; Stop],
     Throw (JsError "Unexpected token")).
Proof.
  exact (transform_failure_ends_stage failing (Demo.options false) "dist"
           "dist" true None (Some "3") [mainAction]
           (JsError "Unexpected token") eq_refl).
Defined.

(** [processed_files_are_ignored] at the result of a main bundle. *)
Lemma processed_files_witness :
  exists built,
    Builder.buildInlineActions Demo.world (Demo.options false) "dist"
      (Some "3") [Demo.mainResult] ([], []) = inr built
    /\ NoDup (snd built)
    /\ copies (trace (Builder.inlineTranslations Demo.world
                        (Demo.options false) "dist" "dist" (Some "3")
                        [Demo.mainResult]))
       = [["main-es2015.js"; "main-es5.js"]].
Proof.
  destruct (Builder.buildInlineActions Demo.world (Demo.options false) "dist"
              (Some "3") [Demo.mainResult] ([], []))
    as [e | built] eqn:Hbuilt; [vm_compute in Hbuilt; discriminate |].
  exists built. split; [reflexivity |].
  destruct (processed_files_are_ignored Demo.world (Demo.options false)
              "dist" "dist" _ _ _ Hbuilt) as (Hnd & _ & Hcopy).
  split; [exact Hnd |].
  vm_compute in Hbuilt. injection Hbuilt as <-.
  rewrite Hcopy; [vm_compute; reflexivity | vm_compute; reflexivity].
Defined.
End FurtherCases.

Section FurtherPluginCases.
#[local] Existing Instance Demo.host.
Import CommonJsUsageWarnPlugin.

(** The entry point of an application and a CommonJS package it imports. *)
Definition entryModule : WebpackModule :=
mkModule (Some "main") None (Some "/app/src/main.ts") [] None.

Definition lodash : WebpackModule :=
mkModule None (Some "lodash") (Some "/app/node_modules/lodash/lodash.js")
  [mkDependency CommonJsRequireDependency None] (Some entryModule).

(** [module_warning_is_reported] at a rebuild that meets lodash again. *)
Lemma module_warning_witness :
  exists msg,
    warningOf (new None) lodash = Some msg
    /\ msg ∈ concat (snd (compilations (new None)
                            [([], [entryModule]);
                             ([], [entryModule; lodash]);
                             ([], [entryModule; lodash])])).
Proof.
  destruct (warningOf (new None) lodash) as [msg |] eqn:Hmsg;
    [| vm_compute in Hmsg; discriminate].
  exists msg. split; [reflexivity |].
  refine (module_warning_is_reported None _ [] [entryModule; lodash] lodash
            msg _ _ Hmsg).
  - apply list_elem_of_further, list_elem_of_here.
  - apply list_elem_of_further, list_elem_of_here.
Defined.

(** [allowed_dependency_never_warns] at lodash, once it is allowed. *)
Lemma allowed_dependency_witness :
  warningOf (new (Some ["lodash"])) lodash = None.
Proof.
  refine (allowed_dependency_never_warns ["lodash"] lodash "lodash" eq_refl _).
  left. apply list_elem_of_here.
Defined.

(** [allowed_dependencies_reach_the_plugin] at a deep import of an allowed
    package. *)
Lemma allowed_by_options_witness :
  exists rest,
    BrowserConfig.plugins
      (BrowserConfig.getBrowserConfig
         (BrowserConfig.mkWebpackConfigOptions
            (BrowserConfig.mkBuildOptions None true false true true
               (Some ["lodash"])
               (BrowserConfig.mkSourceMap false true None)) true))
    = BrowserConfig.CommonJsUsageWarn (new (Some ["lodash"])) :: rest
    /\ Forall (fun p => forall q, p <> BrowserConfig.CommonJsUsageWarn q) rest
    /\ warningOf (new (Some ["lodash"]))
         (mkModule None (Some "lodash/isEmpty")
            (Some "/app/node_modules/lodash/isEmpty.js")
            [mkDependency CommonJsRequireDependency None] (Some entryModule))
       = None.
Proof.
  destruct (allowed_dependencies_reach_the_plugin
              (BrowserConfig.mkWebpackConfigOptions
                 (BrowserConfig.mkBuildOptions None true false true true
                    (Some ["lodash"])
                    (BrowserConfig.mkSourceMap false true None)) true))
    as (rest & Hplugins & Honly & Hallowed).
  exists rest. split; [exact Hplugins |]. split; [exact Honly |].
  refine (Hallowed
            (mkModule None (Some "lodash/isEmpty")
               (Some "/app/node_modules/lodash/isEmpty.js")
               [mkDependency CommonJsRequireDependency None]
               (Some entryModule))
            "lodash/isEmpty" eq_refl _).
  right. left. vm_compute. apply list_elem_of_here.
Defined.

(** The default configuration, without a list of allowed dependencies:
    the plugin is there and lets [webpack/hot/dev-server] pass. *)
Example default_configuration_has_the_plugin :
  exists rest,
    BrowserConfig.plugins
      (BrowserConfig.getBrowserConfig
         (BrowserConfig.mkWebpackConfigOptions
            (BrowserConfig.mkBuildOptions None false false true true None
               (BrowserConfig.mkSourceMap false false None)) false))
    = BrowserConfig.CommonJsUsageWarn (new None) :: rest
    /\ rest = []
    /\ warningOf (new None)
         (mkModule None (Some "webpack/hot/dev-server")
            (Some "/app/node_modules/webpack/hot/dev-server.js")
            [mkDependency CommonJsRequireDependency None] (Some entryModule))
       = None.
Proof. eexists. repeat split. Qed.
End FurtherPluginCases.

(** ** The callback for a build event *)

Section CallbackBlocks.
Import Callback.
Context {A B : Type}.

Lemma bindB_normal (m : Block A) (f : A -> Block B) (a : A) :
  snd m = Normal a -> m ≫= f = (fst m ++ fst (f a), snd (f a)).
Proof. intros Hm. unfold mbind, Block_bind. rewrite Hm. reflexivity. Qed.

Lemma bindB_return (m : Block A) (f : A -> Block B) (r : BuilderOutput.t) :
  snd m = Return r -> m ≫= f = (fst m, Return r).
Proof. intros Hm. unfold mbind, Block_bind. rewrite Hm. reflexivity. Qed.

Lemma bindB_throw (m : Block A) (f : A -> Block B) (e : JsValue) :
  snd m = Throw e -> m ≫= f = (fst m, Throw e).
Proof. intros Hm. unfold mbind, Block_bind. rewrite Hm. reflexivity. Qed.
End CallbackBlocks.

Section CallbackReaders.
Import Callback.

Lemma indexed_app (tr1 tr2 : list Call) :
  indexed (tr1 ++ tr2) = indexed tr1 ++ indexed tr2.
Proof.
  induction tr1 as [|[] tr1 IH]; cbn [app indexed]; rewrite ?IH; reflexivity.
Qed.

Lemma indexArguments_app (tr1 tr2 : list Call) :
  indexArguments (tr1 ++ tr2) = indexArguments tr1 ++ indexArguments tr2.
Proof.
  induction tr1 as [|[] tr1 IH]; cbn [app indexArguments]; rewrite ?IH;
    reflexivity.
Qed.

Lemma indexed_branch (tr : list Event) : indexed (map Branch tr) = [].
Proof. induction tr as [|e tr IH]; [reflexivity | exact IH]. Qed.

Lemma indexArguments_branch (tr : list Event) :
  indexArguments (map Branch tr) = [].
Proof. induction tr as [|e tr IH]; [reflexivity | exact IH]. Qed.
End CallbackReaders.

Section CallbackLoop.
Import Callback.
Variable c : Collaborators.
Variable options : Options.
Variable i18n : I18nOptions.

(** The calls an iteration of the loop may make. *)
Definition indexCall (indexFiles : IndexFiles) (entry : string * string)
    (call0 : Call) : Prop :=
call0 = GenerateIndex (snd entry) (files indexFiles)
          (noModuleFiles indexFiles) (moduleFiles indexFiles)
          (orOption (Some (fst entry)) (i18nLocale options))
          (orOption (localeBaseHref c options i18n (fst entry))
             (baseHref options))
\/ call0 = AugmentAppWithServiceWorker (snd entry)
             (orString (orOption (localeBaseHref c options i18n (fst entry))
                          (baseHref options)) "/").

Lemma indexFiles_eta (indexFiles : IndexFiles) :
  mkIndexFiles (files indexFiles) (noModuleFiles indexFiles)
    (moduleFiles indexFiles) = indexFiles.
Proof. destruct indexFiles. reflexivity. Qed.

(** One iteration: it ends as the two calls do, an error becoming the
    output of the build. *)
Lemma writeIndex_spec (indexFiles : IndexFiles) (entry : string * string) :
  snd (writeIndex c options i18n indexFiles entry)
  = match written c options i18n indexFiles entry with
    | inr _ => Normal tt
    | inl err => Return (BuilderOutput.mk false (mapErrorToMessage err))
    end
  /\ indexed (fst (writeIndex c options i18n indexFiles entry))
     = (if index options then [snd entry] else [])
  /\ indexArguments (fst (writeIndex c options i18n indexFiles entry))
     = (if index options then [indexFiles] else [])
  /\ Forall (indexCall indexFiles entry)
       (fst (writeIndex c options i18n indexFiles entry)).
Proof.
  unfold writeIndex, written, indexCall. cbv zeta.
  destruct indexFiles as [files0 noModuleFiles0 moduleFiles0].
  cbn [files noModuleFiles moduleFiles].
  destruct (index options), (serviceWorker options);
    cbn [mbind Block_bind Exc_bind mret Block_ret call liftB fst snd app];
    repeat match goal with
      | |- context [generateIndex c ?a ?b ?d ?e ?f ?g] =>
          destruct (generateIndex c a b d e f g) as [? | []]
      | |- context [augmentAppWithServiceWorker c ?a ?b] =>
          destruct (augmentAppWithServiceWorker c a b) as [? | []]
      end;
    cbn; repeat split; try reflexivity;
    repeat (apply List.Forall_cons || apply List.Forall_nil);
    first [left; reflexivity | right; reflexivity].
Qed.
End CallbackLoop.

Section CallbackFinish.
Import Callback.
Variable c : Collaborators.
Variable options : Options.
Variable i18n : I18nOptions.
Variable outputPaths : list (string * string).

(** The loop when every iteration succeeds. *)
Lemma writeIndexes_ok (indexFiles : IndexFiles)
    (entries : list (string * string)) :
  Forall (fun entry => exists u, written c options i18n indexFiles entry = inr u)
    entries ->
  snd (writeIndexes c options i18n indexFiles entries) = Normal tt
  /\ indexed (fst (writeIndexes c options i18n indexFiles entries))
     = (if index options then map snd entries else [])
  /\ indexArguments (fst (writeIndexes c options i18n indexFiles entries))
     = (if index options then map (fun _ => indexFiles) entries else [])
  /\ Forall (fun call0 =>
               exists entry,
                 entry ∈ entries /\ indexCall c options i18n indexFiles entry call0)
       (fst (writeIndexes c options i18n indexFiles entries)).
Proof.
  induction entries as [|entry rest IH]; intros Hok.
  - cbn. destruct (index options); repeat split; constructor.
  - apply Forall_cons in Hok as [[u Hentry] Hrest].
    destruct (IH Hrest) as (Hend & Hidx & Hargs & Hcalls).
    destruct (writeIndex_spec c options i18n indexFiles entry)
      as (Hend1 & Hidx1 & Hargs1 & Hcalls1).
    rewrite Hentry in Hend1. cbn [writeIndexes].
    rewrite (bindB_normal _ _ tt Hend1). cbn [fst snd].
    rewrite indexed_app, indexArguments_app, Hidx, Hidx1, Hargs, Hargs1.
    split; [exact Hend |].
    split; [destruct (index options); reflexivity |].
    split; [destruct (index options); reflexivity |].
    apply Forall_app. split.
    + eapply Forall_impl; [exact Hcalls1 |]. intros call0 Hcall.
      exists entry. split; [apply list_elem_of_here | exact Hcall].
    + eapply Forall_impl; [exact Hcalls |]. intros call0 (e & He & Hcall).
      exists e. split; [apply list_elem_of_further, He | exact Hcall].
Qed.

(** The loop when an iteration fails: the iterations before it are the
    only ones that run. *)
Lemma writeIndexes_failed (indexFiles : IndexFiles)
    (pre : list (string * string)) (entry : string * string)
    (post : list (string * string)) (err : JsValue) :
  Forall (fun entry => exists u, written c options i18n indexFiles entry = inr u)
    pre ->
  written c options i18n indexFiles entry = inl err ->
  snd (writeIndexes c options i18n indexFiles (pre ++ entry :: post))
  = Return (BuilderOutput.mk false (mapErrorToMessage err))
  /\ indexed (fst (writeIndexes c options i18n indexFiles
                     (pre ++ entry :: post)))
     = (if index options then map snd (pre ++ [entry]) else [])
  /\ indexArguments (fst (writeIndexes c options i18n indexFiles
                            (pre ++ entry :: post)))
     = (if index options then map (fun _ => indexFiles) (pre ++ [entry])
        else [])
  /\ Forall (fun call0 =>
               exists e,
                 e ∈ pre ++ [entry] /\ indexCall c options i18n indexFiles e call0)
       (fst (writeIndexes c options i18n indexFiles (pre ++ entry :: post))).
Proof.
  intros Hpre Herr. induction pre as [|first pre IH].
  - destruct (writeIndex_spec c options i18n indexFiles entry)
      as (Hend1 & Hidx1 & Hargs1 & Hcalls1).
    rewrite Herr in Hend1. cbn [app writeIndexes].
    rewrite (bindB_return _ _ _ Hend1). cbn [fst snd map].
    rewrite Hidx1, Hargs1. repeat split; try reflexivity.
    eapply Forall_impl; [exact Hcalls1 |]. intros call0 Hcall.
    exists entry. split; [apply list_elem_of_here | exact Hcall].
  - apply Forall_cons in Hpre as [[u Hfirst] Hpre].
    destruct (IH Hpre) as (Hend & Hidx & Hargs & Hcalls).
    destruct (writeIndex_spec c options i18n indexFiles first)
      as (Hend1 & Hidx1 & Hargs1 & Hcalls1).
    rewrite Hfirst in Hend1. cbn [app writeIndexes].
    rewrite (bindB_normal _ _ tt Hend1). cbn [fst snd].
    rewrite indexed_app, indexArguments_app, Hidx, Hidx1, Hargs, Hargs1.
    split; [exact Hend |].
    split; [destruct (index options); reflexivity |].
    split; [destruct (index options); reflexivity |].
    apply Forall_app. split.
    + eapply Forall_impl; [exact Hcalls1 |]. intros call0 Hcall.
      exists first. split; [apply list_elem_of_here | exact Hcall].
    + eapply Forall_impl; [exact Hcalls |]. intros call0 (e & He & Hcall).
      exists e. split; [apply list_elem_of_further, He | exact Hcall].
Qed.

(** Every iteration succeeds, or there is a first one that fails. *)
Lemma first_failure (indexFiles : IndexFiles)
    (entries : list (string * string)) :
  Forall (fun entry => exists u, written c options i18n indexFiles entry = inr u)
    entries
  \/ exists pre entry post err,
       entries = pre ++ entry :: post
       /\ Forall (fun entry =>
                    exists u, written c options i18n indexFiles entry = inr u)
            pre
       /\ written c options i18n indexFiles entry = inl err.
Proof.
  induction entries as [|entry rest IH]; [left; constructor |].
  destruct (written c options i18n indexFiles entry) as [err | u] eqn:Hentry.
  - right. exists [], entry, rest, err. repeat split; [constructor | exact Hentry].
  - destruct IH as [Hok | (pre & e & post & err & -> & Hpre & Herr)].
    + left. constructor; [exists u; exact Hentry | exact Hok].
    + right. exists (entry :: pre), e, post, err.
      repeat split; [| exact Herr].
      constructor; [exists u; exact Hentry | exact Hpre].
Qed.

(** What the copy of the assets comes to. *)
Definition copied : Exc unit :=
if negb (watch options) && assets options
then copyAssetPatterns c (map snd outputPaths)
else inr tt.

Lemma copyAssetsStep_spec :
  fst (copyAssetsStep c options outputPaths)
  = (if negb (watch options) && assets options
     then [CopyAssetPatterns (map snd outputPaths)] else [])
  /\ snd (copyAssetsStep c options outputPaths)
     = match copied with
       | inr _ => Normal tt
       | inl err =>
           match messageOf err with
           | inr message =>
               Return (BuilderOutput.mk false
                         (Some ("Unable to copy assets: " +:+ message)))
           | inl e => Throw e
           end
       end.
Proof.
  unfold copyAssetsStep, copied.
  destruct (negb (watch options) && assets options); [| split; reflexivity].
  destruct (copyAssetPatterns c (map snd outputPaths)) as [err | []];
    [| split; reflexivity].
  cbn. destruct (messageOf err); split; reflexivity.
Qed.

(** X22: when the copy of the assets fails with an error that has a
    message, the build returns [success: false] with the error
    [Unable to copy assets: ] followed by that message, and no index file
    is generated and no service worker added, whatever the branch before
    it left. *)
Theorem asset_copy_failure_is_the_output (indexFiles : IndexFiles)
    (err : JsValue) (message : string) :
  watch options = false ->
  assets options = true ->
  copyAssetPatterns c (map snd outputPaths) = inl err ->
  messageOf err = inr message ->
  finish c options i18n outputPaths indexFiles
  = ([CopyAssetPatterns (map snd outputPaths)],
     Return (BuilderOutput.mk false
               (Some ("Unable to copy assets: " +:+ message)))).
Proof.
  intros Hwatch Hassets Hcopy Hmessage. unfold finish.
  destruct copyAssetsStep_spec as [Htr Hend].
  unfold copied in Hend.
  rewrite Hwatch, Hassets in Htr, Hend. cbn [negb andb] in Htr, Hend.
  rewrite Hcopy, Hmessage in Hend.
  rewrite (bindB_return _ _ _ Hend), Htr. reflexivity.
Qed.

(** X23: when the assets are copied and the two calls for an output path
    fail after those for the paths before it succeeded, the build returns
    [success: false] with the message of the error (none when what was
    thrown is neither an error nor a string); an index was asked for the
    paths up to that one, in the order of the output paths, and for none
    after it. *)
Theorem index_failure_stops_the_loop (indexFiles : IndexFiles)
    (pre : list (string * string)) (entry : string * string)
    (post : list (string * string)) (err : JsValue) :
  outputPaths = pre ++ entry :: post ->
  (exists u, copied = inr u) ->
  Forall (fun entry => exists u, written c options i18n indexFiles entry = inr u)
    pre ->
  written c options i18n indexFiles entry = inl err ->
  snd (finish c options i18n outputPaths indexFiles)
  = Return (BuilderOutput.mk false (mapErrorToMessage err))
  /\ indexed (fst (finish c options i18n outputPaths indexFiles))
     = (if index options then map snd (pre ++ [entry]) else []).
Proof.
  intros Hpaths [u Hcopied] Hpre Herr. unfold finish.
  destruct copyAssetsStep_spec as [Htr Hend]. rewrite Hcopied in Hend.
  rewrite (bindB_normal _ _ tt Hend). cbn [fst snd].
  rewrite indexed_app, Htr.
  destruct (writeIndexes_failed indexFiles pre entry post err Hpre Herr)
    as (Hend' & Hidx & _).
  rewrite Hpaths. rewrite Hend', Hidx.
  split; [reflexivity |].
  destruct (negb (watch options) && assets options); reflexivity.
Qed.
End CallbackFinish.

(** A block of the branch whose early returns all report a failure. *)
Definition failsOnly {A} (m : M A) : Prop :=
forall r, completion m = Return r -> BuilderOutput.success r = false.

Section FailsOnly.
Context {A B : Type}.

Lemma failsOnly_ret (a : A) : failsOnly (mret a).
Proof. intros r [=]. Qed.

Lemma failsOnly_emit (e : Event) : failsOnly (emit e).
Proof. intros r [=]. Qed.

Lemma failsOnly_throwM (e : JsValue) : failsOnly (throwM e : M A).
Proof. intros r [=]. Qed.

Lemma failsOnly_liftExc (x : Exc A) : failsOnly (liftExc x).
Proof. destruct x; intros r [=]. Qed.

Lemma failsOnly_returnWith (error : option string) :
  failsOnly (returnWith (BuilderOutput.mk false error) : M A).
Proof. intros r [= <-]. reflexivity. Qed.

Lemma failsOnly_bind (m : M A) (f : A -> M B) :
  failsOnly m -> (forall a, failsOnly (f a)) -> failsOnly (m ≫= f).
Proof.
  unfold failsOnly. intros Hm Hf r. rewrite completion_bind.
  destruct (completion m) as [a | r' | e] eqn:Hc.
  - apply Hf.
  - intros [= <-]. apply Hm. reflexivity.
  - discriminate.
Qed.

Lemma failsOnly_tryCatch (body : M A) (handler : JsValue -> M A) :
  failsOnly body -> (forall e, failsOnly (handler e)) ->
  failsOnly (tryCatch body handler).
Proof.
  unfold failsOnly, tryCatch, completion.
  destruct body as [tr [a | r' | e]]; cbn [fst snd]; intros Hb Hh r.
  - discriminate.
  - apply Hb.
  - apply Hh.
Qed.

Lemma failsOnly_tryFinally (body : M A) (fin : list Event) :
  failsOnly body -> failsOnly (tryFinally body fin).
Proof. unfold failsOnly, tryFinally, completion. cbn [snd]. auto. Qed.
End FailsOnly.

Ltac failsOnly_step :=
  first
    [ assumption
    | apply failsOnly_ret
    | apply failsOnly_emit
    | apply failsOnly_returnWith
    | apply failsOnly_throwM
    | apply failsOnly_liftExc
    | apply failsOnly_tryFinally
    | apply failsOnly_bind; [| intros ?]
    | apply failsOnly_tryCatch; [| intros ?]
    | match goal with
      | |- failsOnly (if ?b then _ else _) => destruct b
      | |- failsOnly (match ?x with _ => _ end) => destruct x
      end ].

Section BranchFailsOnly.
Context `{NodePath}.
Variable w : World.
Variable options : Schema.t.
Variables outputPath baseOutputPath : string.
Variable shouldInline : bool.

Lemma failsOnly_drawProcessed queue :
  forall processResults,
    failsOnly (Builder.drawProcessed w queue processResults).
Proof.
  induction queue as [|action queue IH]; intros processResults; simpl.
  - apply failsOnly_ret.
  - repeat failsOnly_step. apply IH.
Qed.

Lemma failsOnly_reportDiagnostics diagnostics :
  forall hasErrors,
    failsOnly (Builder.reportDiagnostics hasErrors diagnostics).
Proof.
  induction diagnostics as [|d diagnostics IH]; intros hasErrors; simpl.
  - apply failsOnly_ret.
  - repeat failsOnly_step; apply IH.
Qed.

Lemma failsOnly_drawInlined queue :
  forall hasErrors,
    failsOnly (Builder.drawInlined w options queue hasErrors).
Proof.
  induction queue as [|action queue IH]; intros hasErrors; simpl.
  - apply failsOnly_ret.
  - repeat failsOnly_step;
      first [apply failsOnly_reportDiagnostics | apply IH].
Qed.

(** Every [return] of the differential-loading branch reports a failure. *)
Lemma failsOnly_differentialLoading disk0 webpackStats emittedFiles :
  failsOnly (Builder.differentialLoading w options outputPath baseOutputPath
               shouldInline disk0 webpackStats emittedFiles).
Proof.
  unfold Builder.differentialLoading, Builder.executeActions,
    Builder.reportBudgets, Builder.processBundles,
    Builder.inlineTranslations, Builder.inlineAndCopy.
  cbv zeta.
  repeat failsOnly_step;
    first [apply failsOnly_drawProcessed | apply failsOnly_drawInlined].
Qed.

(** When the branch goes on, the classifier did not throw. *)
Lemma differentialLoading_classified disk0 webpackStats emittedFiles s :
  completion (Builder.differentialLoading w options outputPath baseOutputPath
                shouldInline disk0 webpackStats emittedFiles) = Normal s ->
  exists st,
    Classifier.classify options outputPath disk0 emittedFiles = inr st.
Proof.
  unfold Builder.differentialLoading. rewrite completion_bind.
  destruct (Classifier.classify options outputPath disk0 emittedFiles)
    as [e | st]; [discriminate | eauto].
Qed.
End BranchFailsOnly.

Section CallbackFacts.
Import Callback.
Context `{NodePath}.
Variable w : World.
Variable c : Collaborators.
Variable options : Options.
Variable i18n : I18nOptions.
Variable hasWarnings : Stats.t -> bool.
Variable hasErrors : Stats.t -> bool.
Variable isDifferentialLoadingNeeded : bool.
Variable es5 : bool.
Variable outputPath : string.
Variable baseOutputPath : string.
Variable outputPaths : list (string * string).
Variable disk0 : gmap string string.

#[local] Abbreviation callback :=
  (onBuildEvent w c options i18n hasWarnings hasErrors
     isDifferentialLoadingNeeded es5 outputPath baseOutputPath outputPaths
     disk0).
#[local] Abbreviation chosen :=
  (branch w c options i18n isDifferentialLoadingNeeded es5 outputPath
     baseOutputPath disk0).

(** A call of the loop over the output paths, or for the inlining of the
    emitted files. *)
Definition plainCall (call0 : Call) : Prop :=
isBranch call0 = false /\ isCopyAssetPatterns call0 = false.

Lemma writeIndexes_calls (indexFiles : IndexFiles)
    (entries : list (string * string)) :
  Forall plainCall (fst (writeIndexes c options i18n indexFiles entries)).
Proof.
  assert (Hplain : forall entry call0,
             indexCall c options i18n indexFiles entry call0 ->
             plainCall call0).
  { intros entry call0 [-> | ->]; split; reflexivity. }
  destruct (first_failure c options i18n indexFiles entries)
    as [Hok | (pre & entry & post & err & -> & Hpre & Herr)].
  - destruct (writeIndexes_ok c options i18n indexFiles entries Hok)
      as (_ & _ & _ & Hcalls).
    eapply Forall_impl; [exact Hcalls |].
    intros call0 (entry & _ & Hcall). exact (Hplain _ _ Hcall).
  - destruct (writeIndexes_failed c options i18n indexFiles pre entry post
                err Hpre Herr) as (_ & _ & _ & Hcalls).
    eapply Forall_impl; [exact Hcalls |].
    intros call0 (e & _ & Hcall). exact (Hplain _ _ Hcall).
Qed.

Lemma writeIndexes_arguments (indexFiles : IndexFiles)
    (entries : list (string * string)) :
  Forall (eq indexFiles)
    (indexArguments (fst (writeIndexes c options i18n indexFiles entries))).
Proof.
  destruct (first_failure c options i18n indexFiles entries)
    as [Hok | (pre & entry & post & err & -> & Hpre & Herr)].
  - destruct (writeIndexes_ok c options i18n indexFiles entries Hok)
      as (_ & _ & -> & _).
    destruct (index options); [| constructor].
    apply Forall_forall. intros a Ha.
    apply list_elem_of_fmap in Ha as (e & -> & _). reflexivity.
  - destruct (writeIndexes_failed c options i18n indexFiles pre entry post
                err Hpre Herr) as (_ & _ & -> & _).
    destruct (index options); [| constructor].
    apply Forall_forall. intros a Ha.
    apply list_elem_of_fmap in Ha as (e & -> & _). reflexivity.
Qed.

(** The end of the callback when it goes through. *)
Lemma finish_normal (indexFiles : IndexFiles) (u : unit) :
  snd (finish c options i18n outputPaths indexFiles) = Normal u ->
  (exists u', copied c options outputPaths = inr u')
  /\ Forall (fun entry =>
               exists u', written c options i18n indexFiles entry = inr u')
       outputPaths
  /\ indexed (fst (finish c options i18n outputPaths indexFiles))
     = (if index options then map snd outputPaths else []).
Proof.
  unfold finish.
  destruct (copyAssetsStep_spec c options outputPaths) as [Htr Hend].
  destruct (copied c options outputPaths) as [err | u'] eqn:Hcopied.
  - destruct (messageOf err).
    + rewrite (bindB_throw _ _ _ Hend). discriminate.
    + rewrite (bindB_return _ _ _ Hend). discriminate.
  - rewrite (bindB_normal _ _ tt Hend). cbn [fst snd].
    destruct (first_failure c options i18n indexFiles outputPaths)
      as [Hok | (pre & entry & post & err & Hpaths & Hpre & Herr)].
    + destruct (writeIndexes_ok c options i18n indexFiles outputPaths Hok)
        as (_ & Hidx & _).
      intros _. split; [eauto |]. split; [exact Hok |].
      rewrite indexed_app, Hidx, Htr.
      destruct (negb (watch options) && assets options); reflexivity.
    + destruct (writeIndexes_failed c options i18n indexFiles pre entry post
                  err Hpre Herr) as (Hend' & _).
      rewrite Hpaths, Hend'. discriminate.
Qed.

(** Every early [return] of the end of the callback reports a failure. *)
Lemma finish_return (indexFiles : IndexFiles) (r : BuilderOutput.t) :
  snd (finish c options i18n outputPaths indexFiles) = Return r ->
  BuilderOutput.success r = false.
Proof.
  unfold finish.
  destruct (copyAssetsStep_spec c options outputPaths) as [Htr Hend].
  destruct (copied c options outputPaths) as [err | u'] eqn:Hcopied.
  - destruct (messageOf err).
    + rewrite (bindB_throw _ _ _ Hend). discriminate.
    + rewrite (bindB_return _ _ _ Hend). intros [= <-]. reflexivity.
  - rewrite (bindB_normal _ _ tt Hend). cbn [fst snd].
    destruct (first_failure c options i18n indexFiles outputPaths)
      as [Hok | (pre & entry & post & err & Hpaths & Hpre & Herr)].
    + destruct (writeIndexes_ok c options i18n indexFiles outputPaths Hok)
        as (Hend' & _).
      rewrite Hend'. discriminate.
    + destruct (writeIndexes_failed c options i18n indexFiles pre entry post
                  err Hpre Herr) as (Hend' & _).
      rewrite Hpaths, Hend'. intros [= <-]. reflexivity.
Qed.

Lemma finish_calls (indexFiles : IndexFiles) :
  Forall (eq indexFiles)
    (indexArguments (fst (finish c options i18n outputPaths indexFiles)))
  /\ (watch options = true ->
      Forall plainCall (fst (finish c options i18n outputPaths indexFiles))).
Proof.
  unfold finish.
  destruct (copyAssetsStep_spec c options outputPaths) as [Htr Hend].
  destruct (snd (copyAssetsStep c options outputPaths)) as [[] | r | e] eqn:Hc.
  - rewrite (bindB_normal _ _ tt Hc). cbn [fst]. split.
    + rewrite indexArguments_app, Htr.
      destruct (negb (watch options) && assets options); cbn [indexArguments app];
        apply writeIndexes_arguments.
    + intros Hwatch. rewrite Htr, Hwatch. cbn [negb andb app].
      apply writeIndexes_calls.
  - rewrite (bindB_return _ _ _ Hc). cbn [fst]. rewrite Htr. split.
    + destruct (negb (watch options) && assets options); constructor.
    + intros ->. constructor.
  - rewrite (bindB_throw _ _ _ Hc). cbn [fst]. rewrite Htr. split.
    + destruct (negb (watch options) && assets options); constructor.
    + intros ->. constructor.
Qed.

(** The inlining of the emitted files. *)
Lemma inlineEmittedFiles_spec (emittedFiles0 : list EmittedFiles.t) :
  Forall plainCall (fst (inlineEmittedFiles c i18n es5 emittedFiles0))
  /\ indexed (fst (inlineEmittedFiles c i18n es5 emittedFiles0)) = []
  /\ indexArguments (fst (inlineEmittedFiles c i18n es5 emittedFiles0)) = []
  /\ (forall r,
        snd (inlineEmittedFiles c i18n es5 emittedFiles0) = Return r ->
        BuilderOutput.success r = false).
Proof.
  unfold inlineEmittedFiles.
  destruct (shouldInline i18n);
    [| repeat split; [constructor | discriminate]].
  destruct (i18nInlineEmittedFiles c emittedFiles0 es5) as [e | [|]]; cbn;
    repeat split; repeat constructor; try discriminate.
  intros r [= <-]. reflexivity.
Qed.
(** The lists each branch leaves for the index. *)
Definition indexFilesOf (emittedFiles0 : list EmittedFiles.t)
    (indexFiles : IndexFiles) : Prop :=
(isDifferentialLoadingNeeded = false
 /\ indexFiles
    = mkIndexFiles (Some (List.filter notLegacyPolyfills emittedFiles0))
        (Some (List.filter (fun x => negb (notLegacyPolyfills x))
                 emittedFiles0))
        None)
\/ (isDifferentialLoadingNeeded = true /\ watch options = true
    /\ indexFiles
       = mkIndexFiles
           (Some (List.filter (styleOrScriptsEntry options) emittedFiles0))
           None (Some emittedFiles0))
\/ (isDifferentialLoadingNeeded = true /\ watch options = false
    /\ exists st,
         Classifier.classify (schema options) outputPath disk0 emittedFiles0
         = inr st
         /\ indexFiles
            = mkIndexFiles (Classifier.files st)
                (Some (Classifier.noModuleFiles st))
                (Some (Classifier.moduleFiles st))).

Lemma branch_spec (webpackStats0 : Stats.t)
    (emittedFiles0 : list EmittedFiles.t) :
  indexed (fst (chosen webpackStats0 emittedFiles0)) = []
  /\ indexArguments (fst (chosen webpackStats0 emittedFiles0)) = []
  /\ (forall r,
        snd (chosen webpackStats0 emittedFiles0) = Return r ->
        BuilderOutput.success r = false)
  /\ (watch options = true ->
      Forall plainCall (fst (chosen webpackStats0 emittedFiles0)))
  /\ (forall indexFiles,
        snd (chosen webpackStats0 emittedFiles0) = Normal indexFiles ->
        indexFilesOf emittedFiles0 indexFiles).
Proof.
  unfold branch, indexFilesOf.
  destruct (inlineEmittedFiles_spec emittedFiles0)
    as (Hplain & Hidx & Hargs & Hret).
  destruct isDifferentialLoadingNeeded; cbn [andb];
    [destruct (watch options) eqn:Hwatch |].
  - unfold watchBranch. cbv zeta.
    destruct (snd (inlineEmittedFiles c i18n es5 emittedFiles0))
      as [[] | r | e] eqn:Hc;
      [rewrite (bindB_normal _ _ tt Hc)
      | rewrite (bindB_return _ _ _ Hc)
      | rewrite (bindB_throw _ _ _ Hc)];
      cbn [fst snd mret Block_ret]; rewrite ?app_nil_r, Hidx, Hargs;
      repeat split; try discriminate; auto;
      first [ solve [intros r0 [= <-]; exact (Hret _ eq_refl)]
            | intros indexFiles [= <-]; right; left; repeat split ].
  - unfold downlevelBranch.
    pose proof (failsOnly_differentialLoading w (schema options) outputPath
                  baseOutputPath (shouldInline i18n) disk0 webpackStats0
                  emittedFiles0) as Hfails.
    pose proof (differentialLoading_classified w (schema options) outputPath
                  baseOutputPath (shouldInline i18n) disk0 webpackStats0
                  emittedFiles0) as Hclassified.
    unfold failsOnly, completion in Hfails, Hclassified.
    destruct (Builder.differentialLoading w (schema options) outputPath
                baseOutputPath (shouldInline i18n) disk0 webpackStats0
                emittedFiles0) as [tr [s | r | e]];
      unfold mbind, Block_bind, ofBranch; cbn [fst snd] in *.
    + destruct (Hclassified s eq_refl) as [st ->].
      cbn [liftB mret Block_ret fst snd]. rewrite !app_nil_r.
      rewrite indexed_branch, indexArguments_branch.
      repeat split; try discriminate.
      intros indexFiles [= <-]. right. right. repeat split.
      exists st. split; reflexivity.
    + rewrite indexed_branch, indexArguments_branch.
      repeat split; try discriminate. intros r' [= <-]. apply Hfails.
      reflexivity.
    + rewrite indexed_branch, indexArguments_branch.
      repeat split; discriminate.
  - unfold plainBranch. cbv zeta.
    destruct (snd (inlineEmittedFiles c i18n es5 emittedFiles0))
      as [[] | r | e] eqn:Hc;
      [rewrite (bindB_normal _ _ tt Hc)
      | rewrite (bindB_return _ _ _ Hc)
      | rewrite (bindB_throw _ _ _ Hc)];
      cbn [fst snd mret Block_ret]; rewrite ?app_nil_r, Hidx, Hargs;
      repeat split; try discriminate; auto;
      first [ solve [intros r0 [= <-]; exact (Hret _ eq_refl)]
            | intros indexFiles [= <-]; left; repeat split ].
Qed.

(** X24: a build that webpack reports as failed is passed on as failed,
    with no error message of its own: nothing is classified, processed,
    inlined, copied or indexed. With bundle downleveling the warnings and
    then the errors of webpack are logged, when there are any; without it
    the callback makes no call at all. *)
Theorem failed_build_is_only_reported (buildEvent : BuildEvent)
    (webpackStats0 : Stats.t) :
  webpackStats buildEvent = Some webpackStats0 ->
  success buildEvent = false ->
  output (callback buildEvent) = Some (BuilderOutput.mk false None)
  /\ fst (callback buildEvent)
     = (if useBundleDownleveling options isDifferentialLoadingNeeded
        then (if hasWarnings webpackStats0
              then [Branch (LoggerWarn (statsWarningsToString w webpackStats0))]
              else [])
             ++ (if hasErrors webpackStats0
                 then [Branch (LoggerError
                                 (statsErrorsToString w webpackStats0))]
                 else [])
        else []).
Proof.
  intros Hstats Hsuccess. unfold onBuildEvent, output.
  rewrite Hstats, Hsuccess. cbn [negb andb].
  destruct (useBundleDownleveling options isDifferentialLoadingNeeded);
    [| split; reflexivity].
  unfold reportFailure.
  destruct (hasWarnings webpackStats0), (hasErrors webpackStats0);
    split; reflexivity.
Qed.

(** X25: the callback returns [success: true] only when webpack reported
    success, the branch of the build went through without an early
    return, the assets were copied without an error, and the index and
    the service worker were written for every output path; an index was
    then asked for each output path once, in order, when the options ask
    for one. *)
Theorem successful_output_needs_every_step (buildEvent : BuildEvent)
    (r : BuilderOutput.t) :
  output (callback buildEvent) = Some r ->
  BuilderOutput.success r = true ->
  r = BuilderOutput.mk true None
  /\ success buildEvent = true
  /\ exists webpackStats0 indexFiles,
       webpackStats buildEvent = Some webpackStats0
       /\ snd (chosen webpackStats0 (default [] (emittedFiles buildEvent)))
          = Normal indexFiles
       /\ (exists u, copied c options outputPaths = inr u)
       /\ Forall (fun entry =>
                    exists u, written c options i18n indexFiles entry = inr u)
            outputPaths
       /\ indexed (fst (callback buildEvent))
          = (if index options then map snd outputPaths else []).
Proof.
  unfold onBuildEvent, output.
  destruct (webpackStats buildEvent) as [webpackStats0 |]; [| discriminate].
  destruct (success buildEvent); cbn [negb andb].
  - destruct (branch_spec webpackStats0 (default [] (emittedFiles buildEvent)))
      as (Hidx & _ & Hret & _ & _).
    destruct (snd (chosen webpackStats0 (default [] (emittedFiles buildEvent))))
      as [indexFiles | r' | e] eqn:Hbranch.
    + rewrite (bindB_normal _ _ indexFiles Hbranch). cbn [fst snd].
      pose proof (finish_normal indexFiles) as Hnormal.
      pose proof (finish_return indexFiles) as Hreturn.
      destruct (snd (finish c options i18n outputPaths indexFiles))
        as [[] | r' | e] eqn:Hfinish.
      * rewrite (bindB_normal _ _ tt Hfinish). cbn [fst snd mret Block_ret].
        intros [= <-] _. destruct (Hnormal tt eq_refl) as (Hcopy & Hok & Hindexed).
        split; [reflexivity |]. split; [reflexivity |].
        exists webpackStats0, indexFiles.
        rewrite indexed_app, indexed_app, Hidx, Hindexed, app_nil_r.
        auto.
      * rewrite (bindB_return _ _ _ Hfinish). cbn [snd].
        intros [= <-] Hr. rewrite (Hreturn r' eq_refl) in Hr. discriminate.
      * rewrite (bindB_throw _ _ _ Hfinish). discriminate.
    + rewrite (bindB_return _ _ _ Hbranch). cbn [snd].
      intros [= <-] Hr. rewrite (Hret r' eq_refl) in Hr. discriminate.
    + rewrite (bindB_throw _ _ _ Hbranch). discriminate.
  - assert (Hfailed : forall m : Block unit,
               (exists tr, m = (tr, Normal tt)) ->
               forall r0,
                 match snd (m;; mret (BuilderOutput.mk false None)) with
                 | Normal r1 | Return r1 => Some r1
                 | Throw _ => None
                 end = Some r0 ->
                 BuilderOutput.success r0 = true -> False).
    { intros m [tr ->] r0. cbn. intros [= <-]. discriminate. }
    destruct (useBundleDownleveling options isDifferentialLoadingNeeded).
    + intros Hr Hs. exfalso. refine (Hfailed _ _ r Hr Hs).
      unfold reportFailure.
      destruct (hasWarnings webpackStats0), (hasErrors webpackStats0);
        eexists; reflexivity.
    + cbn. intros [= <-]. discriminate.
Qed.

(** X26: in watch mode the callback never enters the differential-loading
    branch and never copies the assets: it makes no call of that branch,
    logs nothing of its own, and calls only for the inlining of the
    emitted files, the index and the service worker. *)
Theorem watch_mode_never_downlevels (buildEvent : BuildEvent) :
  watch options = true ->
  Forall plainCall (fst (callback buildEvent)).
Proof.
  intros Hwatch. unfold onBuildEvent, useBundleDownleveling.
  rewrite Hwatch, andb_false_r.
  destruct (webpackStats buildEvent) as [webpackStats0 |]; [| constructor].
  cbn [negb andb].
  destruct (success buildEvent); [| constructor].
  destruct (branch_spec webpackStats0 (default [] (emittedFiles buildEvent)))
    as (_ & _ & _ & Hplain & _).
  specialize (Hplain Hwatch).
  destruct (snd (chosen webpackStats0 (default [] (emittedFiles buildEvent))))
    as [indexFiles | r' | e] eqn:Hbranch;
    [rewrite (bindB_normal _ _ indexFiles Hbranch)
    | rewrite (bindB_return _ _ _ Hbranch); exact Hplain
    | rewrite (bindB_throw _ _ _ Hbranch); exact Hplain].
  cbn [fst]. apply Forall_app. split; [exact Hplain |].
  destruct (finish_calls indexFiles) as [_ Hfinish].
  specialize (Hfinish Hwatch).
  destruct (snd (finish c options i18n outputPaths indexFiles))
    as [[] | r' | e] eqn:Hc;
    [rewrite (bindB_normal _ _ tt Hc)
    | rewrite (bindB_return _ _ _ Hc)
    | rewrite (bindB_throw _ _ _ Hc)];
    cbn [fst mret Block_ret]; rewrite ?app_nil_r; exact Hfinish.
Qed.

(** X27: every call for an index gets the lists of the branch the build
    took. Without differential loading these are the emitted files not
    named [polyfills-es5] and, as [noModuleFiles], those named so, which
    together are the emitted files; in watch mode the module files are
    all the emitted files; with bundle downleveling they are the lists of
    the classifier. *)
Theorem index_files_by_branch (buildEvent : BuildEvent)
    (indexFiles : IndexFiles) :
  indexFiles ∈ indexArguments (fst (callback buildEvent)) ->
  indexFilesOf (default [] (emittedFiles buildEvent)) indexFiles
  /\ (isDifferentialLoadingNeeded = false ->
      exists files0 noModuleFiles0,
        files indexFiles = Some files0
        /\ noModuleFiles indexFiles = Some noModuleFiles0
        /\ files0 ++ noModuleFiles0 ≡ₚ default [] (emittedFiles buildEvent)
        /\ Forall (fun x => EmittedFiles.name x = Some "polyfills-es5")
             noModuleFiles0).
Proof.
  intros Hin.
  assert (Hof : indexFilesOf (default [] (emittedFiles buildEvent)) indexFiles).
  { revert Hin. unfold onBuildEvent.
    destruct (webpackStats buildEvent) as [webpackStats0 |];
      [| intros Hin; apply elem_of_nil in Hin; contradiction].
    cbv zeta. destruct (success buildEvent); cbn [negb andb].
    - destruct (branch_spec webpackStats0
                  (default [] (emittedFiles buildEvent)))
        as (_ & Hargs & _ & _ & Hfiles).
      destruct (snd (chosen webpackStats0
                       (default [] (emittedFiles buildEvent))))
        as [indexFiles0 | r' | e] eqn:Hbranch;
        [rewrite (bindB_normal _ _ indexFiles0 Hbranch)
        | rewrite (bindB_return _ _ _ Hbranch); cbn [fst]; rewrite Hargs;
          intros Hin; apply elem_of_nil in Hin; contradiction
        | rewrite (bindB_throw _ _ _ Hbranch); cbn [fst]; rewrite Hargs;
          intros Hin; apply elem_of_nil in Hin; contradiction].
      cbn [fst]. rewrite indexArguments_app, Hargs. cbn [app].
      destruct (finish_calls indexFiles0) as [Hfinish _].
      rewrite Forall_forall in Hfinish.
      destruct (snd (finish c options i18n outputPaths indexFiles0))
        as [[] | r' | e] eqn:Hc;
        [rewrite (bindB_normal _ _ tt Hc)
        | rewrite (bindB_return _ _ _ Hc)
        | rewrite (bindB_throw _ _ _ Hc)];
        cbn [fst mret Block_ret]; rewrite ?app_nil_r; intros Hin;
        rewrite <- (Hfinish _ Hin); apply Hfiles; reflexivity.
    - destruct (useBundleDownleveling options isDifferentialLoadingNeeded);
        [unfold reportFailure;
         destruct (hasWarnings webpackStats0), (hasErrors webpackStats0) |];
        cbn; intros Hin; apply elem_of_nil in Hin; contradiction. }
  split; [exact Hof |].
  intros Hplain.
  destruct Hof as [[_ ->] | [(Hdl & _) | (Hdl & _)]]; [| congruence | congruence].
  eexists _, _. split; [reflexivity |]. split; [reflexivity |]. split.
  - clear. induction (default [] (emittedFiles buildEvent)) as [|x l IH];
      [reflexivity |].
    cbn [List.filter]. destruct (notLegacyPolyfills x); cbn [negb app].
    + constructor. exact IH.
    + rewrite <- Permutation_middle. constructor. exact IH.
  - apply Forall_forall. intros x Hx.
    apply list_elem_of_In, filter_In in Hx as [_ Hx].
    unfold notLegacyPolyfills in Hx. rewrite negb_involutive in Hx.
    apply bool_decide_eq_true in Hx. exact Hx.
Qed.
End CallbackFacts.

Section CallbackCases.
#[local] Existing Instance Demo.host.
Import Callback.

(** Collaborators that succeed. *)
Definition collaborators : Collaborators := {|
  i18nInlineEmittedFiles _ _ := inr true;
  copyAssetPatterns _ := inr tt;
  generateIndex _ _ _ _ _ _ := inr tt;
  augmentAppWithServiceWorker _ _ := inr tt;
  urlJoin a b := a +:+ b
|}.

(** A build with assets and an index, without a service worker. *)
Definition buildOptions (watch0 : bool) : Options :=
mkOptions (Demo.options false) watch0 true true false None None.

Definition noLocales : I18nOptions := mkI18nOptions false ∅.

(** The callback of a build of one output path. *)
Definition callbackOf (c : Collaborators) (options : Options)
    (isDifferentialLoadingNeeded : bool) (outputPaths : list (string * string))
    (buildEvent : BuildEvent) : Block BuilderOutput.t :=
onBuildEvent Demo.world c options noLocales statsHasWarnings statsHasErrors
  isDifferentialLoadingNeeded false "dist" "dist" outputPaths ∅ buildEvent.

(** A build that webpack failed, and one of a main script and the legacy
    polyfills. *)
Definition failedEvent : BuildEvent :=
mkBuildEvent (Some (Stats.mk [] ["Module not found"] None)) false None.

Definition mainEvent : BuildEvent :=
mkBuildEvent (Some Demo.noStats) true
  (Some [Demo.script "3" "main" "main.js";
         Demo.script "1" "polyfills-es5" "polyfills-es5.js"]).

Lemma failed_build_witness :
  output (callbackOf collaborators (buildOptions false) true [("", "dist")]
            failedEvent)
  = Some (BuilderOutput.mk false None)
  /\ fst (callbackOf collaborators (buildOptions false) true [("", "dist")]
            failedEvent)
     = [Branch (LoggerError EmptyString)].
Proof.
  exact (failed_build_is_only_reported Demo.world collaborators
           (buildOptions false) noLocales statsHasWarnings statsHasErrors
           true false "dist" "dist" [("", "dist")] ∅ failedEvent
           (Stats.mk [] ["Module not found"] None) eq_refl eq_refl).
Defined.

Lemma successful_output_witness :
  BuilderOutput.mk true None = BuilderOutput.mk true None
  /\ success mainEvent = true
  /\ exists webpackStats0 indexFiles,
       webpackStats mainEvent = Some webpackStats0
       /\ snd (branch Demo.world collaborators (buildOptions false) noLocales
                 false false "dist" "dist" ∅ webpackStats0
                 (default [] (emittedFiles mainEvent)))
          = Normal indexFiles
       /\ (exists u,
             copied collaborators (buildOptions false) [("", "dist")] = inr u)
       /\ Forall (fun entry =>
                    exists u,
                      written collaborators (buildOptions false) noLocales
                        indexFiles entry = inr u)
            [("", "dist")]
       /\ indexed (fst (callbackOf collaborators (buildOptions false) false
                          [("", "dist")] mainEvent))
          = (if index (buildOptions false) then map snd [("", "dist")] else []).
Proof.
  exact (successful_output_needs_every_step Demo.world collaborators
           (buildOptions false) noLocales statsHasWarnings statsHasErrors
           false false "dist" "dist" [("", "dist")] ∅ mainEvent
           (BuilderOutput.mk true None) eq_refl eq_refl).
Defined.

(** Collaborators whose copy of the assets fails. *)
Definition readOnly : Collaborators :=
mkCollaborators (i18nInlineEmittedFiles collaborators)
  (fun _ => inl (JsError "EACCES: permission denied"))
  (generateIndex collaborators) (augmentAppWithServiceWorker collaborators)
  (urlJoin collaborators).

Lemma asset_copy_failure_witness :
  finish readOnly (buildOptions false) noLocales [("", "dist")]
    (mkIndexFiles None None None)
  = ([CopyAssetPatterns ["dist"]],
     Return (BuilderOutput.mk false
               (Some "Unable to copy assets: EACCES: permission denied"))).
Proof.
  exact (asset_copy_failure_is_the_output readOnly (buildOptions false)
           noLocales [("", "dist")] (mkIndexFiles None None None)
           (JsError "EACCES: permission denied") "EACCES: permission denied"
           eq_refl eq_refl eq_refl eq_refl).
Defined.

(** Collaborators that cannot write the French index. *)
Definition noFrench : Collaborators :=
mkCollaborators (i18nInlineEmittedFiles collaborators)
  (copyAssetPatterns collaborators)
  (fun outputPath0 _ _ _ _ _ =>
     if String.eqb outputPath0 "dist/fr" then inl (JsStr "index.html not found")
     else inr tt)
  (augmentAppWithServiceWorker collaborators) (urlJoin collaborators).

Lemma index_failure_witness :
  snd (finish noFrench (buildOptions false) noLocales
         [("en", "dist/en"); ("fr", "dist/fr"); ("de", "dist/de")]
         (mkIndexFiles None None None))
  = Return (BuilderOutput.mk false (Some "index.html not found"))
  /\ indexed (fst (finish noFrench (buildOptions false) noLocales
                     [("en", "dist/en"); ("fr", "dist/fr"); ("de", "dist/de")]
                     (mkIndexFiles None None None)))
     = ["dist/en"; "dist/fr"].
Proof.
  refine (index_failure_stops_the_loop noFrench (buildOptions false) noLocales
            [("en", "dist/en"); ("fr", "dist/fr"); ("de", "dist/de")]
            (mkIndexFiles None None None) [("en", "dist/en")] ("fr", "dist/fr")
            [("de", "dist/de")] (JsStr "index.html not found")
            eq_refl _ _ eq_refl).
  - exists tt. reflexivity.
  - constructor; [exists tt; reflexivity | constructor].
Defined.

Lemma watch_mode_witness :
  Forall plainCall
    (fst (callbackOf collaborators (buildOptions true) true [("", "dist")]
            mainEvent)).
Proof.
  exact (watch_mode_never_downlevels Demo.world collaborators
           (buildOptions true) noLocales statsHasWarnings statsHasErrors
           true false "dist" "dist" [("", "dist")] ∅ mainEvent eq_refl).
Defined.

Lemma index_files_witness :
  indexFilesOf (buildOptions false) false "dist" ∅
    (default [] (emittedFiles mainEvent))
    (mkIndexFiles (Some [Demo.script "3" "main" "main.js"])
       (Some [Demo.script "1" "polyfills-es5" "polyfills-es5.js"]) None)
  /\ (false = false ->
      exists files0 noModuleFiles0,
        Some [Demo.script "3" "main" "main.js"] = Some files0
        /\ Some [Demo.script "1" "polyfills-es5" "polyfills-es5.js"]
           = Some noModuleFiles0
        /\ files0 ++ noModuleFiles0 ≡ₚ default [] (emittedFiles mainEvent)
        /\ Forall (fun x => EmittedFiles.name x = Some "polyfills-es5")
             noModuleFiles0).
Proof.
  refine (index_files_by_branch Demo.world collaborators (buildOptions false)
            noLocales statsHasWarnings statsHasErrors false false "dist"
            "dist" [("", "dist")] ∅ mainEvent
            (mkIndexFiles (Some [Demo.script "3" "main" "main.js"])
               (Some [Demo.script "1" "polyfills-es5" "polyfills-es5.js"])
               None) _).
  vm_compute. apply list_elem_of_here.
Defined.
End CallbackCases.

(** ** The style sheets the optimizer rewrites *)

Section OptimizeCssFacts.
Import OptimizeCssWebpackPlugin.
Variable this : Options.
Variable process : string -> string -> option string -> Exc Result.
Variable completionOrder : list string -> list string.

(** The source an action stores, the warnings it adds, and the error it
    is rejected with. *)
Definition storedBy (compilation : Compilation) (file : string)
    : option Source :=
match action this process compilation file with
| Optimized _ newSource => Some newSource
| _ => None
end.

Definition warnedBy (compilation : Compilation) (file : string)
    : list string :=
match action this process compilation file with
| Optimized texts _ => texts
| _ => []
end.

Definition rejectedBy (compilation : Compilation) (file : string)
    : option JsValue :=
match action this process compilation file with
| Rejected e => Some e
| _ => None
end.

Fixpoint firstRejection (compilation : Compilation) (files : list string)
    : option JsValue :=
match files with
| [] => None
| file :: rest =>
    match rejectedBy compilation file with
    | Some e => Some e
    | None => firstRejection compilation rest
    end
end.

Lemma settle_fold (compilation0 : Compilation) (files : list string) :
  forall acc : Compilation * option JsValue,
    additionalChunkAssets (fst (fold_left (settle this process compilation0)
                                  files acc))
    = additionalChunkAssets (fst acc)
    /\ (forall file,
          assets (fst (fold_left (settle this process compilation0) files acc))
            !! file
          = match (if bool_decide (file ∈ files)
                   then storedBy compilation0 file else None) with
            | Some newSource => Some newSource
            | None => assets (fst acc) !! file
            end)
    /\ compilation_warnings
         (fst (fold_left (settle this process compilation0) files acc))
       = compilation_warnings (fst acc)
         ++ concat (map (warnedBy compilation0) files)
    /\ snd (fold_left (settle this process compilation0) files acc)
       = match snd acc with
         | Some first => Some first
         | None => firstRejection compilation0 files
         end.
Proof.
  induction files as [|file0 rest IH]; intros acc.
  - cbn. rewrite app_nil_r. repeat split. destruct (snd acc); reflexivity.
  - cbn [fold_left].
    destruct (IH (settle this process compilation0 acc file0))
      as (Hadd & Hassets & Hwarn & Hrej).
    rewrite Hadd, Hwarn, Hrej. clear Hadd Hwarn Hrej IH.
    assert (Hstep : forall file,
              match (if bool_decide (file ∈ rest)
                     then storedBy compilation0 file else None) with
              | Some newSource => Some newSource
              | None =>
                  assets (fst (settle this process compilation0 acc file0))
                    !! file
              end
              = match (if bool_decide (file ∈ file0 :: rest)
                       then storedBy compilation0 file else None) with
                | Some newSource => Some newSource
                | None => assets (fst acc) !! file
                end).
    { intros file. unfold settle, storedBy.
      destruct (decide (file = file0)) as [-> | Hne].
      - rewrite (bool_decide_eq_true_2 (file0 ∈ file0 :: rest));
          [| apply list_elem_of_here].
        destruct (action this process compilation0 file0) as [| e | texts src];
          cbn [fst assets]; try (case_bool_decide; reflexivity).
        rewrite lookup_insert_eq. case_bool_decide; reflexivity.
      - assert (Hiff : bool_decide (file ∈ file0 :: rest)
                       = bool_decide (file ∈ rest)).
        { apply bool_decide_ext. rewrite elem_of_cons. tauto. }
        rewrite Hiff.
        destruct (if bool_decide (file ∈ rest)
                  then match action this process compilation0 file with
                       | Optimized _ newSource => Some newSource
                       | _ => None
                       end
                  else None);
          [reflexivity |].
        destruct (action this process compilation0 file0) as [| e | texts src];
          cbn [fst assets]; try reflexivity.
        apply lookup_insert_ne. congruence. }
    split; [| split; [| split]].
    + unfold settle.
      destruct (action this process compilation0 file0); reflexivity.
    + intros file. rewrite Hassets. apply Hstep.
    + cbn [map concat]. unfold settle, warnedBy at 2.
      destruct (action this process compilation0 file0) as [| e | texts src];
        cbn [fst compilation_warnings app]; try reflexivity.
      rewrite <- app_assoc. reflexivity.
    + cbn [firstRejection]. unfold settle, rejectedBy.
      destruct (action this process compilation0 file0) as [| e | texts src];
        cbn [snd]; try reflexivity.
      destruct (snd acc); reflexivity.
Qed.

Lemma firstRejection_none (compilation : Compilation) (files : list string) :
  firstRejection compilation files = None
  <-> Forall (fun file => rejectedBy compilation file = None) files.
Proof.
  induction files as [|file rest IH]; cbn [firstRejection].
  - split; [constructor | reflexivity].
  - rewrite Forall_cons, <- IH.
    destruct (rejectedBy compilation file); split; try tauto;
      try discriminate; intros [? _]; discriminate.
Qed.

Lemma concat_map_Permutation {A B} (f : A -> list B) (l1 l2 : list A) :
  l1 ≡ₚ l2 -> concat (map f l1) ≡ₚ concat (map f l2).
Proof.
  induction 1 as [| x l1 l2 _ IH | x y l | l1 l2 l3 _ IH1 _ IH2];
    cbn [map concat].
  - reflexivity.
  - rewrite IH. reflexivity.
  - rewrite !app_assoc. apply Permutation_app_tail, Permutation_app_comm.
  - rewrite IH1. exact IH2.
Qed.

Lemma stored_is_an_asset (compilation : Compilation) (file : string)
    (newSource : Source) :
  storedBy compilation file = Some newSource ->
  is_Some (assets compilation !! file).
Proof.
  unfold storedBy, action.
  destruct (assets compilation !! file); [eauto | discriminate].
Qed.

(** X28: once every action is settled, the assets that changed are style
    sheets listed among the additional chunk assets or the files of a
    chunk, each replaced by the source made from its content as the hook
    found it; no asset is added or removed, every other asset is as it
    was, and a failure of [cssNano] on one file keeps no other file from
    being rewritten. *)
Theorem only_listed_style_sheets_change (compilation : Compilation)
    (chunks : list Chunk) :
  (forall l, completionOrder l ≡ₚ l) ->
  (forall file,
     assets (fst (optimizeChunkAssets this process completionOrder
                    compilation chunks)) !! file
     = if test this file
          && bool_decide (file ∈ filesOf compilation chunks)
       then match storedBy compilation file with
            | Some newSource => Some newSource
            | None => assets compilation !! file
            end
       else assets compilation !! file)
  /\ (forall file,
        is_Some (assets (fst (optimizeChunkAssets this process completionOrder
                                compilation chunks)) !! file)
        <-> is_Some (assets compilation !! file))
  /\ additionalChunkAssets
       (fst (optimizeChunkAssets this process completionOrder compilation
               chunks))
     = additionalChunkAssets compilation.
Proof.
  intros Hfair. unfold optimizeChunkAssets.
  destruct (settle_fold compilation
              (completionOrder
                 (List.filter (test this) (filesOf compilation chunks)))
              (compilation, None)) as (Hadd & Hassets & _).
  cbn [fst] in Hadd, Hassets.
  assert (Hlookup : forall file,
            assets (fst (fold_left (settle this process compilation)
                           (completionOrder
                              (List.filter (test this)
                                 (filesOf compilation chunks)))
                           (compilation, None))) !! file
            = if test this file
                 && bool_decide (file ∈ filesOf compilation chunks)
              then match storedBy compilation file with
                   | Some newSource => Some newSource
                   | None => assets compilation !! file
                   end
              else assets compilation !! file).
  { intros file. rewrite Hassets.
    assert (Hin : bool_decide
                    (file ∈ completionOrder
                              (List.filter (test this)
                                 (filesOf compilation chunks)))
                  = test this file
                    && bool_decide (file ∈ filesOf compilation chunks)).
    { apply eq_true_iff_eq. rewrite bool_decide_eq_true, andb_true_iff,
        bool_decide_eq_true, (Hfair _), !list_elem_of_In, filter_In. tauto. }
    rewrite Hin.
    destruct (test this file
              && bool_decide (file ∈ filesOf compilation chunks));
      reflexivity. }
  split; [exact Hlookup |]. split; [| exact Hadd].
  intros file. rewrite Hlookup.
  destruct (test this file
            && bool_decide (file ∈ filesOf compilation chunks));
    [| reflexivity].
  destruct (storedBy compilation file) as [newSource |] eqn:Hstored;
    [| reflexivity].
  split; [intros _; exact (stored_is_an_asset _ _ _ Hstored) | eauto].
Qed.

(** X29: the promise of the hook is fulfilled exactly when [cssNano]
    fails on none of the listed style sheets; the warnings of the
    compilation are kept, in front, and those [cssNano] gave for the
    rewritten style sheets are added to them, each as often as its file is
    listed. *)
Theorem optimizer_rejections_and_warnings (compilation : Compilation)
    (chunks : list Chunk) :
  (forall l, completionOrder l ≡ₚ l) ->
  (snd (optimizeChunkAssets this process completionOrder compilation chunks)
   = None
   <-> Forall (fun file => rejectedBy compilation file = None)
         (List.filter (test this) (filesOf compilation chunks)))
  /\ compilation_warnings compilation
     `prefix_of` compilation_warnings
                   (fst (optimizeChunkAssets this process completionOrder
                           compilation chunks))
  /\ compilation_warnings
       (fst (optimizeChunkAssets this process completionOrder compilation
               chunks))
     ≡ₚ compilation_warnings compilation
        ++ concat (map (warnedBy compilation)
                     (List.filter (test this) (filesOf compilation chunks))).
Proof.
  intros Hfair. unfold optimizeChunkAssets.
  destruct (settle_fold compilation
              (completionOrder
                 (List.filter (test this) (filesOf compilation chunks)))
              (compilation, None)) as (_ & _ & Hwarn & Hrej).
  cbn [fst snd] in Hwarn, Hrej. rewrite Hwarn, Hrej.
  split; [| split].
  - rewrite firstRejection_none. rewrite (Hfair _). reflexivity.
  - eexists. reflexivity.
  - apply Permutation_app_head, concat_map_Permutation, Hfair.
Qed.
End OptimizeCssFacts.

Section OptimizeCssCases.
Import OptimizeCssWebpackPlugin.

(** A minifier that drops the spaces of a rule it knows and gives up on
    anything else. *)
Definition minify (content file : string) (prev : option string)
    : Exc Result :=
if String.eqb content "a { color: red }"
then inr (mkResult "a{color:red}" None [])
else inl (JsError "Unknown word").

(** A compilation with a style sheet, a broken one and a script. *)
Definition styles : Compilation :=
mkCompilation []
  (<["styles.css" := Existing "a { color: red }" None]>
     (<["broken.css" := Existing "a {" None]>
        (<["main.js" := Existing "a { color: red }" None]> ∅)))
  [].

Lemma only_listed_style_sheets_witness :
  (forall file,
     assets (fst (optimizeChunkAssets (new (mkPartialOptions None None)) minify
                    id styles
                    [mkChunk (Some ["broken.css"; "styles.css"; "main.js"])]))
       !! file
     = if test (new (mkPartialOptions None None)) file
          && bool_decide
               (file ∈ filesOf styles
                         [mkChunk (Some ["broken.css"; "styles.css"; "main.js"])])
       then match storedBy (new (mkPartialOptions None None)) minify styles
                    file with
            | Some newSource => Some newSource
            | None => assets styles !! file
            end
       else assets styles !! file)
  /\ (forall file,
        is_Some (assets (fst (optimizeChunkAssets
                                (new (mkPartialOptions None None)) minify id
                                styles
                                [mkChunk (Some ["broken.css"; "styles.css";
                                                "main.js"])])) !! file)
        <-> is_Some (assets styles !! file))
  /\ additionalChunkAssets
       (fst (optimizeChunkAssets (new (mkPartialOptions None None)) minify id
               styles
               [mkChunk (Some ["broken.css"; "styles.css"; "main.js"])]))
     = additionalChunkAssets styles.
Proof.
  exact (only_listed_style_sheets_change (new (mkPartialOptions None None))
           minify id styles
           [mkChunk (Some ["broken.css"; "styles.css"; "main.js"])]
           (fun l => Permutation_refl l)).
Defined.

Lemma optimizer_rejections_witness :
  (snd (optimizeChunkAssets (new (mkPartialOptions None None)) minify id styles
          [mkChunk (Some ["styles.css"; "main.js"])])
   = None
   <-> Forall (fun file =>
                 rejectedBy (new (mkPartialOptions None None)) minify styles
                   file = None)
         (List.filter (test (new (mkPartialOptions None None)))
            (filesOf styles [mkChunk (Some ["styles.css"; "main.js"])])))
  /\ compilation_warnings styles
     `prefix_of` compilation_warnings
                   (fst (optimizeChunkAssets (new (mkPartialOptions None None))
                           minify id styles
                           [mkChunk (Some ["styles.css"; "main.js"])]))
  /\ compilation_warnings
       (fst (optimizeChunkAssets (new (mkPartialOptions None None)) minify id
               styles [mkChunk (Some ["styles.css"; "main.js"])]))
     ≡ₚ compilation_warnings styles
        ++ concat (map (warnedBy (new (mkPartialOptions None None)) minify
                          styles)
                     (List.filter (test (new (mkPartialOptions None None)))
                        (filesOf styles
                           [mkChunk (Some ["styles.css"; "main.js"])]))).
Proof.
  exact (optimizer_rejections_and_warnings (new (mkPartialOptions None None))
           minify id styles [mkChunk (Some ["styles.css"; "main.js"])]
           (fun l => Permutation_refl l)).
Defined.

(** The broken style sheet is left as it was, the other one is rewritten,
    and the script is not touched. *)
Example broken_style_sheet_is_kept :
  assets (fst (optimizeChunkAssets (new (mkPartialOptions None None)) minify id
                 styles
                 [mkChunk (Some ["broken.css"; "styles.css"; "main.js"])]))
  = <["styles.css" := RawSource "a{color:red}"]> (assets styles)
  /\ snd (optimizeChunkAssets (new (mkPartialOptions None None)) minify id
            styles [mkChunk (Some ["broken.css"; "styles.css"; "main.js"])])
     = Some (JsError "Unknown word").
Proof. split; vm_compute; reflexivity. Qed.
End OptimizeCssCases.

(** ** The start of a build *)

Section InitializeFacts.
Import Initialize.
Variable Configuration : Type.
Variable buildBrowserWebpackConfigFromContext : Options -> Exc Configuration.
Variable normalizeAssetPatterns : list string -> Exc (list string).
Variable webpackConfigurationTransform :
  option (Configuration -> Exc (option Configuration)).
Variable deleteOutputDir : string -> Exc unit.

Lemma validate_outside (outputs : list string) :
  Exists (fun output => startsWith output ".." = true) outputs ->
  validate outputs
  = inl (JsError
           "An asset cannot be written to a location outside of the output path.").
Proof.
  induction outputs as [|output rest IH]; intros Hex.
  - apply Exists_nil in Hex. contradiction.
  - cbn [validate]. destruct (startsWith output "..") eqn:Hout;
      [reflexivity |].
    apply Exists_cons in Hex as [Hhere | Hlater]; [congruence | exact (IH Hlater)].
Qed.

(** X30: outside watch mode, when the configuration is built and the
    output of one of the normalised asset patterns starts with two dots,
    the start of the build throws before the configuration is transformed
    and before the output directory is deleted; the configuration was
    built for options without assets. *)
Theorem asset_outside_output_path_stops_the_start (options : Options)
    (config : Configuration) (outputs : list string) :
  watch options = false ->
  hasAssets options = true ->
  buildBrowserWebpackConfigFromContext (with_assets options (Some []))
  = inr config ->
  normalizeAssetPatterns (default [] (assets options)) = inr outputs ->
  Exists (fun output => startsWith output ".." = true) outputs ->
  initialize Configuration buildBrowserWebpackConfigFromContext
    normalizeAssetPatterns webpackConfigurationTransform deleteOutputDir
    options
  = ([BuildConfig (with_assets options (Some []));
      NormalizeAssetPatterns (default [] (assets options))],
     inl (JsError
            "An asset cannot be written to a location outside of the output path.")).
Proof.
  intros Hwatch Hassets Hconfig Houtputs Hex. unfold initialize.
  rewrite Hwatch, Hconfig, Hassets. cbn [hasAssets with_assets assets negb andb].
  unfold mbind, Run_bind, step. cbn [fst snd].
  rewrite Houtputs. cbn [fst snd]. rewrite (validate_outside _ Hex).
  reflexivity.
Qed.

(** In watch mode the patterns are not checked at the start and the
    configuration is built for the options as they are. *)
Lemma watch_mode_checks_no_asset (options : Options) :
  watch options = true ->
  Forall (fun s =>
            s = BuildConfig options \/ isTransform s = true
            \/ isDeleteOutputDir s = true)
    (fst (initialize Configuration buildBrowserWebpackConfigFromContext
            normalizeAssetPatterns webpackConfigurationTransform
            deleteOutputDir options)).
Proof.
  intros Hwatch. unfold initialize. rewrite Hwatch.
  assert (Hno : hasAssets options && negb (hasAssets options) = false)
    by (destruct (hasAssets options); reflexivity).
  rewrite Hno. unfold mbind, Run_bind, step. cbn [fst snd].
  destruct (buildBrowserWebpackConfigFromContext options) as [e | cfg];
    cbn [fst snd mret Run_ret app]; [repeat constructor |].
  destruct webpackConfigurationTransform as [transform |];
    [destruct (transform cfg) as [e | transformed] |];
    cbn [fst snd mret Run_ret app];
    try (destruct (deleteOutputPath options);
         [destruct (deleteOutputDir (outputPath options)) |]);
    cbn [fst snd mret Run_ret app];
    repeat (apply List.Forall_cons || apply List.Forall_nil); auto.
Qed.
End InitializeFacts.

Section InitializeCases.
Import Initialize.

Lemma asset_outside_output_path_witness :
  initialize unit (fun _ => inr tt)
    (fun _ => inr ["assets"; "../secrets"]) None (fun _ => inr tt)
    (mkOptions "dist" false (Some ["src/assets"; "../secrets"]) true)
  = ([BuildConfig (mkOptions "dist" false (Some []) true);
      NormalizeAssetPatterns ["src/assets"; "../secrets"]],
     inl (JsError
            "An asset cannot be written to a location outside of the output path.")).
Proof.
  refine (asset_outside_output_path_stops_the_start unit (fun _ => inr tt)
            (fun _ => inr ["assets"; "../secrets"]) None (fun _ => inr tt)
            (mkOptions "dist" false (Some ["src/assets"; "../secrets"]) true)
            tt ["assets"; "../secrets"] eq_refl eq_refl eq_refl eq_refl _).
  apply Exists_cons_tl, Exists_cons_hd. reflexivity.
Defined.
End InitializeCases.
